(** * fastify-ddb: the SkiLift record service, its schemas and its store

    A shallow embedding of [src/services/skilift.service.ts] (the class
    [SkiLiftService]), [src/utils/error-handler.ts] (the error classes and
    [formatErrorResponse]), the schemas of [src/schemas/skilift.schemas.ts],
    the handlers of [src/routes/skilift.routes.ts] and the client
    configuration of [src/db/dynamodb.client.ts], together with a reference
    model of the key-value store the service talks to and of the recording
    client of the unit tests.

    Conventions.
    - A JavaScript [number] that reaches the service is finite; it is
      modelled as an exact rational ([Q]).  Rounding to IEEE-754 doubles is
      not modelled.
    - A string is the sequence of the bytes of its UTF-8 encoding.
    - An optional property ([T | undefined]) is an [option].
    - An [async] method is a state transformer over the client's state that
      either resolves with a value or rejects with a thrown value.
    - A route is its handler followed by the response schema the route
      declares for the status of the reply.  The request-side options of a
      route are not modelled: each handler parses the request itself.
    - The two handlers that pass a query parameter to the service without
      a schema that bounds it to finite numbers (the queries of one lift)
      are not embedded. *)

From Stdlib Require Import QArith.
From Stdlib Require Import String Ascii List Bool Lia.
From Stdlib Require Import OrderedTypeEx.
From stdpp Require Import base option gmap strings list sorting pretty.

Local Open Scope string_scope.

(* ================================================================== *)
(** * Numbers *)

Definition number := Q.

Definition num_le (a b : number) : bool := Qle_bool a b.
Definition num_lt (a b : number) : bool := negb (Qle_bool b a).

(** [Number.isInteger] on a finite number. *)
Definition num_is_integer (a : number) : bool :=
  Pos.eqb (Qden (Qred a)) 1.

(* ================================================================== *)
(** * Errors: [src/utils/error-handler.ts] *)

(** An [Error] object coming from outside the application (the storage
    client rejects with one of these). *)
Module JsError.
Record t := mk { name : string; message : string; stack : string }.
End JsError.

Inductive ErrorClass :=
  | AppErrorClass
  | NotFoundErrorClass
  | ValidationErrorClass
  | DynamoDBErrorClass.

Definition ErrorClass_eqb (a b : ErrorClass) : bool :=
  match a, b with
  | AppErrorClass, AppErrorClass
  | NotFoundErrorClass, NotFoundErrorClass
  | ValidationErrorClass, ValidationErrorClass
  | DynamoDBErrorClass, DynamoDBErrorClass => true
  | _, _ => false
  end.

Definition className (c : ErrorClass) : string :=
  match c with
  | AppErrorClass => "AppError"
  | NotFoundErrorClass => "NotFoundError"
  | ValidationErrorClass => "ValidationError"
  | DynamoDBErrorClass => "DynamoDBError"
  end.

(** The [stack] property.  [Error.captureStackTrace(this, this.constructor)]
    records the construction site; [DynamoDBError] may overwrite it with the
    stack string of the error it wraps. *)
Inductive StackTrace :=
  | CapturedStack (ctor : ErrorClass)
  | StackString (s : string).

Module AppError.
(** [constructor_] is the class the object was built with
    ([this.name = this.constructor.name]).  [cause] is the standard
    [cause] own property of an [Error]: it exists only when something
    installs it. *)
Record t := mk {
  constructor_ : ErrorClass;
  message : string;
  statusCode : Z;
  code : option string;
  stack : StackTrace;
  cause : option JsError.t
}.
Definition name (e : t) : string := className (constructor_ e).
End AppError.

(** Whatever can be thrown inside the application. *)
Inductive Thrown :=
  | ThrownApp (e : AppError.t)
  | ThrownJs (e : JsError.t).

Definition thrownStack (x : Thrown) : StackTrace :=
  match x with
  | ThrownApp e => AppError.stack e
  | ThrownJs e => StackString (JsError.stack e)
  end.

(** [class AppError extends Error]:
    [constructor(message, statusCode = 500, code?)] calls [super(message)],
    sets [name] and captures a stack trace.  No [cause] is installed. *)
Definition newAppError (cls : ErrorClass) (message : string)
    (statusCode : option Z) (code : option string) : AppError.t :=
  AppError.mk cls message (default 500%Z statusCode) code (CapturedStack cls) None.

(** [class NotFoundError]: [super(message, 404, "NOT_FOUND")]. *)
Definition NotFoundError (message : option string) : AppError.t :=
  newAppError NotFoundErrorClass (default "Resource not found" message)
    (Some 404%Z) (Some "NOT_FOUND").

(** [class ValidationError]: [super(message, 400, "VALIDATION_ERROR")]. *)
Definition ValidationError (message : option string) : AppError.t :=
  newAppError ValidationErrorClass (default "Validation failed" message)
    (Some 400%Z) (Some "VALIDATION_ERROR").

(** [class DynamoDBError]: [super(message, 500, "DYNAMODB_ERROR")], then
    [if (originalError) this.stack = originalError.stack].  A thrown object
    is truthy, so the branch is taken exactly when the argument is given. *)
Definition DynamoDBError (message : string) (originalError : option Thrown)
    : AppError.t :=
  let this := newAppError DynamoDBErrorClass message (Some 500%Z)
                (Some "DYNAMODB_ERROR") in
  match originalError with
  | Some e =>
      AppError.mk (AppError.constructor_ this) (AppError.message this)
        (AppError.statusCode this) (AppError.code this) (thrownStack e)
        (AppError.cause this)
  | None => this
  end.

(** [e instanceof C] for the four classes of the module. *)
Definition instanceOf (e : AppError.t) (c : ErrorClass) : bool :=
  match c with
  | AppErrorClass => true
  | _ => ErrorClass_eqb (AppError.constructor_ e) c
  end.

(* ================================================================== *)
(** * Records: [src/types/skilift.types.ts] and the inferred input types
      of [src/schemas/skilift.schemas.ts] *)

Inductive LiftStatus := Open | Closed | Pending.

Inductive AvalancheDanger := Low | Moderate | Considerable | High | Extreme.

Definition LiftStatus_to_string (s : LiftStatus) : string :=
  match s with Open => "Open" | Closed => "Closed" | Pending => "Pending" end.

Definition AvalancheDanger_to_string (d : AvalancheDanger) : string :=
  match d with
  | Low => "Low" | Moderate => "Moderate" | Considerable => "Considerable"
  | High => "High" | Extreme => "Extreme"
  end.

Module CreateStaticDataInput.
Record t := mk {
  Lift : string;
  ExperiencedRidersOnly : bool;
  VerticalFeet : number;
  LiftTime : string
}.
End CreateStaticDataInput.

Module CreateDynamicDataInput.
Record t := mk {
  Lift : string;
  Metadata : string;
  TotalUniqueLiftRiders : number;
  AverageSnowCoverageInches : number;
  LiftStatus : LiftStatus;
  AvalancheDanger : AvalancheDanger
}.
End CreateDynamicDataInput.

Module CreateResortDataInput.
Record t := mk {
  Metadata : string;
  TotalUniqueLiftRiders : number;
  AverageSnowCoverageInches : number;
  AvalancheDanger : AvalancheDanger;
  OpenLifts : list number
}.
End CreateResortDataInput.

Module UpdateStaticDataInput.
Record t := mk {
  ExperiencedRidersOnly : option bool;
  VerticalFeet : option number;
  LiftTime : option string
}.
End UpdateStaticDataInput.

Module UpdateDynamicDataInput.
Record t := mk {
  TotalUniqueLiftRiders : option number;
  AverageSnowCoverageInches : option number;
  LiftStatus : option LiftStatus;
  AvalancheDanger : option AvalancheDanger
}.
End UpdateDynamicDataInput.

Module ListQueryInput.
Record t := mk {
  limit : number;
  lastEvaluatedLift : option string;
  lastEvaluatedMetadata : option string
}.
End ListQueryInput.

Module QueryByRidersInput.
Record t := mk {
  minRiders : option number;
  maxRiders : option number;
  limit : number
}.
End QueryByRidersInput.

Module SkiLiftStaticData.
Record t := mk {
  Lift : string;
  Metadata : string;
  ExperiencedRidersOnly : bool;
  VerticalFeet : number;
  LiftTime : string
}.
End SkiLiftStaticData.

Module SkiLiftDynamicData.
Record t := mk {
  Lift : string;
  Metadata : string;
  TotalUniqueLiftRiders : number;
  AverageSnowCoverageInches : number;
  LiftStatus : LiftStatus;
  AvalancheDanger : AvalancheDanger
}.
End SkiLiftDynamicData.

(** The object literal built by [createResortData] (it has no [LiftStatus]). *)
Module ResortData.
Record t := mk {
  Lift : string;
  Metadata : string;
  TotalUniqueLiftRiders : number;
  AverageSnowCoverageInches : number;
  AvalancheDanger : AvalancheDanger;
  OpenLifts : list number
}.
End ResortData.

(* ================================================================== *)
(** * The document client's view of data *)

(** Attribute values as the document client marshals JavaScript values:
    a string, a number, a boolean, an array. *)
#[warnings="-register-all"]
Inductive AttributeValue :=
  | AttrS (s : string)
  | AttrN (n : number)
  | AttrBOOL (b : bool)
  | AttrL (l : list AttributeValue).

(** An item: a JavaScript object read as a map from attribute names. *)
Abbreviation AttributeMap := (gmap string AttributeValue).

Module Key.
Record t := mk { Lift : string; Metadata : string }.
End Key.

Definition marshalStatic (x : SkiLiftStaticData.t) : AttributeMap :=
  list_to_map
    [ ("Lift", AttrS (SkiLiftStaticData.Lift x));
      ("Metadata", AttrS (SkiLiftStaticData.Metadata x));
      ("ExperiencedRidersOnly", AttrBOOL (SkiLiftStaticData.ExperiencedRidersOnly x));
      ("VerticalFeet", AttrN (SkiLiftStaticData.VerticalFeet x));
      ("LiftTime", AttrS (SkiLiftStaticData.LiftTime x)) ].

Definition marshalDynamic (x : SkiLiftDynamicData.t) : AttributeMap :=
  list_to_map
    [ ("Lift", AttrS (SkiLiftDynamicData.Lift x));
      ("Metadata", AttrS (SkiLiftDynamicData.Metadata x));
      ("TotalUniqueLiftRiders", AttrN (SkiLiftDynamicData.TotalUniqueLiftRiders x));
      ("AverageSnowCoverageInches", AttrN (SkiLiftDynamicData.AverageSnowCoverageInches x));
      ("LiftStatus", AttrS (LiftStatus_to_string (SkiLiftDynamicData.LiftStatus x)));
      ("AvalancheDanger", AttrS (AvalancheDanger_to_string (SkiLiftDynamicData.AvalancheDanger x))) ].

Definition marshalResort (x : ResortData.t) : AttributeMap :=
  list_to_map
    [ ("Lift", AttrS (ResortData.Lift x));
      ("Metadata", AttrS (ResortData.Metadata x));
      ("TotalUniqueLiftRiders", AttrN (ResortData.TotalUniqueLiftRiders x));
      ("AverageSnowCoverageInches", AttrN (ResortData.AverageSnowCoverageInches x));
      ("AvalancheDanger", AttrS (AvalancheDanger_to_string (ResortData.AvalancheDanger x)));
      ("OpenLifts", AttrL (map AttrN (ResortData.OpenLifts x))) ].

(* ================================================================== *)
(** * Commands of [@aws-sdk/lib-dynamodb], with the input properties the
      service sets, and the response properties it reads *)

Module PutCommandInput.
Record t := mk { TableName : string; Item : AttributeMap }.
End PutCommandInput.

Module GetCommandInput.
Record t := mk { TableName : string; Key : Key.t }.
End GetCommandInput.

Module DeleteCommandInput.
Record t := mk { TableName : string; Key : Key.t }.
End DeleteCommandInput.

Module UpdateCommandInput.
Record t := mk {
  TableName : string;
  Key : Key.t;
  UpdateExpression : string;
  ExpressionAttributeNames : gmap string string;
  ExpressionAttributeValues : gmap string AttributeValue;
  ReturnValues : string
}.
End UpdateCommandInput.

Module QueryCommandInput.
Record t := mk {
  TableName : string;
  IndexName : option string;
  KeyConditionExpression : string;
  ExpressionAttributeValues : gmap string AttributeValue;
  Limit : number;
  ScanIndexForward : option bool
}.
End QueryCommandInput.

Module ScanCommandInput.
Record t := mk {
  TableName : string;
  Limit : number;
  ExclusiveStartKey : option Key.t
}.
End ScanCommandInput.

Inductive Command :=
  | PutCommand (input : PutCommandInput.t)
  | GetCommand (input : GetCommandInput.t)
  | QueryCommand (input : QueryCommandInput.t)
  | ScanCommand (input : ScanCommandInput.t)
  | UpdateCommand (input : UpdateCommandInput.t)
  | DeleteCommand (input : DeleteCommandInput.t).

(** A response object; a property the response does not have reads as
    [undefined]. *)
Module Output.
Record t := mk {
  Item : option AttributeMap;
  Items : option (list AttributeMap);
  LastEvaluatedKey : option AttributeMap;
  Count : option number;
  Attributes : option AttributeMap
}.
Definition empty : t := mk None None None None None.
End Output.

Module PaginatedResponse.
Record t := mk {
  items : list AttributeMap;
  lastEvaluatedKey : option AttributeMap;
  count : number
}.
End PaginatedResponse.

(* ================================================================== *)
(** * Asynchronous computations over a client state *)

Inductive Outcome (E A : Type) :=
  | Resolved (a : A)
  | Rejected (e : E).
Arguments Resolved {E A} a.
Arguments Rejected {E A} e.

Definition Async (St E A : Type) : Type := St -> Outcome E A * St.

Definition ret {St E A} (a : A) : Async St E A :=
  fun st => (Resolved a, st).

Definition throw {St E A} (e : E) : Async St E A :=
  fun st => (Rejected e, st).

Definition bind {St E A B} (c : Async St E A) (k : A -> Async St E B)
    : Async St E B :=
  fun st =>
    match c st with
    | (Resolved a, st') => k a st'
    | (Rejected e, st') => (Rejected e, st')
    end.

(** [try { c } catch (error) { h error }] *)
Definition tryCatch {St E E' A} (c : Async St E A) (h : E -> Async St E' A)
    : Async St E' A :=
  fun st =>
    match c st with
    | (Resolved a, st') => (Resolved a, st')
    | (Rejected e, st') => h e st'
    end.

Notation "'await' x <- c ; k" := (bind c (fun x => k))
  (at level 10, x name, c at level 100, k at level 200).

(** The injected client: [send] resolves with a response or rejects with
    an error of the SDK. *)
Definition DynamoDBDocumentClient (St : Type) : Type :=
  Command -> Async St JsError.t Output.t.

Definition send {St} (dynamodb : DynamoDBDocumentClient St) (c : Command)
    : Async St Thrown Output.t :=
  tryCatch (dynamodb c) (fun e => throw (ThrownJs e)).

(** [x instanceof C] for a thrown value; an error of the SDK is an instance
    of none of the application's classes. *)
Definition thrownInstanceOf (x : Thrown) (c : ErrorClass) : bool :=
  match x with
  | ThrownApp e => instanceOf e c
  | ThrownJs _ => false
  end.

(** [TABLE_NAME = process.env.DYNAMODB_TABLE_NAME || "SkiLifts"], with the
    variable unset, and [GSI_NAME]. *)
Definition TABLE_NAME : string := "SkiLifts".
Definition GSI_NAME : string := "SkiLiftsByRiders".

(* ================================================================== *)
(** * [class SkiLiftService]: [src/services/skilift.service.ts] *)

(** JavaScript truthiness of an optional string: [undefined] and the empty
    string are falsy. *)
Definition truthyString (s : option string) : bool :=
  match s with
  | Some s => negb (String.eqb s "")
  | None => false
  end.

(** [x || d] on an optional array or object (always truthy when present). *)
Definition orElse {A} (x : option A) (d : A) : A := default d x.

(** [x || 0] on an optional number: [undefined] and [0] give [0]. *)
Definition orZero (x : option number) : number :=
  match x with
  | Some n => if Qeq_bool n 0 then 0%Q else n
  | None => 0%Q
  end.

Definition paginated (result : Output.t) : PaginatedResponse.t :=
  {| PaginatedResponse.items := orElse (Output.Items result) [];
     PaginatedResponse.lastEvaluatedKey := Output.LastEvaluatedKey result;
     PaginatedResponse.count := orZero (Output.Count result) |}.

(** The three pieces an update method accumulates before it sends. *)
Module UpdateParts.
Record t := mk {
  updateExpressions : list string;
  expressionAttributeNames : gmap string string;
  expressionAttributeValues : gmap string AttributeValue
}.
Definition empty : t := mk [] ∅ ∅.
(** [updateExpressions.push(e); names[n] = a; values[p] = v] *)
Definition add (e n a p : string) (v : AttributeValue) (u : t) : t :=
  mk (updateExpressions u ++ [e])
     (<[n := a]> (expressionAttributeNames u))
     (<[p := v]> (expressionAttributeValues u)).
End UpdateParts.

(** [if (x !== undefined) { ... }] *)
Definition whenDefined {A} (x : option A) (f : A -> UpdateParts.t -> UpdateParts.t)
    (u : UpdateParts.t) : UpdateParts.t :=
  match x with
  | Some v => f v u
  | None => u
  end.

(** Lines 175-195 of the service. *)
Definition staticUpdateParts (data : UpdateStaticDataInput.t) : UpdateParts.t :=
  let u := UpdateParts.empty in
  let u := whenDefined (UpdateStaticDataInput.ExperiencedRidersOnly data)
             (fun v => UpdateParts.add "#experiencedRidersOnly = :experiencedRidersOnly"
                         "#experiencedRidersOnly" "ExperiencedRidersOnly"
                         ":experiencedRidersOnly" (AttrBOOL v)) u in
  let u := whenDefined (UpdateStaticDataInput.VerticalFeet data)
             (fun v => UpdateParts.add "#verticalFeet = :verticalFeet"
                         "#verticalFeet" "VerticalFeet"
                         ":verticalFeet" (AttrN v)) u in
  let u := whenDefined (UpdateStaticDataInput.LiftTime data)
             (fun v => UpdateParts.add "#liftTime = :liftTime"
                         "#liftTime" "LiftTime"
                         ":liftTime" (AttrS v)) u in
  u.

(** Lines 230-256 of the service. *)
Definition dynamicUpdateParts (data : UpdateDynamicDataInput.t) : UpdateParts.t :=
  let u := UpdateParts.empty in
  let u := whenDefined (UpdateDynamicDataInput.TotalUniqueLiftRiders data)
             (fun v => UpdateParts.add "#totalUniqueLiftRiders = :totalUniqueLiftRiders"
                         "#totalUniqueLiftRiders" "TotalUniqueLiftRiders"
                         ":totalUniqueLiftRiders" (AttrN v)) u in
  let u := whenDefined (UpdateDynamicDataInput.AverageSnowCoverageInches data)
             (fun v => UpdateParts.add "#averageSnowCoverageInches = :averageSnowCoverageInches"
                         "#averageSnowCoverageInches" "AverageSnowCoverageInches"
                         ":averageSnowCoverageInches" (AttrN v)) u in
  let u := whenDefined (UpdateDynamicDataInput.LiftStatus data)
             (fun v => UpdateParts.add "#liftStatus = :liftStatus"
                         "#liftStatus" "LiftStatus"
                         ":liftStatus" (AttrS (LiftStatus_to_string v))) u in
  let u := whenDefined (UpdateDynamicDataInput.AvalancheDanger data)
             (fun v => UpdateParts.add "#avalancheDanger = :avalancheDanger"
                         "#avalancheDanger" "AvalancheDanger"
                         ":avalancheDanger" (AttrS (AvalancheDanger_to_string v))) u in
  u.

(** [new UpdateCommand({...})] as both update methods build it. *)
Definition updateCommandInput (key : Key.t) (u : UpdateParts.t)
    : UpdateCommandInput.t :=
  {| UpdateCommandInput.TableName := TABLE_NAME;
     UpdateCommandInput.Key := key;
     UpdateCommandInput.UpdateExpression :=
       "SET " ++ String.concat ", " (UpdateParts.updateExpressions u);
     UpdateCommandInput.ExpressionAttributeNames :=
       UpdateParts.expressionAttributeNames u;
     UpdateCommandInput.ExpressionAttributeValues :=
       UpdateParts.expressionAttributeValues u;
     UpdateCommandInput.ReturnValues := "ALL_NEW" |}.

(** Lines 307-317: the parameters of the scan. *)
Definition listSkiLiftsParams (query : ListQueryInput.t) : ScanCommandInput.t :=
  let params :=
    {| ScanCommandInput.TableName := TABLE_NAME;
       ScanCommandInput.Limit := ListQueryInput.limit query;
       ScanCommandInput.ExclusiveStartKey := None |} in
  if truthyString (ListQueryInput.lastEvaluatedLift query)
     && truthyString (ListQueryInput.lastEvaluatedMetadata query)
  then
    {| ScanCommandInput.TableName := ScanCommandInput.TableName params;
       ScanCommandInput.Limit := ScanCommandInput.Limit params;
       ScanCommandInput.ExclusiveStartKey :=
         Some {| Key.Lift := default "" (ListQueryInput.lastEvaluatedLift query);
                 Key.Metadata := default "" (ListQueryInput.lastEvaluatedMetadata query) |} |}
  else params.

(** Lines 339-356: the key condition and its values. *)
Definition ridersKeyCondition (lift : string) (query : QueryByRidersInput.t)
    : string * gmap string AttributeValue :=
  let keyConditionExpression := "Lift = :lift" in
  let expressionAttributeValues : gmap string AttributeValue :=
    {[ ":lift" := AttrS lift ]} in
  match QueryByRidersInput.minRiders query, QueryByRidersInput.maxRiders query with
  | Some minRiders, Some maxRiders =>
      (keyConditionExpression
         ++ " AND TotalUniqueLiftRiders BETWEEN :minRiders AND :maxRiders",
       <[":maxRiders" := AttrN maxRiders]>
         (<[":minRiders" := AttrN minRiders]> expressionAttributeValues))
  | Some minRiders, None =>
      (keyConditionExpression ++ " AND TotalUniqueLiftRiders >= :minRiders",
       <[":minRiders" := AttrN minRiders]> expressionAttributeValues)
  | None, Some maxRiders =>
      (keyConditionExpression ++ " AND TotalUniqueLiftRiders <= :maxRiders",
       <[":maxRiders" := AttrN maxRiders]> expressionAttributeValues)
  | None, None => (keyConditionExpression, expressionAttributeValues)
  end.

Section SkiLiftService.
Context {St : Type}.
Variable dynamodb : DynamoDBDocumentClient St.

Definition createStaticData (data : CreateStaticDataInput.t)
    : Async St Thrown SkiLiftStaticData.t :=
  let item :=
    {| SkiLiftStaticData.Lift := CreateStaticDataInput.Lift data;
       SkiLiftStaticData.Metadata := "Static Data";
       SkiLiftStaticData.ExperiencedRidersOnly :=
         CreateStaticDataInput.ExperiencedRidersOnly data;
       SkiLiftStaticData.VerticalFeet := CreateStaticDataInput.VerticalFeet data;
       SkiLiftStaticData.LiftTime := CreateStaticDataInput.LiftTime data |} in
  tryCatch
    (await _ <- send dynamodb
                  (PutCommand {| PutCommandInput.TableName := TABLE_NAME;
                                 PutCommandInput.Item := marshalStatic item |}) ;
     ret item)
    (fun error =>
       throw (ThrownApp (DynamoDBError "Failed to create static data" (Some error)))).

Definition createDynamicData (data : CreateDynamicDataInput.t)
    : Async St Thrown SkiLiftDynamicData.t :=
  let item :=
    {| SkiLiftDynamicData.Lift := CreateDynamicDataInput.Lift data;
       SkiLiftDynamicData.Metadata := CreateDynamicDataInput.Metadata data;
       SkiLiftDynamicData.TotalUniqueLiftRiders :=
         CreateDynamicDataInput.TotalUniqueLiftRiders data;
       SkiLiftDynamicData.AverageSnowCoverageInches :=
         CreateDynamicDataInput.AverageSnowCoverageInches data;
       SkiLiftDynamicData.LiftStatus := CreateDynamicDataInput.LiftStatus data;
       SkiLiftDynamicData.AvalancheDanger :=
         CreateDynamicDataInput.AvalancheDanger data |} in
  tryCatch
    (await _ <- send dynamodb
                  (PutCommand {| PutCommandInput.TableName := TABLE_NAME;
                                 PutCommandInput.Item := marshalDynamic item |}) ;
     ret item)
    (fun error =>
       throw (ThrownApp (DynamoDBError "Failed to create dynamic data" (Some error)))).

Definition createResortData (data : CreateResortDataInput.t)
    : Async St Thrown ResortData.t :=
  let item :=
    {| ResortData.Lift := "Resort Data";
       ResortData.Metadata := CreateResortDataInput.Metadata data;
       ResortData.TotalUniqueLiftRiders :=
         CreateResortDataInput.TotalUniqueLiftRiders data;
       ResortData.AverageSnowCoverageInches :=
         CreateResortDataInput.AverageSnowCoverageInches data;
       ResortData.AvalancheDanger := CreateResortDataInput.AvalancheDanger data;
       ResortData.OpenLifts := CreateResortDataInput.OpenLifts data |} in
  tryCatch
    (await _ <- send dynamodb
                  (PutCommand {| PutCommandInput.TableName := TABLE_NAME;
                                 PutCommandInput.Item := marshalResort item |}) ;
     ret item)
    (fun error =>
       throw (ThrownApp (DynamoDBError "Failed to create resort data" (Some error)))).

Definition getSkiLift (lift metadata : string) : Async St Thrown AttributeMap :=
  tryCatch
    (await result <- send dynamodb
                       (GetCommand {| GetCommandInput.TableName := TABLE_NAME;
                                      GetCommandInput.Key :=
                                        {| Key.Lift := lift;
                                           Key.Metadata := metadata |} |}) ;
     match Output.Item result with
     | None =>
         throw (ThrownApp (NotFoundError
                  (Some ("Ski lift data not found for " ++ lift ++ " - " ++ metadata))))
     | Some item => ret item
     end)
    (fun error =>
       if thrownInstanceOf error NotFoundErrorClass then throw error
       else throw (ThrownApp (DynamoDBError "Failed to get ski lift data" (Some error)))).

(** [limit = 20] is a default parameter value. *)
Definition queryLiftData (lift : string) (limit : option number)
    : Async St Thrown PaginatedResponse.t :=
  let limit := default (20%Q) limit in
  tryCatch
    (await result <- send dynamodb
                       (QueryCommand
                          {| QueryCommandInput.TableName := TABLE_NAME;
                             QueryCommandInput.IndexName := None;
                             QueryCommandInput.KeyConditionExpression := "Lift = :lift";
                             QueryCommandInput.ExpressionAttributeValues :=
                               {[ ":lift" := AttrS lift ]};
                             QueryCommandInput.Limit := limit;
                             QueryCommandInput.ScanIndexForward := None |}) ;
     ret (paginated result))
    (fun error =>
       throw (ThrownApp (DynamoDBError "Failed to query lift data" (Some error)))).

(** The result is [result.Attributes as SkiLiftStaticData]: whatever the
    client returned under [Attributes], possibly [undefined]. *)
Definition updateStaticData (lift : string) (data : UpdateStaticDataInput.t)
    : Async St Thrown (option AttributeMap) :=
  let u := staticUpdateParts data in
  if Nat.eqb (List.length (UpdateParts.updateExpressions u)) 0 then
    throw (ThrownApp (DynamoDBError "No fields to update" None))
  else
    tryCatch
      (await result <- send dynamodb
                         (UpdateCommand
                            (updateCommandInput
                               {| Key.Lift := lift; Key.Metadata := "Static Data" |} u)) ;
       ret (Output.Attributes result))
      (fun error =>
         throw (ThrownApp (DynamoDBError "Failed to update static data" (Some error)))).

Definition updateDynamicData (lift metadata : string)
    (data : UpdateDynamicDataInput.t) : Async St Thrown (option AttributeMap) :=
  let u := dynamicUpdateParts data in
  if Nat.eqb (List.length (UpdateParts.updateExpressions u)) 0 then
    throw (ThrownApp (DynamoDBError "No fields to update" None))
  else
    tryCatch
      (await result <- send dynamodb
                         (UpdateCommand
                            (updateCommandInput
                               {| Key.Lift := lift; Key.Metadata := metadata |} u)) ;
       ret (Output.Attributes result))
      (fun error =>
         throw (ThrownApp (DynamoDBError "Failed to update dynamic data" (Some error)))).

Definition deleteSkiLift (lift metadata : string) : Async St Thrown unit :=
  tryCatch
    (await _ <- send dynamodb
                  (DeleteCommand {| DeleteCommandInput.TableName := TABLE_NAME;
                                    DeleteCommandInput.Key :=
                                      {| Key.Lift := lift;
                                         Key.Metadata := metadata |} |}) ;
     ret tt)
    (fun error =>
       throw (ThrownApp (DynamoDBError "Failed to delete ski lift data" (Some error)))).

Definition listSkiLifts (query : ListQueryInput.t)
    : Async St Thrown PaginatedResponse.t :=
  tryCatch
    (let params := listSkiLiftsParams query in
     await result <- send dynamodb (ScanCommand params) ;
     ret (paginated result))
    (fun error =>
       throw (ThrownApp (DynamoDBError "Failed to list ski lifts" (Some error)))).

Definition queryByRiders (lift : string) (query : QueryByRidersInput.t)
    : Async St Thrown PaginatedResponse.t :=
  tryCatch
    (let '(keyConditionExpression, expressionAttributeValues) :=
       ridersKeyCondition lift query in
     await result <- send dynamodb
                       (QueryCommand
                          {| QueryCommandInput.TableName := TABLE_NAME;
                             QueryCommandInput.IndexName := Some GSI_NAME;
                             QueryCommandInput.KeyConditionExpression :=
                               keyConditionExpression;
                             QueryCommandInput.ExpressionAttributeValues :=
                               expressionAttributeValues;
                             QueryCommandInput.Limit := QueryByRidersInput.limit query;
                             QueryCommandInput.ScanIndexForward := Some false |}) ;
     ret (paginated result))
    (fun error =>
       throw (ThrownApp (DynamoDBError "Failed to query by riders" (Some error)))).

End SkiLiftService.

(* ================================================================== *)
(** * A reference model of the store

    The service is written against DynamoDB.  The model below is the part
    of its documented behaviour the service relies on: one table named
    [TABLE_NAME] with partition key [Lift] and sort key [Metadata] (both
    strings), and the index [SkiLiftsByRiders] created by
    the table-creation script: partition key [Lift], sort key
    [TotalUniqueLiftRiders] (a number), projecting [Metadata].  Strings are
    ordered by their bytes.  A scan walks the table in an order of the
    store's choosing; the model fixes it as the order of the primary keys. *)

Abbreviation Table := (gmap (string * string) AttributeMap).

Definition sdkError (name message : string) : JsError.t :=
  JsError.mk name message (name ++ ": " ++ message).

Definition ValidationException (message : string) : JsError.t :=
  sdkError "ValidationException" message.

Definition ResourceNotFoundException : JsError.t :=
  sdkError "ResourceNotFoundException" "Requested resource not found".

(** The refusal of a [Limit] that is not a whole number, at least 1. *)
Definition limitRefused : JsError.t :=
  ValidationException "Limit must be a whole number, at least 1".

(** ** Sorting by a key *)

Fixpoint insertBy {A} (leb : A -> A -> bool) (x : A) (l : list A) : list A :=
  match l with
  | [] => [x]
  | y :: l' => if leb x y then x :: l else y :: insertBy leb x l'
  end.

Definition sortBy {A} (leb : A -> A -> bool) (l : list A) : list A :=
  foldr (insertBy leb) [] l.

Definition key_leb (a b : string * string) : bool :=
  if String.eqb a.1 b.1 then String.leb a.2 b.2 else String.leb a.1 b.1.

(** ** Expression syntax *)

Fixpoint splitOn (sep : ascii) (s : string) : list string :=
  match s with
  | EmptyString => [EmptyString]
  | String c s' =>
      if Ascii.eqb c sep then EmptyString :: splitOn sep s'
      else match splitOn sep s' with
           | [] => [String c EmptyString]
           | w :: ws => String c w :: ws
           end
  end.

(** [Some s'] when [s = s' ++ ","]. *)
Fixpoint stripComma (s : string) : option string :=
  match s with
  | EmptyString => None
  | String c EmptyString => if Ascii.eqb c "," then Some EmptyString else None
  | String c s' => String c <$> stripComma s'
  end.

(** The clauses [name = value] of a [SET] action, separated by commas. *)
Fixpoint parseSetClauses (toks : list string) : option (list (string * string)) :=
  match toks with
  | n :: eq :: v :: rest =>
      if negb (String.eqb eq "=") || String.eqb n "" then None
      else match rest with
           | [] => if String.eqb v "" then None
                   else match stripComma v with
                        | Some _ => None
                        | None => Some [(n, v)]
                        end
           | _ :: _ =>
               match stripComma v, parseSetClauses rest with
               | Some v', Some cs => if String.eqb v' "" then None else Some ((n, v') :: cs)
               | _, _ => None
               end
           end
  | _ => None
  end.

Definition parseUpdateExpression (e : string) : option (list (string * string)) :=
  match splitOn " " e with
  | "SET" :: toks => parseSetClauses toks
  | _ => None
  end.

Inductive SortCondition (K : Type) :=
  | CondEq (v : K)
  | CondLt (v : K)
  | CondLe (v : K)
  | CondGt (v : K)
  | CondGe (v : K)
  | CondBetween (lo hi : K).
Arguments CondEq {K} v.
Arguments CondLt {K} v.
Arguments CondLe {K} v.
Arguments CondGt {K} v.
Arguments CondGe {K} v.
Arguments CondBetween {K} lo hi.

Definition mapCond {K K'} (f : K -> option K') (c : SortCondition K)
    : option (SortCondition K') :=
  match c with
  | CondEq v => CondEq <$> f v
  | CondLt v => CondLt <$> f v
  | CondLe v => CondLe <$> f v
  | CondGt v => CondGt <$> f v
  | CondGe v => CondGe <$> f v
  | CondBetween lo hi =>
      match f lo, f hi with
      | Some lo', Some hi' => Some (CondBetween lo' hi')
      | _, _ => None
      end
  end.

(** A key condition as written: the partition attribute and the token of
    its value, then an optional condition on a sort attribute. *)
Module KeyCondition.
Record t := mk {
  partitionAttr : string;
  partitionValue : string;
  sortCond : option (string * SortCondition string)
}.
End KeyCondition.

Definition parseComparator (op v : string) : option (SortCondition string) :=
  if String.eqb op "=" then Some (CondEq v)
  else if String.eqb op "<" then Some (CondLt v)
  else if String.eqb op "<=" then Some (CondLe v)
  else if String.eqb op ">" then Some (CondGt v)
  else if String.eqb op ">=" then Some (CondGe v)
  else None.

Definition parseKeyCondition (e : string) : option KeyCondition.t :=
  match splitOn " " e with
  | [pk; eq; pv] =>
      if String.eqb eq "=" then Some (KeyCondition.mk pk pv None) else None
  | [pk; eq; pv; and_; sk; op; v] =>
      if String.eqb eq "=" && String.eqb and_ "AND" then
        (fun c => KeyCondition.mk pk pv (Some (sk, c))) <$> parseComparator op v
      else None
  | [pk; eq; pv; and_; sk; between; lo; and2; hi] =>
      if String.eqb eq "=" && String.eqb and_ "AND"
         && String.eqb between "BETWEEN" && String.eqb and2 "AND"
      then Some (KeyCondition.mk pk pv (Some (sk, CondBetween lo hi)))
      else None
  | _ => None
  end.

(** [#name] is looked up in [ExpressionAttributeNames]; any other token is
    the attribute name itself. *)
Definition resolveName (names : gmap string string) (tok : string) : option string :=
  if String.prefix "#" tok then names !! tok else Some tok.

(** [:value] is looked up in [ExpressionAttributeValues]. *)
Definition resolveValue (values : gmap string AttributeValue) (tok : string)
    : option AttributeValue :=
  if String.prefix ":" tok then values !! tok else None.

Definition asS (v : AttributeValue) : option string :=
  match v with AttrS s => Some s | _ => None end.

Definition asN (v : AttributeValue) : option number :=
  match v with AttrN n => Some n | _ => None end.

(** ** Conditions on a sort key *)

Definition satisfies {K} (leb : K -> K -> bool) (c : SortCondition K) (k : K) : bool :=
  match c with
  | CondEq v => leb k v && leb v k
  | CondLt v => negb (leb v k)
  | CondLe v => leb k v
  | CondGt v => negb (leb k v)
  | CondGe v => leb v k
  | CondBetween lo hi => leb lo k && leb k hi
  end.

Definition satisfiesOpt {K} (leb : K -> K -> bool) (c : option (SortCondition K))
    (k : K) : bool :=
  match c with
  | Some c => satisfies leb c k
  | None => true
  end.

(** [BETWEEN lo AND hi] is refused when [hi < lo]. *)
Definition wellFormedCond {K} (leb : K -> K -> bool) (c : option (SortCondition K))
    : bool :=
  match c with
  | Some (CondBetween lo hi) => leb lo hi
  | _ => true
  end.

(** ** Reading the table *)

(** The sub-object of [item] with the attributes [attrs]. *)
Definition project (attrs : list string) (item : AttributeMap) : AttributeMap :=
  list_to_map (omap (fun a => (fun v => (a, v)) <$> item !! a) attrs).

(** The items of partition [lift] with their sort keys, in ascending order
    of [Metadata]. *)
Definition partitionEntries (tbl : Table) (lift : string)
    : list (string * AttributeMap) :=
  sortBy (fun a b => String.leb a.1 b.1)
    (omap (fun kv : (string * string) * AttributeMap =>
             if String.eqb kv.1.1 lift then Some (kv.1.2, kv.2) else None)
          (map_to_list tbl)).

(** The entries of [SkiLiftsByRiders] for [lift]: the items that carry a
    numeric [TotalUniqueLiftRiders], reduced to the index keys, the table
    keys and the projected attribute, in ascending order of the rider
    count.  Two items of one lift may carry the same count. *)
Definition indexEntries (tbl : Table) (lift : string)
    : list (number * AttributeMap) :=
  sortBy (fun a b => Qle_bool a.1 b.1)
    (omap (fun e : string * AttributeMap =>
             match e.2 !! "TotalUniqueLiftRiders" with
             | Some (AttrN r) =>
                 Some (r, project ["Lift"; "TotalUniqueLiftRiders"; "Metadata"] e.2)
             | _ => None
             end)
          (partitionEntries tbl lift)).

(** All items in the order of a scan. *)
Definition scanEntries (tbl : Table) : list ((string * string) * AttributeMap) :=
  sortBy (fun a b => key_leb a.1 b.1) (map_to_list tbl).

(** [Limit] must be a whole number, at least 1. *)
Definition limitOf (q : number) : option nat :=
  if num_is_integer q && Qle_bool 1 q then Some (Z.to_nat (Qnum (Qred q)))
  else None.

(** One page: the first [limit] of the candidates.  The store stops when
    it has read [limit] of them and then returns the key of the last one,
    whether candidates remain or not; it returns no key when it has come
    to the end of the candidates before that. *)
Definition page (keyAttrs : list string) (limit : nat) (candidates : list AttributeMap)
    : Output.t :=
  let items := take limit candidates in
  {| Output.Item := None;
     Output.Items := Some items;
     Output.LastEvaluatedKey :=
       if Nat.leb limit (List.length candidates)
       then project keyAttrs <$> last items
       else None;
     Output.Count := Some (inject_Z (Z.of_nat (List.length items)));
     Output.Attributes := None |}.

Definition directed {A} (forward : option bool) (l : list A) : list A :=
  if default true forward then l else rev l.

(** The key condition with its values resolved against the key schema
    [Lift] (a string) and [sortAttr] (read by [asK]): the partition value
    and the condition on the sort key, if any. *)
Definition resolveKeyCondition {K} (sortAttr : string)
    (asK : AttributeValue -> option K) (values : gmap string AttributeValue)
    (kc : KeyCondition.t) : option (string * option (SortCondition K)) :=
  if String.eqb (KeyCondition.partitionAttr kc) "Lift" then
    match resolveValue values (KeyCondition.partitionValue kc) ≫= asS,
          match KeyCondition.sortCond kc with
          | None => Some None
          | Some (sk, c) =>
              if String.eqb sk sortAttr
              then Some <$> mapCond (fun t => resolveValue values t ≫= asK) c
              else None
          end
    with
    | Some lift, Some c => Some (lift, c)
    | _, _ => None
    end
  else None.

(** [Query] on the table or on the index: the entries of one partition
    that satisfy the condition, in ascending order of the sort key, or in
    descending order when [ScanIndexForward] is [false]. *)
Definition ddbQuery (input : QueryCommandInput.t) (tbl : Table)
    : Outcome JsError.t Output.t :=
  let values := QueryCommandInput.ExpressionAttributeValues input in
  let forward := QueryCommandInput.ScanIndexForward input in
  match parseKeyCondition (QueryCommandInput.KeyConditionExpression input),
        limitOf (QueryCommandInput.Limit input) with
  | None, _ => Rejected (ValidationException "Invalid KeyConditionExpression")
  | _, None => Rejected limitRefused
  | Some kc, Some limit =>
      match QueryCommandInput.IndexName input with
      | None =>
          match resolveKeyCondition "Metadata" asS values kc with
          | Some (lift, c) =>
              if wellFormedCond String.leb c then
                Resolved
                  (page ["Lift"; "Metadata"] limit
                     (directed forward
                        (snd <$> filter (fun e => satisfiesOpt String.leb c e.1 = true)
                                   (partitionEntries tbl lift))))
              else Rejected (ValidationException "Invalid BETWEEN bounds")
          | None =>
              Rejected (ValidationException "Query condition missed key schema element")
          end
      | Some index =>
          if String.eqb index GSI_NAME then
            match resolveKeyCondition "TotalUniqueLiftRiders" asN values kc with
            | Some (lift, c) =>
                if wellFormedCond Qle_bool c then
                  Resolved
                    (page ["Lift"; "TotalUniqueLiftRiders"; "Metadata"] limit
                       (directed forward
                          (snd <$> filter (fun e => satisfiesOpt Qle_bool c e.1 = true)
                                     (indexEntries tbl lift))))
                else Rejected (ValidationException "Invalid BETWEEN bounds")
            | None =>
                Rejected (ValidationException "Query condition missed key schema element")
            end
          else Rejected (ValidationException "The table does not have the specified index")
      end
  end.

Definition ddbScan (input : ScanCommandInput.t) (tbl : Table)
    : Outcome JsError.t Output.t :=
  match limitOf (ScanCommandInput.Limit input) with
  | None => Rejected limitRefused
  | Some limit =>
      let entries :=
        match ScanCommandInput.ExclusiveStartKey input with
        | None => scanEntries tbl
        | Some k =>
            filter (fun e => key_leb e.1 (Key.Lift k, Key.Metadata k) = false)
                   (scanEntries tbl)
        end in
      Resolved (page ["Lift"; "Metadata"] limit (snd <$> entries))
  end.

(** ** Writing the table *)

(** A key attribute is a non-empty string. *)
Definition validKey (k : Key.t) : bool :=
  negb (String.eqb (Key.Lift k) "") && negb (String.eqb (Key.Metadata k) "").

Definition keyOfItem (item : AttributeMap) : option Key.t :=
  match item !! "Lift", item !! "Metadata" with
  | Some (AttrS l), Some (AttrS m) =>
      let k := Key.mk l m in if validKey k then Some k else None
  | _, _ => None
  end.

Definition keyItem (k : Key.t) : AttributeMap :=
  <["Lift" := AttrS (Key.Lift k)]> (<["Metadata" := AttrS (Key.Metadata k)]> ∅).

(** The sort key of the index, when an item has it, must be a number. *)
Definition indexKeyOk (item : AttributeMap) : bool :=
  match item !! "TotalUniqueLiftRiders" with
  | None | Some (AttrN _) => true
  | Some _ => false
  end.

(** The same requirement on the assignments of an update. *)
Definition indexKeySetOk (sets : list (string * AttributeValue)) : bool :=
  forallb (fun av : string * AttributeValue =>
             if String.eqb av.1 "TotalUniqueLiftRiders"
             then match av.2 with AttrN _ => true | _ => false end
             else true) sets.

Definition ddbPut (input : PutCommandInput.t) (tbl : Table)
    : Outcome JsError.t Output.t * Table :=
  let item := PutCommandInput.Item input in
  match keyOfItem item with
  | Some k =>
      if indexKeyOk item
      then (Resolved Output.empty, <[(Key.Lift k, Key.Metadata k) := item]> tbl)
      else (Rejected (ValidationException "Type mismatch for Index Key"), tbl)
  | None => (Rejected (ValidationException "Missing or invalid key attribute"), tbl)
  end.

Definition ddbGet (input : GetCommandInput.t) (tbl : Table)
    : Outcome JsError.t Output.t :=
  let k := GetCommandInput.Key input in
  if validKey k then
    Resolved
      {| Output.Item := tbl !! (Key.Lift k, Key.Metadata k);
         Output.Items := None;
         Output.LastEvaluatedKey := None;
         Output.Count := None;
         Output.Attributes := None |}
  else Rejected (ValidationException "Missing or invalid key attribute").

Definition ddbDelete (input : DeleteCommandInput.t) (tbl : Table)
    : Outcome JsError.t Output.t * Table :=
  let k := DeleteCommandInput.Key input in
  if validKey k then (Resolved Output.empty, delete (Key.Lift k, Key.Metadata k) tbl)
  else (Rejected (ValidationException "Missing or invalid key attribute"), tbl).

(** The assignments of a [SET] action, with names and values resolved. *)
Fixpoint resolveClauses (names : gmap string string)
    (values : gmap string AttributeValue) (cs : list (string * string))
    : option (list (string * AttributeValue)) :=
  match cs with
  | [] => Some []
  | (n, v) :: cs' =>
      match resolveName names n, resolveValue values v, resolveClauses names values cs' with
      | Some a, Some x, Some r => Some ((a, x) :: r)
      | _, _, _ => None
      end
  end.

Fixpoint distinct (l : list string) : bool :=
  match l with
  | [] => true
  | x :: l' => negb (existsb (String.eqb x) l') && distinct l'
  end.

Definition isKeyAttr (a : string) : bool :=
  String.eqb a "Lift" || String.eqb a "Metadata".

Definition applySet (item : AttributeMap) (sets : list (string * AttributeValue))
    : AttributeMap :=
  foldl (fun it av => <[av.1 := av.2]> it) item sets.

Definition nonEmptyMap (m : AttributeMap) : option AttributeMap :=
  if decide (m = ∅) then None else Some m.

(** [UpdateItem] with a [SET] action and no condition: the item is created
    from its key when the table has none; the assigned attributes are
    written; nothing else changes. *)
Definition ddbUpdate (input : UpdateCommandInput.t) (tbl : Table)
    : Outcome JsError.t Output.t * Table :=
  let k := UpdateCommandInput.Key input in
  let reject m := (Rejected (ValidationException m), tbl) in
  if negb (validKey k) then reject "Missing or invalid key attribute" else
  match parseUpdateExpression (UpdateCommandInput.UpdateExpression input)
          ≫= resolveClauses (UpdateCommandInput.ExpressionAttributeNames input)
                            (UpdateCommandInput.ExpressionAttributeValues input) with
  | None => reject "Invalid UpdateExpression"
  | Some sets =>
      let targets := fst <$> sets in
      if existsb isKeyAttr targets then
        reject "Cannot update attribute. This attribute is part of the key"
      else if negb (distinct targets) then
        reject "Two document paths overlap with each other"
      else
        let old := tbl !! (Key.Lift k, Key.Metadata k) in
        let new := applySet (default (keyItem k) old) sets in
        if negb (indexKeySetOk sets) then reject "Type mismatch for Index Key" else
        let rv := UpdateCommandInput.ReturnValues input in
        let attributes :=
          if String.eqb rv "ALL_NEW" then Some (Some new)
          else if String.eqb rv "ALL_OLD" then Some old
          else if String.eqb rv "UPDATED_NEW" then Some (nonEmptyMap (project targets new))
          else if String.eqb rv "UPDATED_OLD"
               then Some (old ≫= fun o => nonEmptyMap (project targets o))
          else if String.eqb rv "NONE" then Some None
          else None in
        match attributes with
        | None => reject "Invalid ReturnValues"
        | Some attrs =>
            (Resolved
               {| Output.Item := None;
                  Output.Items := None;
                  Output.LastEvaluatedKey := None;
                  Output.Count := None;
                  Output.Attributes := attrs |},
             <[(Key.Lift k, Key.Metadata k) := new]> tbl)
        end
  end.

Definition commandTable (c : Command) : string :=
  match c with
  | PutCommand i => PutCommandInput.TableName i
  | GetCommand i => GetCommandInput.TableName i
  | QueryCommand i => QueryCommandInput.TableName i
  | ScanCommand i => ScanCommandInput.TableName i
  | UpdateCommand i => UpdateCommandInput.TableName i
  | DeleteCommand i => DeleteCommandInput.TableName i
  end.

(** The store as a client. *)
Definition ddb : DynamoDBDocumentClient Table :=
  fun c tbl =>
    if negb (String.eqb (commandTable c) TABLE_NAME)
    then (Rejected ResourceNotFoundException, tbl)
    else
      match c with
      | PutCommand i => ddbPut i tbl
      | GetCommand i => (ddbGet i tbl, tbl)
      | QueryCommand i => (ddbQuery i tbl, tbl)
      | ScanCommand i => (ddbScan i tbl, tbl)
      | UpdateCommand i => ddbUpdate i tbl
      | DeleteCommand i => ddbDelete i tbl
      end.

(** ** A recording client

    The client of the unit tests ([aws-sdk-client-mock]): it answers every
    command from a fixed behaviour and keeps the list of calls. *)
Definition mockClient (behaviour : Command -> Outcome JsError.t Output.t)
    : DynamoDBDocumentClient (list Command) :=
  fun c calls => (behaviour c, (calls ++ [c])%list).

(* ================================================================== *)
(** * JavaScript values at the HTTP boundary *)

Inductive JsNum :=
  | NaN
  | PosInfinity
  | NegInfinity
  | Finite (q : number).

(** The primitive values a parsed query string, a route parameter or a
    test can put under a property. *)
Inductive JsValue :=
  | JsUndefined
  | JsNull
  | JsBoolean (b : bool)
  | JsNumber (n : JsNum)
  | JsString (s : string).

Abbreviation RawObject := (gmap string JsValue).

(** [obj[name]]: a missing property reads as [undefined]. *)
Definition getProp (obj : RawObject) (name : string) : JsValue :=
  default JsUndefined (obj !! name).

(** ** [Number(string)]: the StringNumericLiteral grammar *)

(** The white space and the line terminators of ECMAScript
    ([StrWhiteSpaceChar]), each as the bytes of its UTF-8 encoding:
    U+0009 to U+000D and U+0020, then U+00A0, U+1680, U+2000 to U+200A,
    U+2028, U+2029, U+202F, U+205F, U+3000 and U+FEFF. *)
Definition whiteSpaceChars : list (list N) :=
  [ [9]; [10]; [11]; [12]; [13]; [32];
    [194; 160];
    [225; 154; 128];
    [226; 128; 128]; [226; 128; 129]; [226; 128; 130]; [226; 128; 131];
    [226; 128; 132]; [226; 128; 133]; [226; 128; 134]; [226; 128; 135];
    [226; 128; 136]; [226; 128; 137]; [226; 128; 138];
    [226; 128; 168]; [226; 128; 169];
    [226; 128; 175];
    [226; 129; 159];
    [227; 128; 128];
    [239; 187; 191] ]%N.

Fixpoint bytesEqb (a b : list N) : bool :=
  match a, b with
  | [], [] => true
  | x :: a', y :: b' => N.eqb x y && bytesEqb a' b'
  | _, _ => false
  end.

(** [bytes] is one character of white space. *)
Definition isWhiteSpace (bytes : list ascii) : bool :=
  existsb (bytesEqb (map N_of_ascii bytes)) whiteSpaceChars.

(** The input without the white space it starts with; a character of white
    space takes one, two or three bytes.  [read] gives the bytes of a
    character from the bytes as they come: as they are from the start of a
    string, reversed from its end. *)
Fixpoint dropWhiteSpace (read : list ascii -> list ascii) (l : list ascii)
    : list ascii :=
  match l with
  | a :: l1 =>
      if isWhiteSpace (read [a]) then dropWhiteSpace read l1
      else
        match l1 with
        | b :: l2 =>
            if isWhiteSpace (read [a; b]) then dropWhiteSpace read l2
            else
              match l2 with
              | c :: l3 =>
                  if isWhiteSpace (read [a; b; c]) then dropWhiteSpace read l3
                  else l
              | [] => l
              end
        | [] => l
        end
  | [] => []
  end.

Definition trimWhiteSpace (l : list ascii) : list ascii :=
  rev (dropWhiteSpace (@rev ascii) (rev (dropWhiteSpace id l))).

(** The value of [c] as a digit in [radix], if it is one. *)
Definition digitValue (radix : N) (c : ascii) : option N :=
  let n := N_of_ascii c in
  let d :=
    if (N.leb 48 n && N.leb n 57)%N then Some (n - 48)%N
    else if (N.leb 97 n && N.leb n 102)%N then Some (n - 87)%N
    else if (N.leb 65 n && N.leb n 70)%N then Some (n - 55)%N
    else None in
  match d with
  | Some v => if (N.ltb v radix)%N then Some v else None
  | None => None
  end.

(** The longest prefix of digits, as their values, and what follows. *)
Fixpoint spanDigits (radix : N) (l : list ascii) : list N * list ascii :=
  match l with
  | [] => ([], [])
  | c :: l' =>
      match digitValue radix c with
      | Some d => let '(ds, r) := spanDigits radix l' in (d :: ds, r)
      | None => ([], l)
      end
  end.

Definition digitsValue (radix : N) (ds : list N) : N :=
  foldl (fun acc d => (acc * radix + d)%N) 0%N ds.

Definition isNil {A} (l : list A) : bool :=
  match l with [] => true | _ => false end.

Definition asciiIn (c : ascii) (s : string) : bool :=
  existsb (Ascii.eqb c) (list_ascii_of_string s).

(** [ExponentPart?] at the end of a literal, applied to the mantissa. *)
Definition parseExponent (m : Q) (l : list ascii) : option Q :=
  match l with
  | [] => Some m
  | c :: r =>
      if asciiIn c "eE" then
        let '(neg, r') :=
          match r with
          | s :: r' => if Ascii.eqb s "-" then (true, r')
                       else if Ascii.eqb s "+" then (false, r')
                       else (false, r)
          | [] => (false, r)
          end in
        let '(ds, rest) := spanDigits 10 r' in
        if isNil ds || negb (isNil rest) then None
        else
          let e := Z.of_N (digitsValue 10 ds) in
          Some (m * Qpower 10 (if neg then - e else e))%Q
      else None
  end.

(** [StrUnsignedDecimalLiteral] other than [Infinity]. *)
Definition parseUnsignedDecimal (l : list ascii) : option Q :=
  let '(ip, r1) := spanDigits 10 l in
  let int := inject_Z (Z.of_N (digitsValue 10 ip)) in
  match r1 with
  | c :: r =>
      if Ascii.eqb c "." then
        let '(fp, r2) := spanDigits 10 r in
        if isNil ip && isNil fp then None
        else
          let frac :=
            (inject_Z (Z.of_N (digitsValue 10 fp))
               / inject_Z (10 ^ Z.of_nat (List.length fp)))%Q in
          parseExponent (int + frac)%Q r2
      else if isNil ip then None else parseExponent int r1
  | [] => if isNil ip then None else Some int
  end.

Definition parseRadix (radix : N) (l : list ascii) : JsNum :=
  let '(ds, rest) := spanDigits radix l in
  if isNil ds || negb (isNil rest) then NaN
  else Finite (inject_Z (Z.of_N (digitsValue radix ds))).

Definition parseSignedDecimal (neg : bool) (l : list ascii) : JsNum :=
  if String.eqb (string_of_list_ascii l) "Infinity"
  then (if neg then NegInfinity else PosInfinity)
  else match parseUnsignedDecimal l with
       | Some q => Finite (if neg then - q else q)%Q
       | None => NaN
       end.

Definition stringToNumber (s : string) : JsNum :=
  match trimWhiteSpace (list_ascii_of_string s) with
  | [] => Finite 0%Q
  | c :: r =>
      if Ascii.eqb c "-" then parseSignedDecimal true r
      else if Ascii.eqb c "+" then parseSignedDecimal false r
      else
        match r with
        | p :: digits =>
            if Ascii.eqb c "0" && asciiIn p "xX" then parseRadix 16 digits
            else if Ascii.eqb c "0" && asciiIn p "oO" then parseRadix 8 digits
            else if Ascii.eqb c "0" && asciiIn p "bB" then parseRadix 2 digits
            else parseSignedDecimal false (c :: r)
        | [] => parseSignedDecimal false (c :: r)
        end
  end.

(** [Number(v)] *)
Definition toNumber (v : JsValue) : JsNum :=
  match v with
  | JsUndefined => NaN
  | JsNull => Finite 0%Q
  | JsBoolean b => Finite (if b then 1%Q else 0%Q)
  | JsNumber n => n
  | JsString s => stringToNumber s
  end.

(** [a < b] and [a <= b] between a number that is not [NaN] and a finite
    bound. *)
Definition jsLt (a : JsNum) (b : number) : bool :=
  match a with
  | NaN | PosInfinity => false
  | NegInfinity => true
  | Finite q => num_lt q b
  end.

Definition jsLe (a : JsNum) (b : number) : bool :=
  match a with
  | NaN | PosInfinity => false
  | NegInfinity => true
  | Finite q => num_le q b
  end.

Definition jsGt (a : JsNum) (b : number) : bool :=
  match a with
  | NaN | NegInfinity => false
  | PosInfinity => true
  | Finite q => num_lt b q
  end.

Definition jsGe (a : JsNum) (b : number) : bool :=
  match a with
  | NaN | NegInfinity => false
  | PosInfinity => true
  | Finite q => num_le b q
  end.

(* ================================================================== *)
(** * Validation: [src/schemas/skilift.schemas.ts] (zod 3) *)

Module ZodIssue.
Record t := mk { code : string; path : string }.
End ZodIssue.

Definition ZodResult (A : Type) : Type := Outcome (list ZodIssue.t) A.

(** An object schema reports the issues of all its properties. *)
Definition zodAp {A B} (f : ZodResult (A -> B)) (x : ZodResult A) : ZodResult B :=
  match f, x with
  | Resolved g, Resolved a => Resolved (g a)
  | Resolved _, Rejected e => Rejected e
  | Rejected e, Resolved _ => Rejected e
  | Rejected e1, Rejected e2 => Rejected (e1 ++ e2)%list
  end.

Definition zodMap {A B} (f : A -> B) (x : ZodResult A) : ZodResult B :=
  match x with
  | Resolved a => Resolved (f a)
  | Rejected e => Rejected e
  end.

(** The checks of [ZodNumber]: [positive()] is [NumMin 0 false],
    [nonnegative()] is [NumMin 0 true], [max(n)] is [NumMax n true]. *)
Inductive NumberCheck :=
  | NumMin (value : number) (inclusive : bool)
  | NumMax (value : number) (inclusive : bool).

Definition positive_ : NumberCheck := NumMin 0%Q false.
Definition nonnegative_ : NumberCheck := NumMin 0%Q true.
Definition max_ (n : number) : NumberCheck := NumMax n true.

Definition numberCheckIssue (path : string) (data : JsNum) (c : NumberCheck)
    : list ZodIssue.t :=
  match c with
  | NumMin value inclusive =>
      let tooSmall := if inclusive then jsLt data value else jsLe data value in
      if tooSmall then [ZodIssue.mk "too_small" path] else []
  | NumMax value inclusive =>
      let tooBig := if inclusive then jsGt data value else jsGe data value in
      if tooBig then [ZodIssue.mk "too_big" path] else []
  end.

(** [z.number()] and [z.coerce.number()] with their checks: the input
    (after [Number(input)] when coercing) must be a number other than
    [NaN]; all failing checks are reported. *)
Definition zodNumber (coerce : bool) (checks : list NumberCheck) (path : string)
    (input : JsValue) : ZodResult JsNum :=
  let input := if coerce then JsNumber (toNumber input) else input in
  match input with
  | JsNumber NaN => Rejected [ZodIssue.mk "invalid_type" path]
  | JsNumber data =>
      match concat (map (numberCheckIssue path data) checks) with
      | [] => Resolved data
      | issues => Rejected issues
      end
  | _ => Rejected [ZodIssue.mk "invalid_type" path]
  end.

(** [z.string()] with an optional [min(n)]. *)
Definition zodString (minLength : option nat) (path : string) (input : JsValue)
    : ZodResult string :=
  match input with
  | JsString s =>
      match minLength with
      | Some n =>
          if Nat.ltb (String.length s) n then Rejected [ZodIssue.mk "too_small" path]
          else Resolved s
      | None => Resolved s
      end
  | _ => Rejected [ZodIssue.mk "invalid_type" path]
  end.

(** [.optional()] *)
Definition zodOptional {A} (inner : JsValue -> ZodResult A) (input : JsValue)
    : ZodResult (option A) :=
  match input with
  | JsUndefined => Resolved None
  | _ => zodMap Some (inner input)
  end.

(** [.default(d)] *)
Definition zodDefault {A} (d : JsValue) (inner : JsValue -> ZodResult A)
    (input : JsValue) : ZodResult A :=
  match input with
  | JsUndefined => inner d
  | _ => inner input
  end.

(** [z.coerce.number().positive().max(100).optional().default(20)] *)
Definition limitSchema (path : string) : JsValue -> ZodResult (option JsNum) :=
  zodDefault (JsNumber (Finite 20%Q))
    (zodOptional (zodNumber true [positive_; max_ 100%Q] path)).

(** The inferred type of the limit is [number]; every value the validator
    accepts is a finite number. *)
Definition limitValue (r : option JsNum) : number :=
  match r with
  | Some (Finite q) => q
  | _ => 0%Q
  end.

Definition listQuerySchema (raw : RawObject) : ZodResult ListQueryInput.t :=
  zodAp (zodAp (zodMap (fun l a b => ListQueryInput.mk (limitValue l) a b)
                  (limitSchema "limit" (getProp raw "limit")))
           (zodOptional (zodString None "lastEvaluatedLift")
              (getProp raw "lastEvaluatedLift")))
    (zodOptional (zodString None "lastEvaluatedMetadata")
       (getProp raw "lastEvaluatedMetadata")).

(** The output of [queryByRidersSchema]; [nonnegative()] lets [Infinity]
    through, so the bounds are kept as JavaScript numbers. *)
Module QueryByRidersParsed.
Record t := mk {
  minRiders : option JsNum;
  maxRiders : option JsNum;
  limit : number
}.
End QueryByRidersParsed.

Definition queryByRidersSchema (raw : RawObject) : ZodResult QueryByRidersParsed.t :=
  zodAp (zodAp (zodMap QueryByRidersParsed.mk
                  (zodOptional (zodNumber true [nonnegative_] "minRiders")
                     (getProp raw "minRiders")))
           (zodOptional (zodNumber true [nonnegative_] "maxRiders")
              (getProp raw "maxRiders")))
    (zodMap limitValue (limitSchema "limit" (getProp raw "limit"))).

Definition liftMetadataParamsSchema (raw : RawObject) : ZodResult (string * string) :=
  zodAp (zodMap pair (zodString (Some 1%nat) "lift" (getProp raw "lift")))
    (zodString (Some 1%nat) "metadata" (getProp raw "metadata")).

(** The error [schema.parse] throws: an [Error] named [ZodError]. *)
Definition ZodError (issues : list ZodIssue.t) : JsError.t :=
  JsError.mk "ZodError"
    (String.concat "; " (map (fun i => ZodIssue.path i ++ ": " ++ ZodIssue.code i) issues))
    "ZodError".

Definition parse {St A} (r : ZodResult A) : Async St Thrown A :=
  match r with
  | Resolved a => ret a
  | Rejected issues => throw (ThrownJs (ZodError issues))
  end.

(* ================================================================== *)
(** * Route handlers: [src/routes/skilift.routes.ts] *)

Module ErrorBody.
Record t := mk {
  message : string;
  code : option string;
  statusCode : Z;
  details : option JsError.t
}.
End ErrorBody.

Inductive Payload :=
  | PayloadRecord (item : AttributeMap)
  | PayloadPage (page : PaginatedResponse.t)
  | PayloadError (error : ErrorBody.t).

Module Reply.
Record t := mk { statusCode : Z; payload : Payload }.
End Reply.

(** [formatErrorResponse] of [src/utils/error-handler.ts]. *)
Definition formatErrorResponse (error : Thrown) : ErrorBody.t :=
  match error with
  | ThrownApp e =>
      ErrorBody.mk (AppError.message e) (AppError.code e) (AppError.statusCode e) None
  | ThrownJs e =>
      if String.eqb (JsError.name e) "ZodError" then
        ErrorBody.mk "Validation failed" (Some "VALIDATION_ERROR") 400%Z (Some e)
      else
        ErrorBody.mk
          (if String.eqb (JsError.message e) "" then "Internal server error"
           else JsError.message e)
          (Some "INTERNAL_ERROR") 500%Z None
  end.

(** The [catch] block every handler ends with. *)
Definition replyError (error : Thrown) : Reply.t :=
  let errorResponse := formatErrorResponse error in
  let statusCode :=
    match error with
    | ThrownApp e =>
        if instanceOf e AppErrorClass then AppError.statusCode e
        else ErrorBody.statusCode errorResponse
    | ThrownJs _ => ErrorBody.statusCode errorResponse
    end in
  Reply.mk statusCode (PayloadError errorResponse).

(** A handler always replies. *)
Definition handle {St} (c : Async St Thrown Reply.t) : St -> Reply.t * St :=
  fun st =>
    match c st with
    | (Resolved r, st') => (r, st')
    | (Rejected error, st') => (replyError error, st')
    end.

(** ** Response schemas

    Each route declares [response: { <status>: { type: "object" } }] for
    the status of its success.  A payload sent with a status that has a
    schema is written by the serializer of that schema, which writes the
    properties the schema names: this one names none, so the body is the
    empty object.  A reply with any other status is written as it is.  The
    payloads of the handlers are all objects. *)
Definition serializeObject (payload : Payload) : Payload := PayloadRecord ∅.

(** The reply as it is written by a route that declares the schema for
    [status]. *)
Definition written (status : Z) (r : Reply.t) : Reply.t :=
  if Z.eqb (Reply.statusCode r) status
  then Reply.mk (Reply.statusCode r) (serializeObject (Reply.payload r))
  else r.

(** A route: its handler, then the response schema. *)
Definition route {St} (status : Z) (handler : St -> Reply.t * St)
    : St -> Reply.t * St :=
  fun st => (written status (handler st).1, (handler st).2).

Section Routes.
Context {St : Type}.
Variable dynamodb : DynamoDBDocumentClient St.

(** [GET /api/skilifts/:lift/:metadata]: the handler, with what it passes
    to [reply.send], and the route. *)
Definition getSkiLiftHandler (params : RawObject) : St -> Reply.t * St :=
  handle
    (await p <- parse (liftMetadataParamsSchema params) ;
     await result <- getSkiLift dynamodb p.1 p.2 ;
     ret (Reply.mk 200%Z (PayloadRecord result))).

Definition getSkiLiftRoute (params : RawObject) : St -> Reply.t * St :=
  route 200%Z (getSkiLiftHandler params).

(** [GET /api/skilifts] *)
Definition listSkiLiftsHandler (query : RawObject) : St -> Reply.t * St :=
  handle
    (await q <- parse (listQuerySchema query) ;
     await result <- listSkiLifts dynamodb q ;
     ret (Reply.mk 200%Z (PayloadPage result))).

Definition listSkiLiftsRoute (query : RawObject) : St -> Reply.t * St :=
  route 200%Z (listSkiLiftsHandler query).

End Routes.

(* ================================================================== *)
(** * Request bodies and their schemas: [src/schemas/skilift.schemas.ts] *)

(** A parsed JSON document.  [request.body] is one, or [undefined] when the
    request has none. *)
#[warnings="-register-all"]
Inductive Json :=
  | JsonNull
  | JsonBoolean (b : bool)
  | JsonNumber (n : number)
  | JsonString (s : string)
  | JsonArray (items : list Json)
  | JsonObject (props : gmap string Json).

(** ** Regular expressions

    The patterns of the schemas are sequences of literal characters and of
    [\d{m,n}], anchored at both ends ([^...$] without flags: the whole
    input must match; [\d] is an ASCII digit). *)
Inductive RegexAtom :=
  | RegexChar (c : ascii)
  | RegexDigits (min max : nat).

Definition isDigit (c : ascii) : bool :=
  (N.leb 48 (N_of_ascii c) && N.leb (N_of_ascii c) 57)%N.

(** The length of the longest prefix of digits. *)
Fixpoint leadingDigits (s : list ascii) : nat :=
  match s with
  | c :: s' => if isDigit c then S (leadingDigits s') else 0
  | [] => 0
  end.

Fixpoint regexMatch (r : list RegexAtom) (s : list ascii) : bool :=
  match r with
  | [] => isNil s
  | RegexChar c :: r' =>
      match s with
      | x :: s' => Ascii.eqb x c && regexMatch r' s'
      | [] => false
      end
  | RegexDigits lo hi :: r' =>
      existsb (fun k => Nat.leb k (leadingDigits s) && regexMatch r' (drop k s))
              (seq lo (S hi - lo))
  end.

(** [regex.test(s)] *)
Definition regexTest (r : list RegexAtom) (s : string) : bool :=
  regexMatch r (list_ascii_of_string s).

(** [/^\d{1,2}:\d{2}$/] *)
Definition liftTimeRegex : list RegexAtom :=
  [RegexDigits 1 2; RegexChar ":"; RegexDigits 2 2].

(** [/^\d{2}\/\d{2}\/\d{2}$/] *)
Definition metadataRegex : list RegexAtom :=
  [RegexDigits 2 2; RegexChar "/"; RegexDigits 2 2; RegexChar "/"; RegexDigits 2 2].

(** ** zod on JSON values

    A property of the body is a JSON value, or [undefined] ([None]) when
    the body does not have it. *)

Definition invalidType {A} (path : string) : ZodResult A :=
  Rejected [ZodIssue.mk "invalid_type" path].

(** Every issue is reported; the value comes back when there is none. *)
Definition checked {A} (a : A) (issues : list ZodIssue.t) : ZodResult A :=
  match issues with
  | [] => Resolved a
  | _ => Rejected issues
  end.

(** The checks of [ZodString] the schemas use: [min(n)] and [regex(r)]. *)
Inductive StringCheck :=
  | StrMin (value : nat)
  | StrRegex (regex : list RegexAtom).

Definition stringCheckIssue (path : string) (data : string) (c : StringCheck)
    : list ZodIssue.t :=
  match c with
  | StrMin value =>
      if Nat.ltb (String.length data) value then [ZodIssue.mk "too_small" path] else []
  | StrRegex regex =>
      if regexTest regex data then [] else [ZodIssue.mk "invalid_string" path]
  end.

(** [z.string()] with its checks *)
Definition jsonString (checks : list StringCheck) (path : string)
    (input : option Json) : ZodResult string :=
  match input with
  | Some (JsonString data) =>
      checked data (concat (map (stringCheckIssue path data) checks))
  | _ => invalidType path
  end.

(** [z.number()] with its checks; a JSON number is finite. *)
Definition jsonNumber (checks : list NumberCheck) (path : string)
    (input : option Json) : ZodResult number :=
  match input with
  | Some (JsonNumber data) =>
      checked data (concat (map (numberCheckIssue path (Finite data)) checks))
  | _ => invalidType path
  end.

(** [z.boolean()] *)
Definition jsonBoolean (path : string) (input : option Json) : ZodResult bool :=
  match input with
  | Some (JsonBoolean data) => Resolved data
  | _ => invalidType path
  end.

(** [z.enum([...])]: one of the listed strings. *)
Definition jsonEnum {A} (options : list A) (show : A -> string) (path : string)
    (input : option Json) : ZodResult A :=
  match input with
  | Some (JsonString data) =>
      match find (fun o => String.eqb (show o) data) options with
      | Some o => Resolved o
      | None => Rejected [ZodIssue.mk "invalid_enum_value" path]
      end
  | _ => invalidType path
  end.

(** The results of the elements of an array, with the issues of all. *)
Fixpoint zodAll {A} (results : list (ZodResult A)) : ZodResult (list A) :=
  match results with
  | [] => Resolved []
  | r :: rest => zodAp (zodMap cons r) (zodAll rest)
  end.

(** [z.array(element).min(n)]: the path of an element ends with its
    index. *)
Definition jsonArray {A} (element : string -> option Json -> ZodResult A)
    (minLength : nat) (path : string) (input : option Json) : ZodResult (list A) :=
  match input with
  | Some (JsonArray data) =>
      let tooSmall : ZodResult unit :=
        if Nat.ltb (List.length data) minLength
        then Rejected [ZodIssue.mk "too_small" path] else Resolved tt in
      zodAp (zodMap (fun _ l => l) tooSmall)
        (zodAll (imap (fun i item => element (path ++ "." ++ pretty i) (Some item)) data))
  | _ => invalidType path
  end.

(** [.optional()] *)
Definition jsonOptional {A} (inner : option Json -> ZodResult A)
    (input : option Json) : ZodResult (option A) :=
  match input with
  | None => Resolved None
  | Some _ => zodMap Some (inner input)
  end.

(** [z.object({...})]: the input must be an object; the properties the
    shape does not name are dropped. *)
Definition jsonObject {A} (shape : gmap string Json -> ZodResult A)
    (input : option Json) : ZodResult A :=
  match input with
  | Some (JsonObject props) => shape props
  | _ => invalidType ""
  end.

Definition LiftStatusEnum : string -> option Json -> ZodResult LiftStatus :=
  jsonEnum [Open; Closed; Pending] LiftStatus_to_string.

Definition AvalancheDangerEnum : string -> option Json -> ZodResult AvalancheDanger :=
  jsonEnum [Low; Moderate; Considerable; High; Extreme] AvalancheDanger_to_string.

Definition createStaticDataSchema : option Json -> ZodResult CreateStaticDataInput.t :=
  jsonObject (fun body =>
    zodAp (zodAp (zodAp (zodMap CreateStaticDataInput.mk
      (jsonString [StrMin 1] "Lift" (body !! "Lift")))
      (jsonBoolean "ExperiencedRidersOnly" (body !! "ExperiencedRidersOnly")))
      (jsonNumber [positive_] "VerticalFeet" (body !! "VerticalFeet")))
      (jsonString [StrRegex liftTimeRegex] "LiftTime" (body !! "LiftTime"))).

Definition createDynamicDataSchema : option Json -> ZodResult CreateDynamicDataInput.t :=
  jsonObject (fun body =>
    zodAp (zodAp (zodAp (zodAp (zodAp (zodMap CreateDynamicDataInput.mk
      (jsonString [StrMin 1] "Lift" (body !! "Lift")))
      (jsonString [StrRegex metadataRegex] "Metadata" (body !! "Metadata")))
      (jsonNumber [nonnegative_] "TotalUniqueLiftRiders"
         (body !! "TotalUniqueLiftRiders")))
      (jsonNumber [nonnegative_] "AverageSnowCoverageInches"
         (body !! "AverageSnowCoverageInches")))
      (LiftStatusEnum "LiftStatus" (body !! "LiftStatus")))
      (AvalancheDangerEnum "AvalancheDanger" (body !! "AvalancheDanger"))).

Definition createResortDataSchema : option Json -> ZodResult CreateResortDataInput.t :=
  jsonObject (fun body =>
    zodAp (zodAp (zodAp (zodAp (zodMap CreateResortDataInput.mk
      (jsonString [StrRegex metadataRegex] "Metadata" (body !! "Metadata")))
      (jsonNumber [nonnegative_] "TotalUniqueLiftRiders"
         (body !! "TotalUniqueLiftRiders")))
      (jsonNumber [nonnegative_] "AverageSnowCoverageInches"
         (body !! "AverageSnowCoverageInches")))
      (AvalancheDangerEnum "AvalancheDanger" (body !! "AvalancheDanger")))
      (jsonArray (jsonNumber []) 0 "OpenLifts" (body !! "OpenLifts"))).

Definition updateStaticDataSchema : option Json -> ZodResult UpdateStaticDataInput.t :=
  jsonObject (fun body =>
    zodAp (zodAp (zodMap UpdateStaticDataInput.mk
      (jsonOptional (jsonBoolean "ExperiencedRidersOnly")
         (body !! "ExperiencedRidersOnly")))
      (jsonOptional (jsonNumber [positive_] "VerticalFeet") (body !! "VerticalFeet")))
      (jsonOptional (jsonString [StrRegex liftTimeRegex] "LiftTime")
         (body !! "LiftTime"))).

Definition updateDynamicDataSchema : option Json -> ZodResult UpdateDynamicDataInput.t :=
  jsonObject (fun body =>
    zodAp (zodAp (zodAp (zodMap UpdateDynamicDataInput.mk
      (jsonOptional (jsonNumber [nonnegative_] "TotalUniqueLiftRiders")
         (body !! "TotalUniqueLiftRiders")))
      (jsonOptional (jsonNumber [nonnegative_] "AverageSnowCoverageInches")
         (body !! "AverageSnowCoverageInches")))
      (jsonOptional (LiftStatusEnum "LiftStatus") (body !! "LiftStatus")))
      (jsonOptional (AvalancheDangerEnum "AvalancheDanger")
         (body !! "AvalancheDanger"))).

Definition liftParamsSchema (raw : RawObject) : ZodResult string :=
  zodString (Some 1%nat) "lift" (getProp raw "lift").

(* ================================================================== *)
(** * The other handlers of [src/routes/skilift.routes.ts] *)

(** A reply whose [send] may have been given nothing. *)
Module Response.
Record t := mk { statusCode : Z; body : option Payload }.
End Response.

(** A reply with a payload, as a response. *)
Definition replied (r : Reply.t) : Response.t :=
  Response.mk (Reply.statusCode r) (Some (Reply.payload r)).

(** The handlers end with the same [catch] block. *)
Definition respond {St} (c : Async St Thrown Response.t) : St -> Response.t * St :=
  fun st =>
    match c st with
    | (Resolved r, st') => (r, st')
    | (Rejected error, st') => (replied (replyError error), st')
    end.

(** The response as it is written by a route that declares the schema for
    [status]; a response without payload has no body to write. *)
Definition writtenResponse (status : Z) (r : Response.t) : Response.t :=
  if Z.eqb (Response.statusCode r) status
  then Response.mk (Response.statusCode r) (serializeObject <$> Response.body r)
  else r.

Definition routeResponse {St} (status : Z) (handler : St -> Response.t * St)
    : St -> Response.t * St :=
  fun st => (writtenResponse status (handler st).1, (handler st).2).

Section MoreRoutes.
Context {St : Type}.
Variable dynamodb : DynamoDBDocumentClient St.

(** [POST /api/skilifts/static] *)
Definition createStaticDataHandler (body : option Json) : St -> Reply.t * St :=
  handle
    (await data <- parse (createStaticDataSchema body) ;
     await result <- createStaticData dynamodb data ;
     ret (Reply.mk 201%Z (PayloadRecord (marshalStatic result)))).

Definition createStaticDataRoute (body : option Json) : St -> Reply.t * St :=
  route 201%Z (createStaticDataHandler body).

(** [POST /api/skilifts/dynamic] *)
Definition createDynamicDataHandler (body : option Json) : St -> Reply.t * St :=
  handle
    (await data <- parse (createDynamicDataSchema body) ;
     await result <- createDynamicData dynamodb data ;
     ret (Reply.mk 201%Z (PayloadRecord (marshalDynamic result)))).

Definition createDynamicDataRoute (body : option Json) : St -> Reply.t * St :=
  route 201%Z (createDynamicDataHandler body).

(** [POST /api/skilifts/resort] *)
Definition createResortDataHandler (body : option Json) : St -> Reply.t * St :=
  handle
    (await data <- parse (createResortDataSchema body) ;
     await result <- createResortData dynamodb data ;
     ret (Reply.mk 201%Z (PayloadRecord (marshalResort result)))).

Definition createResortDataRoute (body : option Json) : St -> Reply.t * St :=
  route 201%Z (createResortDataHandler body).

(** [PUT /api/skilifts/:lift/static] *)
Definition updateStaticDataHandler (params : RawObject) (body : option Json)
    : St -> Response.t * St :=
  respond
    (await lift <- parse (liftParamsSchema params) ;
     await data <- parse (updateStaticDataSchema body) ;
     await result <- updateStaticData dynamodb lift data ;
     ret (Response.mk 200%Z (PayloadRecord <$> result))).

Definition updateStaticDataRoute (params : RawObject) (body : option Json)
    : St -> Response.t * St :=
  routeResponse 200%Z (updateStaticDataHandler params body).

(** [PUT /api/skilifts/:lift/:metadata] *)
Definition updateDynamicDataHandler (params : RawObject) (body : option Json)
    : St -> Response.t * St :=
  respond
    (await p <- parse (liftMetadataParamsSchema params) ;
     await data <- parse (updateDynamicDataSchema body) ;
     await result <- updateDynamicData dynamodb p.1 p.2 data ;
     ret (Response.mk 200%Z (PayloadRecord <$> result))).

Definition updateDynamicDataRoute (params : RawObject) (body : option Json)
    : St -> Response.t * St :=
  routeResponse 200%Z (updateDynamicDataHandler params body).

(** [DELETE /api/skilifts/:lift/:metadata]: the handler sends 204 without
    payload, so the schema the route declares for 204 has nothing to
    write; the error replies have other statuses. *)
Definition deleteSkiLiftRoute (params : RawObject) : St -> Response.t * St :=
  respond
    (await p <- parse (liftMetadataParamsSchema params) ;
     await _ <- deleteSkiLift dynamodb p.1 p.2 ;
     ret (Response.mk 204%Z None)).

End MoreRoutes.

(* ================================================================== *)
(** * The client configuration: [src/db/dynamodb.client.ts] *)

(** [process.env] *)
Abbreviation Env := (gmap string string).

(** [process.env.NAME || fallback]: an unset and an empty variable both
    give the fallback. *)
Definition envOr (env : Env) (name fallback : string) : string :=
  match env !! name with
  | Some v => if String.eqb v "" then fallback else v
  | None => fallback
  end.

Inductive Mode := local | remote.

Module Credentials.
Record t := mk { accessKeyId : string; secretAccessKey : string }.
End Credentials.

Module DynamoDBConfig.
Record t := mk {
  mode : Mode;
  region : string;
  endpoint : option string;
  credentials : option Credentials.t
}.
End DynamoDBConfig.

Definition getDynamoDBConfig (env : Env) : DynamoDBConfig.t :=
  let mode := envOr env "DYNAMODB_MODE" "local" in
  if String.eqb mode "local" then
    {| DynamoDBConfig.mode := local;
       DynamoDBConfig.region := envOr env "DYNAMODB_LOCAL_REGION" "us-east-1";
       DynamoDBConfig.endpoint :=
         Some (envOr env "DYNAMODB_LOCAL_ENDPOINT" "http://localhost:8000");
       DynamoDBConfig.credentials := None |}
  else
    {| DynamoDBConfig.mode := remote;
       DynamoDBConfig.region := envOr env "AWS_REGION" "us-east-1";
       DynamoDBConfig.endpoint := None;
       DynamoDBConfig.credentials :=
         Some {| Credentials.accessKeyId := envOr env "AWS_ACCESS_KEY_ID" "";
                 Credentials.secretAccessKey := envOr env "AWS_SECRET_ACCESS_KEY" "" |} |}.

(** The object given to [new DynamoDBClient(...)]. *)
Module ClientConfig.
Record t := mk {
  region : string;
  endpoint : option string;
  credentials : option Credentials.t
}.
End ClientConfig.

(** The document client [createDynamoDBClient] returns, as the settings it
    is built from. *)
Module DocumentClientSettings.
Record t := mk {
  clientConfig : ClientConfig.t;
  removeUndefinedValues : bool;
  convertClassInstanceToMap : bool;
  wrapNumbers : bool
}.
End DocumentClientSettings.

Definition createDynamoDBClient (config : DynamoDBConfig.t)
    : DocumentClientSettings.t :=
  let clientConfig :=
    {| ClientConfig.region := DynamoDBConfig.region config;
       ClientConfig.endpoint := None;
       ClientConfig.credentials := None |} in
  let clientConfig :=
    match DynamoDBConfig.mode config with
    | local =>
        if truthyString (DynamoDBConfig.endpoint config) then
          {| ClientConfig.region := ClientConfig.region clientConfig;
             ClientConfig.endpoint := DynamoDBConfig.endpoint config;
             ClientConfig.credentials :=
               Some {| Credentials.accessKeyId := "dummy";
                       Credentials.secretAccessKey := "dummy" |} |}
        else clientConfig
    | remote => clientConfig
    end in
  let clientConfig :=
    match DynamoDBConfig.mode config, DynamoDBConfig.credentials config with
    | remote, Some credentials =>
        {| ClientConfig.region := ClientConfig.region clientConfig;
           ClientConfig.endpoint := ClientConfig.endpoint clientConfig;
           ClientConfig.credentials := Some credentials |}
    | _, _ => clientConfig
    end in
  {| DocumentClientSettings.clientConfig := clientConfig;
     DocumentClientSettings.removeUndefinedValues := true;
     DocumentClientSettings.convertClassInstanceToMap := true;
     DocumentClientSettings.wrapNumbers := false |}.

(* ================================================================== *)
(** * Vocabulary of the properties *)

(** The fields a partial update provides: attribute name and value, in the
    order of the source. *)
Definition suppliedStatic (data : UpdateStaticDataInput.t)
    : list (string * AttributeValue) :=
  omap id
    [ (fun v => ("ExperiencedRidersOnly", AttrBOOL v))
        <$> UpdateStaticDataInput.ExperiencedRidersOnly data;
      (fun v => ("VerticalFeet", AttrN v)) <$> UpdateStaticDataInput.VerticalFeet data;
      (fun v => ("LiftTime", AttrS v)) <$> UpdateStaticDataInput.LiftTime data ].

Definition suppliedDynamic (data : UpdateDynamicDataInput.t)
    : list (string * AttributeValue) :=
  omap id
    [ (fun v => ("TotalUniqueLiftRiders", AttrN v))
        <$> UpdateDynamicDataInput.TotalUniqueLiftRiders data;
      (fun v => ("AverageSnowCoverageInches", AttrN v))
        <$> UpdateDynamicDataInput.AverageSnowCoverageInches data;
      (fun v => ("LiftStatus", AttrS (LiftStatus_to_string v)))
        <$> UpdateDynamicDataInput.LiftStatus data;
      (fun v => ("AvalancheDanger", AttrS (AvalancheDanger_to_string v)))
        <$> UpdateDynamicDataInput.AvalancheDanger data ].

(** The rider count and the sort key an item shows. *)
Definition ridersOf (item : AttributeMap) : option number :=
  item !! "TotalUniqueLiftRiders" ≫= asN.

Definition metadataOf (item : AttributeMap) : option string :=
  item !! "Metadata" ≫= asS.

(** [l] read through [f] never increases / never decreases. *)
Definition descendingBy {A} (f : A -> option number) (l : list A) : Prop :=
  forall i j a b x y, (i < j)%nat -> l !! i = Some a -> l !! j = Some b ->
    f a = Some x -> f b = Some y -> (y <= x)%Q.

Definition strictlyDescendingBy {A} (f : A -> option number) (l : list A) : Prop :=
  forall i j a b x y, (i < j)%nat -> l !! i = Some a -> l !! j = Some b ->
    f a = Some x -> f b = Some y -> (y < x)%Q.

Definition ascendingBy {A} (f : A -> option string) (l : list A) : Prop :=
  forall i j a b x y, (i < j)%nat -> l !! i = Some a -> l !! j = Some b ->
    f a = Some x -> f b = Some y -> String.leb x y = true.

(** The condition [queryByRiders] asks for: each given bound, and nothing
    for a bound that is not given. *)
Definition ridersInRange (query : QueryByRidersInput.t) (x : number) : bool :=
  match QueryByRidersInput.minRiders query with
  | Some lo => Qle_bool lo x
  | None => true
  end
  && match QueryByRidersInput.maxRiders query with
     | Some hi => Qle_bool x hi
     | None => true
     end.

Definition ridersCondition (query : QueryByRidersInput.t)
    : option (SortCondition number) :=
  match QueryByRidersInput.minRiders query, QueryByRidersInput.maxRiders query with
  | Some lo, Some hi => Some (CondBetween lo hi)
  | Some lo, None => Some (CondGe lo)
  | None, Some hi => Some (CondLe hi)
  | None, None => None
  end.

(** Every item sits under the key its own [Lift] and [Metadata] attributes
    spell. *)
Definition wfTable (tbl : Table) : Prop :=
  forall l m item, tbl !! (l, m) = Some item -> keyOfItem item = Some (Key.mk l m).

Definition keyMatches (k : string * string) (item : AttributeMap) : bool :=
  match keyOfItem item with
  | Some k' => String.eqb (Key.Lift k') k.1 && String.eqb (Key.Metadata k') k.2
  | None => false
  end.

Definition wfTableb (tbl : Table) : bool :=
  forallb (fun kv => keyMatches kv.1 kv.2) (map_to_list tbl).

(** [s] starts with a decimal digit, as the date strings do. *)
Definition startsWithDigit (s : string) : bool :=
  match s with
  | String c _ => (N.leb 48 (N_of_ascii c) && N.leb (N_of_ascii c) 57)%N
  | EmptyString => false
  end.

(** A date in the [MM/DD/YY] form of the schemas: three numbers below 100,
    each written with two digits. *)
Definition digitChar (n : nat) : ascii := ascii_of_nat (48 + n).

Definition twoDigits (n : nat) : string :=
  String (digitChar (n / 10)) (String (digitChar (n mod 10)) EmptyString).

Definition dateString (mm dd yy : nat) : string :=
  twoDigits mm ++ "/" ++ twoDigits dd ++ "/" ++ twoDigits yy.

(** The result and the final state of a computation. *)
Definition outcome {St E A} (c : Async St E A) (st : St) : Outcome E A := (c st).1.
Definition finalState {St E A} (c : Async St E A) (st : St) : St := (c st).2.

(** The thrown value is an application error of class [c]. *)
Definition rejectedWith {A} (o : Outcome Thrown A) (c : ErrorClass) : Prop :=
  exists e, o = Rejected (ThrownApp e) /\ AppError.constructor_ e = c.

(** ** Failures, replies and what was sent *)

(** The storage failure with message [m]: the [DynamoDBError] a method
    throws, whatever it wraps. *)
Definition storageFailure (message : string) (x : Thrown) : Prop :=
  exists original, x = ThrownApp (DynamoDBError message original).

(** A computation that rejects does so with a thrown value in [P]. *)
Definition rejectsOnlyWith {A} (o : Outcome Thrown A) (P : Thrown -> Prop) : Prop :=
  match o with
  | Resolved _ => True
  | Rejected x => P x
  end.

(** The recording client was sent exactly one command, to the table of the
    service, and it satisfies [P]. *)
Definition sentOne (before after : list Command) (P : Command -> Prop) : Prop :=
  exists c, after = (before ++ [c])%list /\ commandTable c = TABLE_NAME /\ P c.

(** The reply to a request that fails validation. *)
Definition validationReply (issues : list ZodIssue.t) : Reply.t :=
  Reply.mk 400%Z
    (PayloadError (ErrorBody.mk "Validation failed" (Some "VALIDATION_ERROR") 400%Z
                     (Some (ZodError issues)))).

(** The reply to a storage failure with message [m]. *)
Definition storageFailureReply (message : string) : Reply.t :=
  Reply.mk 500%Z
    (PayloadError (ErrorBody.mk message (Some "DYNAMODB_ERROR") 500%Z None)).

(** ** Expressions *)

(** The words of an expression, without the comma that may end a word. *)
Definition expressionTokens (e : string) : list string :=
  (fun t => default t (stripComma t)) <$> splitOn " " e.

(** The placeholders of an expression that start with [sigil]: [":"] for
    the values, ["#"] for the names. *)
Definition placeholders (sigil : string) (e : string) : gset string :=
  list_to_set (filter (fun t => String.prefix sigil t = true) (expressionTokens e)).

(** ** Times, route parameters and the records of the create methods *)

(** A one-digit number. *)
Definition oneDigit (n : nat) : string := String (digitChar n) EmptyString.

(** A time as the pattern of [LiftTime] reads it: hours written with one
    or two digits, minutes with two. *)
Definition timeString (h m : nat) (padded : bool) : string :=
  (if padded then twoDigits h else oneDigit h) ++ ":" ++ twoDigits m.

(** The route parameters of a record. *)
Definition recordParams (lift metadata : string) : RawObject :=
  {[ "lift" := JsString lift; "metadata" := JsString metadata ]}.

(** The records the create methods build from their input. *)
Definition staticRecord (data : CreateStaticDataInput.t) : SkiLiftStaticData.t :=
  {| SkiLiftStaticData.Lift := CreateStaticDataInput.Lift data;
     SkiLiftStaticData.Metadata := "Static Data";
     SkiLiftStaticData.ExperiencedRidersOnly :=
       CreateStaticDataInput.ExperiencedRidersOnly data;
     SkiLiftStaticData.VerticalFeet := CreateStaticDataInput.VerticalFeet data;
     SkiLiftStaticData.LiftTime := CreateStaticDataInput.LiftTime data |}.

Definition dynamicRecord (data : CreateDynamicDataInput.t) : SkiLiftDynamicData.t :=
  {| SkiLiftDynamicData.Lift := CreateDynamicDataInput.Lift data;
     SkiLiftDynamicData.Metadata := CreateDynamicDataInput.Metadata data;
     SkiLiftDynamicData.TotalUniqueLiftRiders :=
       CreateDynamicDataInput.TotalUniqueLiftRiders data;
     SkiLiftDynamicData.AverageSnowCoverageInches :=
       CreateDynamicDataInput.AverageSnowCoverageInches data;
     SkiLiftDynamicData.LiftStatus := CreateDynamicDataInput.LiftStatus data;
     SkiLiftDynamicData.AvalancheDanger := CreateDynamicDataInput.AvalancheDanger data |}.

Definition resortRecord (data : CreateResortDataInput.t) : ResortData.t :=
  {| ResortData.Lift := "Resort Data";
     ResortData.Metadata := CreateResortDataInput.Metadata data;
     ResortData.TotalUniqueLiftRiders := CreateResortDataInput.TotalUniqueLiftRiders data;
     ResortData.AverageSnowCoverageInches :=
       CreateResortDataInput.AverageSnowCoverageInches data;
     ResortData.AvalancheDanger := CreateResortDataInput.AvalancheDanger data;
     ResortData.OpenLifts := CreateResortDataInput.OpenLifts data |}.

(** ** The index and the scan *)

(** The attributes an entry of [SkiLiftsByRiders] carries: the keys of the
    index and of the table, and the projected attribute. *)
Definition indexAttributes : list string := ["Lift"; "TotalUniqueLiftRiders"; "Metadata"].

(** The page of a scan that starts at position [start] of the table and
    holds up to [n] records: its cursor is the key of its last record when
    it holds [n] of them. *)
Definition scanPage (tbl : Table) (n start : nat) : PaginatedResponse.t :=
  let entries := scanEntries tbl in
  let items := take n (drop start (snd <$> entries)) in
  {| PaginatedResponse.items := items;
     PaginatedResponse.lastEvaluatedKey :=
       if Nat.leb (start + n) (List.length entries)
       then (fun e : (string * string) * AttributeMap => keyItem (Key.mk e.1.1 e.1.2))
              <$> entries !! (start + n - 1)%nat
       else None;
     PaginatedResponse.count := inject_Z (Z.of_nat (List.length items)) |}.

(** The cursor a client passes back: the [Lift] and the [Metadata] of the
    key a page ends with, as [lastEvaluatedLift] and
    [lastEvaluatedMetadata]. *)
Definition cursorOf (key : AttributeMap) : option string * option string :=
  (key !! "Lift" ≫= asS, key !! "Metadata" ≫= asS).

(** The pages a client collects from the store by calling [listSkiLifts]
    again with the cursor of each page, until a page has none or a call
    rejects; [fuel] bounds the number of calls. *)
Fixpoint followCursor (fuel : nat) (limit : number)
    (cursor : option string * option string) (tbl : Table)
    : list PaginatedResponse.t :=
  match fuel with
  | O => []
  | S fuel' =>
      match listSkiLifts ddb (ListQueryInput.mk limit cursor.1 cursor.2) tbl with
      | (Resolved r, tbl') =>
          r :: match PaginatedResponse.lastEvaluatedKey r with
               | Some key => followCursor fuel' limit (cursorOf key) tbl'
               | None => []
               end
      | (Rejected _, _) => []
      end
  end.

(* ================================================================== *)
(** * Sample data: [test/helpers/mock-data.ts], [test/helpers/test-utils.ts] *)

Definition validStaticData : CreateStaticDataInput.t :=
  CreateStaticDataInput.mk "Summit Express" false 2500%Q "8:00".

Definition validStaticDataResponse : SkiLiftStaticData.t :=
  SkiLiftStaticData.mk "Summit Express" "Static Data" false 2500%Q "8:00".

Definition validDynamicData : CreateDynamicDataInput.t :=
  CreateDynamicDataInput.mk "Summit Express" "01/15/24" 1250%Q 48%Q Open Low.

Definition closedLiftDynamicData : CreateDynamicDataInput.t :=
  CreateDynamicDataInput.mk "Summit Express" "01/16/24" 0%Q 12%Q Closed High.

Definition validResortData : CreateResortDataInput.t :=
  CreateResortDataInput.mk "01/15/24" 8500%Q 42%Q Moderate
    (map (fun z => inject_Z z) [1; 2; 3; 4; 5; 6; 7; 8; 9; 10; 11; 12]%Z).

(** [createDynamoDBError(code, message)]: an [Error] whose name is [code]. *)
Definition createDynamoDBError (code message : string) : JsError.t :=
  JsError.mk code message (code ++ ": " ++ message).

(** A second day of "Summit Express" with the rider count of the first. *)
Definition sameRidersDynamicData : CreateDynamicDataInput.t :=
  CreateDynamicDataInput.mk "Summit Express" "01/17/24" 1250%Q 40%Q Open Low.

(** The table after the static record and the two days above are created. *)
Definition sampleTable : Table :=
  finalState (createDynamicData ddb sameRidersDynamicData)
    (finalState (createDynamicData ddb validDynamicData)
       (finalState (createStaticData ddb validStaticData) ∅)).

(** The table after the resort record of one day is created: a partition
    without static record. *)
Definition resortTable : Table :=
  finalState (createResortData ddb validResortData) ∅.

(** Two days of one lift on either side of a new year. *)
Definition yearEndData : CreateDynamicDataInput.t :=
  CreateDynamicDataInput.mk "Summit Express" "12/31/20" 900%Q 30%Q Open Low.

Definition newYearData : CreateDynamicDataInput.t :=
  CreateDynamicDataInput.mk "Summit Express" "01/01/21" 950%Q 31%Q Open Low.

Definition yearEndTable : Table :=
  finalState (createDynamicData ddb newYearData)
    (finalState (createDynamicData ddb yearEndData) ∅).

(** The sample inputs as request bodies. *)
Definition validStaticDataBody : Json :=
  JsonObject (list_to_map
    [ ("Lift", JsonString "Summit Express");
      ("ExperiencedRidersOnly", JsonBoolean false);
      ("VerticalFeet", JsonNumber 2500%Q);
      ("LiftTime", JsonString "8:00") ]).

Definition validDynamicDataBody : Json :=
  JsonObject (list_to_map
    [ ("Lift", JsonString "Summit Express");
      ("Metadata", JsonString "01/15/24");
      ("TotalUniqueLiftRiders", JsonNumber 1250%Q);
      ("AverageSnowCoverageInches", JsonNumber 48%Q);
      ("LiftStatus", JsonString "Open");
      ("AvalancheDanger", JsonString "Low") ]).

Definition validResortDataBody : Json :=
  JsonObject (list_to_map
    [ ("Metadata", JsonString "01/15/24");
      ("TotalUniqueLiftRiders", JsonNumber 8500%Q);
      ("AverageSnowCoverageInches", JsonNumber 42%Q);
      ("AvalancheDanger", JsonString "Moderate");
      ("OpenLifts",
       JsonArray (map (fun z => JsonNumber (inject_Z z))
                      [1; 2; 3; 4; 5; 6; 7; 8; 9; 10; 11; 12]%Z)) ]).

(** The body of a request: a property of [body] replaced or added. *)
Definition withProp (body : Json) (name : string) (value : Json) : option Json :=
  match body with
  | JsonObject props => Some (JsonObject (<[name := value]> props))
  | _ => Some body
  end.

(* ================================================================== *)
(** * Properties *)

(** ** Evaluating the service against the store *)

Lemma validKey_iff l m : validKey (Key.mk l m) = true <-> l <> "" /\ m <> "".
Proof.
  unfold validKey; simpl.
  rewrite andb_true_iff, !negb_true_iff, !String.eqb_neq. tauto.
Qed.

Lemma send_ddb (c : Command) (tbl : Table) :
  commandTable c = TABLE_NAME ->
  send ddb c tbl =
    match c with
    | PutCommand i =>
        match ddbPut i tbl with
        | (Resolved o, t) => (Resolved o, t)
        | (Rejected e, t) => (Rejected (ThrownJs e), t)
        end
    | GetCommand i =>
        match ddbGet i tbl with
        | Resolved o => (Resolved o, tbl)
        | Rejected e => (Rejected (ThrownJs e), tbl)
        end
    | QueryCommand i =>
        match ddbQuery i tbl with
        | Resolved o => (Resolved o, tbl)
        | Rejected e => (Rejected (ThrownJs e), tbl)
        end
    | ScanCommand i =>
        match ddbScan i tbl with
        | Resolved o => (Resolved o, tbl)
        | Rejected e => (Rejected (ThrownJs e), tbl)
        end
    | UpdateCommand i =>
        match ddbUpdate i tbl with
        | (Resolved o, t) => (Resolved o, t)
        | (Rejected e, t) => (Rejected (ThrownJs e), t)
        end
    | DeleteCommand i =>
        match ddbDelete i tbl with
        | (Resolved o, t) => (Resolved o, t)
        | (Rejected e, t) => (Rejected (ThrownJs e), t)
        end
    end.
Proof.
  intros Ht. unfold send, tryCatch, ddb. rewrite Ht. cbn [negb String.eqb].
  change (String.eqb TABLE_NAME TABLE_NAME) with true. cbn [negb].
  destruct c; try destruct (ddbPut _ _) as [[]]; try destruct (ddbGet _ _);
    try destruct (ddbQuery _ _); try destruct (ddbScan _ _);
    try destruct (ddbUpdate _ _) as [[]]; try destruct (ddbDelete _ _) as [[]];
    reflexivity.
Qed.

Lemma send_mock (behaviour : Command -> Outcome JsError.t Output.t)
    (c : Command) (calls : list Command) :
  send (mockClient behaviour) c calls =
    (match behaviour c with
     | Resolved o => Resolved o
     | Rejected e => Rejected (ThrownJs e)
     end, (calls ++ [c])%list).
Proof. unfold send, tryCatch, mockClient. destruct (behaviour c); reflexivity. Qed.

(** A put of a well-keyed item is accepted whatever the table holds. *)
Lemma ddbPut_accepts (item : AttributeMap) (l m : string) (tbl : Table) :
  keyOfItem item = Some (Key.mk l m) ->
  indexKeyOk item = true ->
  ddbPut (PutCommandInput.mk TABLE_NAME item) tbl
    = (Resolved Output.empty, <[(l, m) := item]> tbl).
Proof. intros Hk Hi. unfold ddbPut. cbn. rewrite Hk, Hi. reflexivity. Qed.

Lemma keyOfItem_static (x : SkiLiftStaticData.t) :
  keyOfItem (marshalStatic x)
  = let k := Key.mk (SkiLiftStaticData.Lift x) (SkiLiftStaticData.Metadata x) in
    if validKey k then Some k else None.
Proof. reflexivity. Qed.

Lemma keyOfItem_dynamic (x : SkiLiftDynamicData.t) :
  keyOfItem (marshalDynamic x)
  = let k := Key.mk (SkiLiftDynamicData.Lift x) (SkiLiftDynamicData.Metadata x) in
    if validKey k then Some k else None.
Proof. reflexivity. Qed.

Lemma keyOfItem_resort (x : ResortData.t) :
  keyOfItem (marshalResort x)
  = let k := Key.mk (ResortData.Lift x) (ResortData.Metadata x) in
    if validKey k then Some k else None.
Proof. reflexivity. Qed.

(** What a create method does with any client: one put, and the item it
    built comes back unless the put is rejected. *)
Lemma create_any_client {St A} (dynamodb : DynamoDBDocumentClient St)
    (item : A) (marshalled : AttributeMap) (msg : string) (st : St) :
  let c :=
    tryCatch
      (await _ <- send dynamodb
                    (PutCommand {| PutCommandInput.TableName := TABLE_NAME;
                                   PutCommandInput.Item := marshalled |}) ;
       ret item)
      (fun error => throw (ThrownApp (DynamoDBError msg (Some error)))) in
  c st =
    match dynamodb (PutCommand (PutCommandInput.mk TABLE_NAME marshalled)) st with
    | (Resolved _, st') => (Resolved item, st')
    | (Rejected e, st') => (Rejected (ThrownApp (DynamoDBError msg (Some (ThrownJs e)))), st')
    end.
Proof.
  cbv zeta. unfold tryCatch, bind, send, tryCatch, ret, throw.
  destruct (dynamodb _ st) as [[o|e] st']; reflexivity.
Qed.

(** C1. For every create input with non-empty key strings and every
    table, whether or not it already holds a record under the key:
    [createStaticData] returns the input with [Metadata] set to
    "Static Data", [createDynamicData] returns the input as it is,
    [createResortData] returns the input with [Lift] set to "Resort Data";
    each stores exactly that record under its key, replacing what was
    there; and with any client a resolved call returns that same record
    after a single put. *)
Theorem create_returns_input_merged
    (s : CreateStaticDataInput.t) (d : CreateDynamicDataInput.t)
    (r : CreateResortDataInput.t) (tbl : Table) :
  CreateStaticDataInput.Lift s <> "" ->
  CreateDynamicDataInput.Lift d <> "" ->
  CreateDynamicDataInput.Metadata d <> "" ->
  CreateResortDataInput.Metadata r <> "" ->
  let static :=
    {| SkiLiftStaticData.Lift := CreateStaticDataInput.Lift s;
       SkiLiftStaticData.Metadata := "Static Data";
       SkiLiftStaticData.ExperiencedRidersOnly :=
         CreateStaticDataInput.ExperiencedRidersOnly s;
       SkiLiftStaticData.VerticalFeet := CreateStaticDataInput.VerticalFeet s;
       SkiLiftStaticData.LiftTime := CreateStaticDataInput.LiftTime s |} in
  let dynamic :=
    {| SkiLiftDynamicData.Lift := CreateDynamicDataInput.Lift d;
       SkiLiftDynamicData.Metadata := CreateDynamicDataInput.Metadata d;
       SkiLiftDynamicData.TotalUniqueLiftRiders :=
         CreateDynamicDataInput.TotalUniqueLiftRiders d;
       SkiLiftDynamicData.AverageSnowCoverageInches :=
         CreateDynamicDataInput.AverageSnowCoverageInches d;
       SkiLiftDynamicData.LiftStatus := CreateDynamicDataInput.LiftStatus d;
       SkiLiftDynamicData.AvalancheDanger := CreateDynamicDataInput.AvalancheDanger d |} in
  let resort :=
    {| ResortData.Lift := "Resort Data";
       ResortData.Metadata := CreateResortDataInput.Metadata r;
       ResortData.TotalUniqueLiftRiders := CreateResortDataInput.TotalUniqueLiftRiders r;
       ResortData.AverageSnowCoverageInches :=
         CreateResortDataInput.AverageSnowCoverageInches r;
       ResortData.AvalancheDanger := CreateResortDataInput.AvalancheDanger r;
       ResortData.OpenLifts := CreateResortDataInput.OpenLifts r |} in
  (createStaticData ddb s tbl
     = (Resolved static,
        <[(CreateStaticDataInput.Lift s, "Static Data") := marshalStatic static]> tbl)
   /\ createDynamicData ddb d tbl
     = (Resolved dynamic,
        <[(CreateDynamicDataInput.Lift d, CreateDynamicDataInput.Metadata d)
            := marshalDynamic dynamic]> tbl)
   /\ createResortData ddb r tbl
     = (Resolved resort,
        <[("Resort Data", CreateResortDataInput.Metadata r) := marshalResort resort]> tbl))
  /\ (forall St (c : DynamoDBDocumentClient St) (st : St),
        (forall x, outcome (createStaticData c s) st = Resolved x -> x = static)
        /\ (forall x, outcome (createDynamicData c d) st = Resolved x -> x = dynamic)
        /\ (forall x, outcome (createResortData c r) st = Resolved x -> x = resort))
  /\ (forall behaviour calls,
        finalState (createStaticData (mockClient behaviour) s) calls
          = (calls ++ [PutCommand (PutCommandInput.mk TABLE_NAME (marshalStatic static))])%list
        /\ finalState (createDynamicData (mockClient behaviour) d) calls
          = (calls ++ [PutCommand (PutCommandInput.mk TABLE_NAME (marshalDynamic dynamic))])%list
        /\ finalState (createResortData (mockClient behaviour) r) calls
          = (calls ++ [PutCommand (PutCommandInput.mk TABLE_NAME (marshalResort resort))])%list).
Proof.
  intros Hs Hd1 Hd2 Hr static dynamic resort.
  assert (Hput : forall A (item : A) m l k msg,
            keyOfItem m = Some (Key.mk l k) -> indexKeyOk m = true ->
            tryCatch
              (await _ <- send ddb (PutCommand (PutCommandInput.mk TABLE_NAME m)) ;
               ret item)
              (fun error => throw (ThrownApp (DynamoDBError msg (Some error)))) tbl
            = (Resolved item, <[(l, k) := m]> tbl)).
  { intros A item m l k msg Hk Hi.
    rewrite (create_any_client ddb item m msg tbl).
    unfold ddb. cbn [commandTable PutCommandInput.TableName].
    change (String.eqb TABLE_NAME TABLE_NAME) with true. cbn [negb].
    rewrite (ddbPut_accepts m l k tbl Hk Hi). reflexivity. }
  split; [split; [|split] | split].
  - apply Hput; [|reflexivity].
    rewrite keyOfItem_static. cbn.
    assert (Hv : validKey (Key.mk (CreateStaticDataInput.Lift s) "Static Data") = true)
      by (apply validKey_iff; split; [exact Hs | discriminate]).
    rewrite Hv. reflexivity.
  - apply Hput; [|reflexivity].
    rewrite keyOfItem_dynamic. cbn.
    rewrite (proj2 (validKey_iff _ _) (conj Hd1 Hd2)). reflexivity.
  - apply Hput; [|reflexivity].
    rewrite keyOfItem_resort. cbn.
    assert (Hv : validKey (Key.mk "Resort Data" (CreateResortDataInput.Metadata r)) = true)
      by (apply validKey_iff; split; [discriminate | exact Hr]).
    cbn in Hv. rewrite Hv. reflexivity.
  - intros St c st. unfold outcome, createStaticData, createDynamicData, createResortData.
    rewrite !create_any_client.
    repeat split; intros x;
      destruct (c _ st) as [[o|e] st']; cbn; intros H;
      solve [discriminate H | injection H as <-; reflexivity].
  - intros behaviour calls.
    unfold finalState, createStaticData, createDynamicData, createResortData.
    rewrite !create_any_client. unfold mockClient.
    repeat split; destruct (behaviour _); reflexivity.
Qed.

Lemma create_returns_input_merged_witness :
  createStaticData ddb validStaticData ∅
  = (Resolved validStaticDataResponse,
     <[("Summit Express", "Static Data") := marshalStatic validStaticDataResponse]> ∅).
Proof.
  exact (proj1 (proj1 (create_returns_input_merged validStaticData validDynamicData
                         validResortData ∅
                         ltac:(discriminate) ltac:(discriminate)
                         ltac:(discriminate) ltac:(discriminate)))).
Defined.

(** ** Point lookup *)

Lemma getSkiLift_any_client {St} (dynamodb : DynamoDBDocumentClient St)
    (lift metadata : string) (st : St) :
  getSkiLift dynamodb lift metadata st =
    match dynamodb (GetCommand (GetCommandInput.mk TABLE_NAME (Key.mk lift metadata))) st with
    | (Resolved result, st') =>
        match Output.Item result with
        | Some item => (Resolved item, st')
        | None =>
            (Rejected (ThrownApp (NotFoundError
               (Some ("Ski lift data not found for " ++ lift ++ " - " ++ metadata)))), st')
        end
    | (Rejected e, st') =>
        (Rejected (ThrownApp (DynamoDBError "Failed to get ski lift data"
                                (Some (ThrownJs e)))), st')
    end.
Proof.
  unfold getSkiLift, tryCatch, bind, send, tryCatch, ret, throw.
  destruct (dynamodb _ st) as [[o|e] st']; [|reflexivity].
  destruct (Output.Item o); reflexivity.
Qed.

(** On the store: the stored item when there is one, a not-found failure
    (status 404, not a storage failure) when there is none. *)
Lemma getSkiLift_ddb (lift metadata : string) (tbl : Table) :
  lift <> "" -> metadata <> "" ->
  getSkiLift ddb lift metadata tbl =
    match tbl !! (lift, metadata) with
    | Some item => (Resolved item, tbl)
    | None =>
        (Rejected (ThrownApp (NotFoundError
           (Some ("Ski lift data not found for " ++ lift ++ " - " ++ metadata)))), tbl)
    end.
Proof.
  intros Hl Hm. rewrite getSkiLift_any_client.
  unfold ddb. cbn [commandTable GetCommandInput.TableName].
  change (String.eqb TABLE_NAME TABLE_NAME) with true. cbn [negb].
  unfold ddbGet. cbn [GetCommandInput.Key Key.Lift Key.Metadata].
  rewrite (proj2 (validKey_iff lift metadata) (conj Hl Hm)).
  cbn [Output.Item]. reflexivity.
Qed.

Lemma getSkiLift_not_found_is_404 (lift metadata : string) (tbl : Table) :
  lift <> "" -> metadata <> "" -> tbl !! (lift, metadata) = None ->
  exists e,
    getSkiLift ddb lift metadata tbl = (Rejected (ThrownApp e), tbl)
    /\ instanceOf e NotFoundErrorClass = true
    /\ instanceOf e DynamoDBErrorClass = false
    /\ AppError.statusCode e = 404%Z
    /\ Reply.statusCode (replyError (ThrownApp e)) = 404%Z.
Proof.
  intros Hl Hm Hn. rewrite (getSkiLift_ddb lift metadata tbl Hl Hm), Hn.
  eexists. split; [reflexivity|]. repeat split.
Qed.

(** C2. When the client rejects the get, [getSkiLift] rejects with a
    [DynamoDBError] "Failed to get ski lift data" of status 500.  The only
    trace of the original error in it is the copied [stack] string: the
    [cause] property that the tests of the class read is not installed. *)
Theorem getSkiLift_storage_failure_has_no_cause
    (original : JsError.t) (lift metadata : string) (calls : list Command) :
  let e := DynamoDBError "Failed to get ski lift data" (Some (ThrownJs original)) in
  outcome (getSkiLift (mockClient (fun _ => Rejected original)) lift metadata) calls
    = Rejected (ThrownApp e)
  /\ AppError.constructor_ e = DynamoDBErrorClass
  /\ AppError.statusCode e = 500%Z
  /\ AppError.stack e = StackString (JsError.stack original)
  /\ AppError.cause e = None.
Proof.
  cbv zeta. unfold outcome. rewrite getSkiLift_any_client. repeat split.
Qed.

(** ** Updates with nothing to update *)

Lemma suppliedStatic_nil (data : UpdateStaticDataInput.t) :
  suppliedStatic data = [] ->
  data = UpdateStaticDataInput.mk None None None.
Proof. destruct data as [[?|] [?|] [?|]]; cbn; intros H; congruence. Qed.

Lemma suppliedDynamic_nil (data : UpdateDynamicDataInput.t) :
  suppliedDynamic data = [] ->
  data = UpdateDynamicDataInput.mk None None None None.
Proof. destruct data as [[?|] [?|] [?|] [?|]]; cbn; intros H; congruence. Qed.

(** C5. When no field is provided, [updateStaticData] and
    [updateDynamicData] reject with the [DynamoDBError] "No fields to
    update" and leave the state of any client as it was: nothing is sent.
    The error is a storage failure (class [DynamoDBError], status 500) and
    a handler answers it with HTTP 500. *)
Theorem update_without_fields_is_rejected {St} (c : DynamoDBDocumentClient St)
    (lift metadata : string) (s : UpdateStaticDataInput.t)
    (d : UpdateDynamicDataInput.t) (st : St) :
  suppliedStatic s = [] ->
  suppliedDynamic d = [] ->
  let e := DynamoDBError "No fields to update" None in
  updateStaticData c lift s st = (Rejected (ThrownApp e), st)
  /\ updateDynamicData c lift metadata d st = (Rejected (ThrownApp e), st)
  /\ AppError.message e = "No fields to update"
  /\ instanceOf e DynamoDBErrorClass = true
  /\ instanceOf e NotFoundErrorClass = false
  /\ instanceOf e ValidationErrorClass = false
  /\ AppError.statusCode e = 500%Z
  /\ Reply.statusCode (replyError (ThrownApp e)) = 500%Z.
Proof.
  intros Hs Hd e.
  rewrite (suppliedStatic_nil s Hs), (suppliedDynamic_nil d Hd).
  repeat split.
Qed.

Lemma update_without_fields_is_rejected_witness :
  finalState (updateStaticData (mockClient (fun _ => Resolved Output.empty))
                "Summit Express" (UpdateStaticDataInput.mk None None None)) []
    = []
  /\ finalState (updateStaticData ddb "Summit Express"
                   (UpdateStaticDataInput.mk None None None)) sampleTable
    = sampleTable.
Proof.
  split.
  - unfold finalState.
    rewrite (proj1 (update_without_fields_is_rejected
                      (mockClient (fun _ => Resolved Output.empty))
                      "Summit Express" "01/15/24"
                      (UpdateStaticDataInput.mk None None None)
                      (UpdateDynamicDataInput.mk None None None None) []
                      eq_refl eq_refl)).
    reflexivity.
  - unfold finalState.
    rewrite (proj1 (update_without_fields_is_rejected ddb
                      "Summit Express" "01/15/24"
                      (UpdateStaticDataInput.mk None None None)
                      (UpdateDynamicDataInput.mk None None None None) sampleTable
                      eq_refl eq_refl)).
    reflexivity.
Defined.

(** ** Listing *)

Lemma listSkiLifts_any_client {St} (dynamodb : DynamoDBDocumentClient St)
    (query : ListQueryInput.t) (st : St) :
  listSkiLifts dynamodb query st =
    match dynamodb (ScanCommand (listSkiLiftsParams query)) st with
    | (Resolved result, st') => (Resolved (paginated result), st')
    | (Rejected e, st') =>
        (Rejected (ThrownApp (DynamoDBError "Failed to list ski lifts"
                                (Some (ThrownJs e)))), st')
    end.
Proof.
  unfold listSkiLifts, tryCatch, bind, send, tryCatch, ret, throw.
  destruct (dynamodb _ st) as [[o|e] st']; reflexivity.
Qed.

Lemma truthyString_true (s : option string) :
  truthyString s = true <-> exists a, s = Some a /\ a <> "".
Proof.
  destruct s as [a|]; cbn.
  - rewrite negb_true_iff, String.eqb_neq. split.
    + intros H. exists a. split; [reflexivity | exact H].
    + intros (b & Hb & Hne). congruence.
  - split; [discriminate | intros (a & Ha & _); discriminate].
Qed.

Lemma truthyString_false (s : option string) :
  truthyString s = false <-> s = None \/ s = Some "".
Proof.
  destruct s as [a|]; cbn.
  - rewrite negb_false_iff, String.eqb_eq. split.
    + intros ->. right; reflexivity.
    + intros [H|H]; congruence.
  - split; [left; reflexivity | reflexivity].
Qed.

Lemma listSkiLiftsParams_table (query : ListQueryInput.t) :
  ScanCommandInput.TableName (listSkiLiftsParams query) = TABLE_NAME.
Proof. unfold listSkiLiftsParams. destruct (_ && _); reflexivity. Qed.

(** C9. [listSkiLifts] passes a start key to the scan exactly when both
    cursor fields are non-empty strings.  When either is absent or empty,
    the parameters are those of a request without cursor, so with any
    client the call behaves as that request does; on the store, with an
    admissible limit, it resolves with the first page of the scan and
    raises nothing. *)
Theorem list_cursor_needs_both_fields {St} (c : DynamoDBDocumentClient St)
    (query : ListQueryInput.t) (st : St) (tbl : Table) (n : nat) :
  let l := ListQueryInput.lastEvaluatedLift query in
  let m := ListQueryInput.lastEvaluatedMetadata query in
  let limit := ListQueryInput.limit query in
  (forall k, ScanCommandInput.ExclusiveStartKey (listSkiLiftsParams query) = Some k
             <-> exists a b, l = Some a /\ m = Some b /\ a <> "" /\ b <> ""
                             /\ k = Key.mk a b)
  /\ (l = None \/ l = Some "" \/ m = None \/ m = Some "" ->
      listSkiLiftsParams query = ScanCommandInput.mk TABLE_NAME limit None
      /\ listSkiLifts c query st
         = listSkiLifts c (ListQueryInput.mk limit None None) st
      /\ (limitOf limit = Some n ->
          listSkiLifts ddb query tbl
          = (Resolved (paginated (page ["Lift"; "Metadata"] n (snd <$> scanEntries tbl))),
             tbl))).
Proof.
  intros l m limit. split.
  - intros k. unfold listSkiLiftsParams. fold l m.
    destruct (truthyString l && truthyString m) eqn:E; cbn.
    + apply andb_true_iff in E as [El Em].
      apply truthyString_true in El as (a & Ha & Hane).
      apply truthyString_true in Em as (b & Hb & Hbne).
      rewrite Ha, Hb. cbn. split.
      * intros H. injection H as <-. exists a, b. repeat split; assumption.
      * intros (a' & b' & Ha' & Hb' & _ & _ & ->). congruence.
    + split; [discriminate|].
      intros (a & b & Ha & Hb & Hane & Hbne & _).
      apply andb_false_iff in E as [E|E]; apply truthyString_false in E;
        destruct E; congruence.
  - intros H.
    assert (E : truthyString l && truthyString m = false).
    { apply andb_false_iff.
      destruct H as [H|[H|[H|H]]]; [left|left|right|right];
        apply truthyString_false; auto. }
    assert (Hp : listSkiLiftsParams query = ScanCommandInput.mk TABLE_NAME limit None).
    { unfold listSkiLiftsParams. fold l m. rewrite E. reflexivity. }
    split; [exact Hp|]. split.
    + rewrite !listSkiLifts_any_client, Hp. reflexivity.
    + intros Hn. rewrite listSkiLifts_any_client, Hp.
      unfold ddb. cbn [commandTable ScanCommandInput.TableName].
      change (String.eqb TABLE_NAME TABLE_NAME) with true. cbn [negb].
      unfold ddbScan. cbn [ScanCommandInput.Limit ScanCommandInput.ExclusiveStartKey].
      rewrite Hn. reflexivity.
Qed.

Lemma list_cursor_needs_both_fields_witness :
  listSkiLifts ddb (ListQueryInput.mk 20%Q (Some "Summit Express") None) sampleTable
  = listSkiLifts ddb (ListQueryInput.mk 20%Q None None) sampleTable.
Proof.
  exact (proj1 (proj2 (proj2 (list_cursor_needs_both_fields ddb
                         (ListQueryInput.mk 20%Q (Some "Summit Express") None)
                         sampleTable sampleTable 20%nat)
                       (or_intror (or_intror (or_introl eq_refl)))))).
Defined.

(** ** Partial updates *)

Lemma applySet_lookup_notin (sets : list (string * AttributeValue))
    (item : AttributeMap) (a : string) :
  (a ∉ (fst <$> sets)) -> applySet item sets !! a = item !! a.
Proof.
  unfold applySet. revert item.
  induction sets as [|[b v] sets IH]; intros item Hn; cbn; [reflexivity|].
  cbn in Hn. apply not_elem_of_cons in Hn as [Hab Hn].
  rewrite (IH _ Hn). apply lookup_insert_ne. congruence.
Qed.

Lemma distinct_cons_notin (a : string) (l : list string) :
  distinct (a :: l) = true -> (a ∉ l) /\ distinct l = true.
Proof.
  cbn. rewrite andb_true_iff, negb_true_iff. intros [Hn Hd]. split; [|exact Hd].
  intros Hin. apply list_elem_of_In in Hin.
  assert (existsb (String.eqb a) l = true); [|congruence].
  apply existsb_exists. exists a. split; [exact Hin | apply String.eqb_refl].
Qed.

Lemma applySet_lookup_in (sets : list (string * AttributeValue))
    (item : AttributeMap) (a : string) (v : AttributeValue) :
  distinct (fst <$> sets) = true -> (a, v) ∈ sets ->
  applySet item sets !! a = Some v.
Proof.
  unfold applySet. revert item.
  induction sets as [|[b w] sets IH]; intros item Hd Hin; [inversion Hin|].
  cbn in Hd. apply distinct_cons_notin in Hd as [Hn Hd].
  apply elem_of_cons in Hin as [Heq|Hin]; cbn.
  - injection Heq as -> ->.
    change (applySet (<[b:=w]> item) sets !! b = Some w).
    rewrite (applySet_lookup_notin sets _ b Hn). apply lookup_insert_eq.
  - apply IH; assumption.
Qed.

Lemma static_expression_resolves (data : UpdateStaticDataInput.t) :
  suppliedStatic data <> [] ->
  let u := staticUpdateParts data in
  parseUpdateExpression ("SET " ++ String.concat ", " (UpdateParts.updateExpressions u))
    ≫= resolveClauses (UpdateParts.expressionAttributeNames u)
         (UpdateParts.expressionAttributeValues u)
  = Some (suppliedStatic data).
Proof.
  destruct data as [[b|] [v|] [t|]]; intros H; try (vm_compute; reflexivity).
  contradiction H; reflexivity.
Qed.

Lemma dynamic_expression_resolves (data : UpdateDynamicDataInput.t) :
  suppliedDynamic data <> [] ->
  let u := dynamicUpdateParts data in
  parseUpdateExpression ("SET " ++ String.concat ", " (UpdateParts.updateExpressions u))
    ≫= resolveClauses (UpdateParts.expressionAttributeNames u)
         (UpdateParts.expressionAttributeValues u)
  = Some (suppliedDynamic data).
Proof.
  destruct data as [[r|] [c|] [s|] [a|]]; intros H; try (vm_compute; reflexivity).
  contradiction H; reflexivity.
Qed.

Lemma static_targets_ok (data : UpdateStaticDataInput.t) :
  existsb isKeyAttr (fst <$> suppliedStatic data) = false
  /\ distinct (fst <$> suppliedStatic data) = true
  /\ indexKeySetOk (suppliedStatic data) = true.
Proof. destruct data as [[b|] [v|] [t|]]; repeat split. Qed.

Lemma dynamic_targets_ok (data : UpdateDynamicDataInput.t) :
  existsb isKeyAttr (fst <$> suppliedDynamic data) = false
  /\ distinct (fst <$> suppliedDynamic data) = true
  /\ indexKeySetOk (suppliedDynamic data) = true.
Proof. destruct data as [[r|] [c|] [s|] [a|]]; repeat split. Qed.

Lemma static_parts_length (data : UpdateStaticDataInput.t) :
  suppliedStatic data <> [] ->
  Nat.eqb (List.length (UpdateParts.updateExpressions (staticUpdateParts data))) 0 = false.
Proof.
  destruct data as [[b|] [v|] [t|]]; intros H; try reflexivity.
  contradiction H; reflexivity.
Qed.

Lemma dynamic_parts_length (data : UpdateDynamicDataInput.t) :
  suppliedDynamic data <> [] ->
  Nat.eqb (List.length (UpdateParts.updateExpressions (dynamicUpdateParts data))) 0 = false.
Proof.
  destruct data as [[r|] [c|] [s|] [a|]]; intros H; try reflexivity.
  contradiction H; reflexivity.
Qed.

Lemma key_attrs_not_targets (targets : list string) :
  existsb isKeyAttr targets = false ->
  ("Lift" ∉ targets) /\ ("Metadata" ∉ targets).
Proof.
  intros H. split; intros Hin; apply list_elem_of_In in Hin;
    (assert (existsb isKeyAttr targets = true); [|congruence]);
    apply existsb_exists; eexists; (split; [exact Hin | reflexivity]).
Qed.

Ltac not_in_list :=
  repeat (apply not_elem_of_cons; split; [discriminate|]); apply not_elem_of_nil.

Lemma static_key_valid (lift : string) :
  lift <> "" -> validKey (Key.mk lift "Static Data") = true.
Proof. intros H. apply validKey_iff. split; [exact H | discriminate]. Qed.

(** The store's answer to the command an update method builds. *)
Lemma ddbUpdate_set (k : Key.t) (u : UpdateParts.t)
    (sets : list (string * AttributeValue)) (tbl : Table) :
  validKey k = true ->
  parseUpdateExpression ("SET " ++ String.concat ", " (UpdateParts.updateExpressions u))
    ≫= resolveClauses (UpdateParts.expressionAttributeNames u)
         (UpdateParts.expressionAttributeValues u) = Some sets ->
  existsb isKeyAttr (fst <$> sets) = false ->
  distinct (fst <$> sets) = true ->
  indexKeySetOk sets = true ->
  let new := applySet (default (keyItem k) (tbl !! (Key.Lift k, Key.Metadata k))) sets in
  ddbUpdate (updateCommandInput k u) tbl
  = (Resolved {| Output.Item := None; Output.Items := None;
                 Output.LastEvaluatedKey := None; Output.Count := None;
                 Output.Attributes := Some new |},
     <[(Key.Lift k, Key.Metadata k) := new]> tbl).
Proof.
  intros Hk Hp Hkey Hdist Hidx new. unfold ddbUpdate.
  cbn [updateCommandInput UpdateCommandInput.Key UpdateCommandInput.UpdateExpression
       UpdateCommandInput.ExpressionAttributeNames
       UpdateCommandInput.ExpressionAttributeValues UpdateCommandInput.ReturnValues].
  rewrite Hk. cbn [negb]. rewrite Hp, Hkey, Hdist, Hidx. reflexivity.
Qed.

Lemma update_any_client {St} (dynamodb : DynamoDBDocumentClient St)
    (k : Key.t) (u : UpdateParts.t) (msg : string) (st : St) :
  tryCatch
    (await result <- send dynamodb (UpdateCommand (updateCommandInput k u)) ;
     ret (Output.Attributes result))
    (fun error => throw (ThrownApp (DynamoDBError msg (Some error)))) st
  = match dynamodb (UpdateCommand (updateCommandInput k u)) st with
    | (Resolved result, st') => (Resolved (Output.Attributes result), st')
    | (Rejected e, st') =>
        (Rejected (ThrownApp (DynamoDBError msg (Some (ThrownJs e)))), st')
    end.
Proof.
  unfold tryCatch, bind, send, tryCatch, ret, throw.
  destruct (dynamodb _ st) as [[o|e] st']; reflexivity.
Qed.

Lemma updateStaticData_ddb (lift : string) (data : UpdateStaticDataInput.t)
    (tbl : Table) :
  lift <> "" -> suppliedStatic data <> [] ->
  let new := applySet (default (keyItem (Key.mk lift "Static Data"))
                         (tbl !! (lift, "Static Data"))) (suppliedStatic data) in
  updateStaticData ddb lift data tbl
  = (Resolved (Some new), <[(lift, "Static Data") := new]> tbl).
Proof.
  intros Hl Hs new. unfold updateStaticData.
  rewrite (static_parts_length data Hs), update_any_client.
  unfold ddb. cbn [commandTable updateCommandInput UpdateCommandInput.TableName].
  change (String.eqb TABLE_NAME TABLE_NAME) with true. cbn [negb].
  destruct (static_targets_ok data) as (H1 & H2 & H3).
  rewrite (ddbUpdate_set (Key.mk lift "Static Data") (staticUpdateParts data)
             (suppliedStatic data) tbl
             (static_key_valid lift Hl)
             (static_expression_resolves data Hs) H1 H2 H3).
  reflexivity.
Qed.

Lemma updateDynamicData_ddb (lift metadata : string)
    (data : UpdateDynamicDataInput.t) (tbl : Table) :
  lift <> "" -> metadata <> "" -> suppliedDynamic data <> [] ->
  let new := applySet (default (keyItem (Key.mk lift metadata))
                         (tbl !! (lift, metadata))) (suppliedDynamic data) in
  updateDynamicData ddb lift metadata data tbl
  = (Resolved (Some new), <[(lift, metadata) := new]> tbl).
Proof.
  intros Hl Hm Hs new. unfold updateDynamicData.
  rewrite (dynamic_parts_length data Hs), update_any_client.
  unfold ddb. cbn [commandTable updateCommandInput UpdateCommandInput.TableName].
  change (String.eqb TABLE_NAME TABLE_NAME) with true. cbn [negb].
  destruct (dynamic_targets_ok data) as (H1 & H2 & H3).
  rewrite (ddbUpdate_set (Key.mk lift metadata) (dynamicUpdateParts data)
             (suppliedDynamic data) tbl
             (proj2 (validKey_iff lift metadata) (conj Hl Hm))
             (dynamic_expression_resolves data Hs) H1 H2 H3).
  reflexivity.
Qed.

Ltac lookup_inserts :=
  repeat first
    [ rewrite lookup_insert_eq
    | rewrite lookup_insert_ne by discriminate ].

(** Reading the three updatable static attributes after the update. *)
Lemma static_update_reads (data : UpdateStaticDataInput.t) (old : AttributeMap) :
  let new := applySet old (suppliedStatic data) in
  new !! "ExperiencedRidersOnly"
    = match UpdateStaticDataInput.ExperiencedRidersOnly data with
      | Some v => Some (AttrBOOL v)
      | None => old !! "ExperiencedRidersOnly"
      end
  /\ new !! "VerticalFeet"
    = match UpdateStaticDataInput.VerticalFeet data with
      | Some v => Some (AttrN v)
      | None => old !! "VerticalFeet"
      end
  /\ new !! "LiftTime"
    = match UpdateStaticDataInput.LiftTime data with
      | Some v => Some (AttrS v)
      | None => old !! "LiftTime"
      end.
Proof.
  destruct data as [[b|] [v|] [t|]]; cbn; repeat split; lookup_inserts; reflexivity.
Qed.

Lemma dynamic_update_reads (data : UpdateDynamicDataInput.t) (old : AttributeMap) :
  let new := applySet old (suppliedDynamic data) in
  new !! "TotalUniqueLiftRiders"
    = match UpdateDynamicDataInput.TotalUniqueLiftRiders data with
      | Some v => Some (AttrN v)
      | None => old !! "TotalUniqueLiftRiders"
      end
  /\ new !! "AverageSnowCoverageInches"
    = match UpdateDynamicDataInput.AverageSnowCoverageInches data with
      | Some v => Some (AttrN v)
      | None => old !! "AverageSnowCoverageInches"
      end
  /\ new !! "LiftStatus"
    = match UpdateDynamicDataInput.LiftStatus data with
      | Some v => Some (AttrS (LiftStatus_to_string v))
      | None => old !! "LiftStatus"
      end
  /\ new !! "AvalancheDanger"
    = match UpdateDynamicDataInput.AvalancheDanger data with
      | Some v => Some (AttrS (AvalancheDanger_to_string v))
      | None => old !! "AvalancheDanger"
      end.
Proof.
  destruct data as [[r|] [c|] [s|] [a|]]; cbn; repeat split; lookup_inserts; reflexivity.
Qed.

Ltac presence :=
  solve [ intros _; discriminate
        | intros _; tauto
        | intros H; contradiction H; reflexivity
        | intros H; repeat destruct H as [H|H]; try discriminate H; contradiction ].

(** C3. In [updateStaticData] and [updateDynamicData] a field has a clause
    in the update expression, a name and a value exactly when it is present
    in the input; a present [false] or [0] is included like any other
    value; and on the store each of the attributes ends with the provided
    value when the field is present and with what the record held before
    when it is absent. *)
Theorem update_includes_exactly_present_fields
    (s : UpdateStaticDataInput.t) (d : UpdateDynamicDataInput.t)
    (lift metadata : string) (tbl : Table) :
  let su := staticUpdateParts s in
  let du := dynamicUpdateParts d in
  ((In "#experiencedRidersOnly = :experiencedRidersOnly" (UpdateParts.updateExpressions su)
      <-> UpdateStaticDataInput.ExperiencedRidersOnly s <> None)
   /\ (In "#verticalFeet = :verticalFeet" (UpdateParts.updateExpressions su)
      <-> UpdateStaticDataInput.VerticalFeet s <> None)
   /\ (In "#liftTime = :liftTime" (UpdateParts.updateExpressions su)
      <-> UpdateStaticDataInput.LiftTime s <> None)
   /\ (In "#totalUniqueLiftRiders = :totalUniqueLiftRiders" (UpdateParts.updateExpressions du)
      <-> UpdateDynamicDataInput.TotalUniqueLiftRiders d <> None)
   /\ (In "#averageSnowCoverageInches = :averageSnowCoverageInches"
         (UpdateParts.updateExpressions du)
      <-> UpdateDynamicDataInput.AverageSnowCoverageInches d <> None)
   /\ (In "#liftStatus = :liftStatus" (UpdateParts.updateExpressions du)
      <-> UpdateDynamicDataInput.LiftStatus d <> None)
   /\ (In "#avalancheDanger = :avalancheDanger" (UpdateParts.updateExpressions du)
      <-> UpdateDynamicDataInput.AvalancheDanger d <> None))
  /\ (UpdateParts.expressionAttributeValues su !! ":experiencedRidersOnly"
        = AttrBOOL <$> UpdateStaticDataInput.ExperiencedRidersOnly s
      /\ UpdateParts.expressionAttributeValues su !! ":verticalFeet"
        = AttrN <$> UpdateStaticDataInput.VerticalFeet s
      /\ UpdateParts.expressionAttributeValues su !! ":liftTime"
        = AttrS <$> UpdateStaticDataInput.LiftTime s
      /\ UpdateParts.expressionAttributeValues du !! ":totalUniqueLiftRiders"
        = AttrN <$> UpdateDynamicDataInput.TotalUniqueLiftRiders d
      /\ UpdateParts.expressionAttributeValues du !! ":averageSnowCoverageInches"
        = AttrN <$> UpdateDynamicDataInput.AverageSnowCoverageInches d
      /\ UpdateParts.expressionAttributeValues du !! ":liftStatus"
        = (fun v => AttrS (LiftStatus_to_string v)) <$> UpdateDynamicDataInput.LiftStatus d
      /\ UpdateParts.expressionAttributeValues du !! ":avalancheDanger"
        = (fun v => AttrS (AvalancheDanger_to_string v))
            <$> UpdateDynamicDataInput.AvalancheDanger d)
  /\ (UpdateParts.expressionAttributeNames su !! "#experiencedRidersOnly"
        = (fun _ => "ExperiencedRidersOnly") <$> UpdateStaticDataInput.ExperiencedRidersOnly s
      /\ UpdateParts.expressionAttributeNames su !! "#verticalFeet"
        = (fun _ => "VerticalFeet") <$> UpdateStaticDataInput.VerticalFeet s
      /\ UpdateParts.expressionAttributeNames su !! "#liftTime"
        = (fun _ => "LiftTime") <$> UpdateStaticDataInput.LiftTime s
      /\ UpdateParts.expressionAttributeNames du !! "#totalUniqueLiftRiders"
        = (fun _ => "TotalUniqueLiftRiders")
            <$> UpdateDynamicDataInput.TotalUniqueLiftRiders d
      /\ UpdateParts.expressionAttributeNames du !! "#averageSnowCoverageInches"
        = (fun _ => "AverageSnowCoverageInches")
            <$> UpdateDynamicDataInput.AverageSnowCoverageInches d
      /\ UpdateParts.expressionAttributeNames du !! "#liftStatus"
        = (fun _ => "LiftStatus") <$> UpdateDynamicDataInput.LiftStatus d
      /\ UpdateParts.expressionAttributeNames du !! "#avalancheDanger"
        = (fun _ => "AvalancheDanger") <$> UpdateDynamicDataInput.AvalancheDanger d)
  /\ (UpdateParts.updateExpressions
        (staticUpdateParts (UpdateStaticDataInput.mk (Some false) None None))
        = ["#experiencedRidersOnly = :experiencedRidersOnly"]
      /\ UpdateParts.updateExpressions
           (dynamicUpdateParts (UpdateDynamicDataInput.mk (Some 0%Q) (Some 0%Q) None None))
        = ["#totalUniqueLiftRiders = :totalUniqueLiftRiders";
           "#averageSnowCoverageInches = :averageSnowCoverageInches"])
  /\ (lift <> "" -> suppliedStatic s <> [] ->
      exists new,
        updateStaticData ddb lift s tbl
          = (Resolved (Some new), <[(lift, "Static Data") := new]> tbl)
        /\ let old := default (keyItem (Key.mk lift "Static Data"))
                        (tbl !! (lift, "Static Data")) in
           new !! "ExperiencedRidersOnly"
             = match UpdateStaticDataInput.ExperiencedRidersOnly s with
               | Some v => Some (AttrBOOL v)
               | None => old !! "ExperiencedRidersOnly"
               end
           /\ new !! "VerticalFeet"
             = match UpdateStaticDataInput.VerticalFeet s with
               | Some v => Some (AttrN v)
               | None => old !! "VerticalFeet"
               end
           /\ new !! "LiftTime"
             = match UpdateStaticDataInput.LiftTime s with
               | Some v => Some (AttrS v)
               | None => old !! "LiftTime"
               end)
  /\ (lift <> "" -> metadata <> "" -> suppliedDynamic d <> [] ->
      exists new,
        updateDynamicData ddb lift metadata d tbl
          = (Resolved (Some new), <[(lift, metadata) := new]> tbl)
        /\ let old := default (keyItem (Key.mk lift metadata)) (tbl !! (lift, metadata)) in
           new !! "TotalUniqueLiftRiders"
             = match UpdateDynamicDataInput.TotalUniqueLiftRiders d with
               | Some v => Some (AttrN v)
               | None => old !! "TotalUniqueLiftRiders"
               end
           /\ new !! "AverageSnowCoverageInches"
             = match UpdateDynamicDataInput.AverageSnowCoverageInches d with
               | Some v => Some (AttrN v)
               | None => old !! "AverageSnowCoverageInches"
               end
           /\ new !! "LiftStatus"
             = match UpdateDynamicDataInput.LiftStatus d with
               | Some v => Some (AttrS (LiftStatus_to_string v))
               | None => old !! "LiftStatus"
               end
           /\ new !! "AvalancheDanger"
             = match UpdateDynamicDataInput.AvalancheDanger d with
               | Some v => Some (AttrS (AvalancheDanger_to_string v))
               | None => old !! "AvalancheDanger"
               end).
Proof.
  intros su du. subst su du.
  split; [|split; [|split; [|split; [|split]]]].
  - repeat apply conj.
    1-6: destruct s as [[b|] [v|] [t|]]; cbn; presence.
    all: destruct d as [[r|] [c|] [x|] [a|]]; cbn; presence.
  - repeat apply conj.
    1-3: destruct s as [[b|] [v|] [t|]]; vm_compute; reflexivity.
    all: destruct d as [[r|] [c|] [x|] [a|]]; vm_compute; reflexivity.
  - repeat apply conj.
    1-3: destruct s as [[b|] [v|] [t|]]; vm_compute; reflexivity.
    all: destruct d as [[r|] [c|] [x|] [a|]]; vm_compute; reflexivity.
  - split; reflexivity.
  - intros Hl Hs. eexists. split; [apply (updateStaticData_ddb lift s tbl Hl Hs)|].
    apply static_update_reads.
  - intros Hl Hm Hd. eexists.
    split; [apply (updateDynamicData_ddb lift metadata d tbl Hl Hm Hd)|].
    apply dynamic_update_reads.
Qed.

Lemma sampleTable_static :
  sampleTable !! ("Summit Express", "Static Data")
  = Some (marshalStatic validStaticDataResponse).
Proof. vm_cast_no_check (eq_refl (Some (marshalStatic validStaticDataResponse))). Qed.

Lemma sampleTable_dynamic :
  sampleTable !! ("Summit Express", "01/15/24")
  = Some (marshalDynamic
            (SkiLiftDynamicData.mk "Summit Express" "01/15/24" 1250%Q 48%Q Open Low)).
Proof.
  vm_cast_no_check
    (eq_refl (Some (marshalDynamic
                      (SkiLiftDynamicData.mk "Summit Express" "01/15/24"
                         1250%Q 48%Q Open Low)))).
Qed.

Lemma update_includes_exactly_present_fields_witness :
  exists new,
    updateStaticData ddb "Summit Express"
      (UpdateStaticDataInput.mk None (Some 3000%Q) None) sampleTable
    = (Resolved (Some new), <[("Summit Express", "Static Data") := new]> sampleTable)
    /\ new !! "VerticalFeet" = Some (AttrN 3000%Q)
    /\ new !! "LiftTime" = Some (AttrS "8:00")
    /\ new !! "ExperiencedRidersOnly" = Some (AttrBOOL false).
Proof.
  destruct (proj1 (proj2 (proj2 (proj2 (proj2
              (update_includes_exactly_present_fields
                 (UpdateStaticDataInput.mk None (Some 3000%Q) None)
                 (UpdateDynamicDataInput.mk None None None None)
                 "Summit Express" "01/15/24" sampleTable)))))
            ltac:(discriminate) ltac:(discriminate))
    as (new & Heq & Hero & Hvf & Hlt).
  exists new. rewrite sampleTable_static in Hero, Hlt. cbn in Hero, Hvf, Hlt.
  repeat split; assumption.
Defined.

(** C4. On an existing record, an update with at least one field resolves
    with the record as the store holds it after the update: each supplied
    attribute has the supplied value, every other attribute, the key
    attributes among them, is what it was, and no other record of the
    table is touched.  For [updateStaticData] the record is the one under
    ([lift], "Static Data"); for [updateDynamicData] it is the one under
    ([lift], [metadata]), whatever else the table holds for the lift. *)
Theorem update_changes_only_supplied_fields
    (s : UpdateStaticDataInput.t) (d : UpdateDynamicDataInput.t)
    (lift metadata : string) (tbl : Table) (oldS oldD : AttributeMap) :
  (lift <> "" -> suppliedStatic s <> [] ->
   tbl !! (lift, "Static Data") = Some oldS ->
   exists new,
     updateStaticData ddb lift s tbl
       = (Resolved (Some new), <[(lift, "Static Data") := new]> tbl)
     /\ (forall a v, (a, v) ∈ suppliedStatic s -> new !! a = Some v)
     /\ (forall a, (a ∉ (fst <$> suppliedStatic s)) -> new !! a = oldS !! a)
     /\ new !! "Lift" = oldS !! "Lift"
     /\ new !! "Metadata" = oldS !! "Metadata"
     /\ (forall k, k <> (lift, "Static Data") ->
           finalState (updateStaticData ddb lift s) tbl !! k = tbl !! k)
     /\ finalState (updateStaticData ddb lift s) tbl !! (lift, "Static Data") = Some new)
  /\ (lift <> "" -> metadata <> "" -> suppliedDynamic d <> [] ->
      tbl !! (lift, metadata) = Some oldD ->
      exists new,
        updateDynamicData ddb lift metadata d tbl
          = (Resolved (Some new), <[(lift, metadata) := new]> tbl)
        /\ (forall a v, (a, v) ∈ suppliedDynamic d -> new !! a = Some v)
        /\ (forall a, (a ∉ (fst <$> suppliedDynamic d)) -> new !! a = oldD !! a)
        /\ new !! "Lift" = oldD !! "Lift"
        /\ new !! "Metadata" = oldD !! "Metadata"
        /\ (forall k, k <> (lift, metadata) ->
              finalState (updateDynamicData ddb lift metadata d) tbl !! k = tbl !! k)
        /\ finalState (updateDynamicData ddb lift metadata d) tbl !! (lift, metadata)
           = Some new).
Proof.
  split.
  - intros Hl Hs HoS.
    pose proof (updateStaticData_ddb lift s tbl Hl Hs) as Hu. cbv zeta in Hu.
    rewrite HoS in Hu. cbn [default] in Hu.
    destruct (static_targets_ok s) as (Hkey & Hdist & _).
    exists (applySet oldS (suppliedStatic s)).
    split; [exact Hu|]. unfold finalState. rewrite Hu. cbn [snd].
    split; [intros a v Hin; apply applySet_lookup_in; assumption|].
    split; [intros a Hn; apply applySet_lookup_notin; assumption|].
    repeat split.
    + apply applySet_lookup_notin. apply (key_attrs_not_targets _ Hkey).
    + apply applySet_lookup_notin. apply (key_attrs_not_targets _ Hkey).
    + intros k Hk. apply lookup_insert_ne. congruence.
    + apply lookup_insert_eq.
  - intros Hl Hm Hd HoD.
    pose proof (updateDynamicData_ddb lift metadata d tbl Hl Hm Hd) as Hu. cbv zeta in Hu.
    rewrite HoD in Hu. cbn [default] in Hu.
    destruct (dynamic_targets_ok d) as (Hkey & Hdist & _).
    exists (applySet oldD (suppliedDynamic d)).
    split; [exact Hu|]. unfold finalState. rewrite Hu. cbn [snd].
    split; [intros a v Hin; apply applySet_lookup_in; assumption|].
    split; [intros a Hn; apply applySet_lookup_notin; assumption|].
    repeat split.
    + apply applySet_lookup_notin. apply (key_attrs_not_targets _ Hkey).
    + apply applySet_lookup_notin. apply (key_attrs_not_targets _ Hkey).
    + intros k Hk. apply lookup_insert_ne. congruence.
    + apply lookup_insert_eq.
Qed.

Lemma resortTable_day :
  resortTable !! ("Resort Data", "01/15/24")
  = Some (marshalResort (resortRecord validResortData)).
Proof. vm_cast_no_check (eq_refl (Some (marshalResort (resortRecord validResortData)))). Qed.

Lemma update_changes_only_supplied_fields_witness :
  (exists new,
     updateStaticData ddb "Summit Express"
       (UpdateStaticDataInput.mk None (Some 3000%Q) None) sampleTable
     = (Resolved (Some new), <[("Summit Express", "Static Data") := new]> sampleTable)
     /\ new !! "Lift" = marshalStatic validStaticDataResponse !! "Lift")
  /\ (exists new,
        updateDynamicData ddb "Resort Data" "01/15/24"
          (UpdateDynamicDataInput.mk (Some 9000%Q) None None None) resortTable
        = (Resolved (Some new), <[("Resort Data", "01/15/24") := new]> resortTable)
        /\ new !! "OpenLifts" = marshalResort (resortRecord validResortData) !! "OpenLifts").
Proof.
  split.
  - destruct (proj1 (update_changes_only_supplied_fields
                       (UpdateStaticDataInput.mk None (Some 3000%Q) None)
                       (UpdateDynamicDataInput.mk None None (Some Closed) None)
                       "Summit Express" "01/15/24" sampleTable _ ∅)
                ltac:(discriminate) ltac:(discriminate) sampleTable_static)
      as (new & Heq & _ & _ & Hlift & _).
    exists new. split; assumption.
  - destruct (proj2 (update_changes_only_supplied_fields
                       (UpdateStaticDataInput.mk None (Some 3000%Q) None)
                       (UpdateDynamicDataInput.mk (Some 9000%Q) None None None)
                       "Resort Data" "01/15/24" resortTable ∅ _)
                ltac:(discriminate) ltac:(discriminate) ltac:(discriminate)
                resortTable_day)
      as (new & Heq & _ & Hkeep & _).
    exists new. split; [exact Heq|]. apply Hkeep. cbn. not_in_list.
Defined.

(** C10. The update methods reject with a [DynamoDBError] or not at all,
    whatever the client does, so never with a not-found failure; and on
    the store an update with at least one field at a key that holds no
    record resolves with a new record made of the two key attributes and
    the supplied fields, which is then what the table holds at the key.
    The key is ([lift], "Static Data") for [updateStaticData] and ([lift],
    [metadata]) for [updateDynamicData], whatever else the table holds for
    the lift. *)
Theorem update_of_missing_record_creates_it
    (s : UpdateStaticDataInput.t) (d : UpdateDynamicDataInput.t)
    (lift metadata : string) (tbl : Table) :
  (lift <> "" -> suppliedStatic s <> [] ->
   tbl !! (lift, "Static Data") = None ->
   exists new,
     updateStaticData ddb lift s tbl
       = (Resolved (Some new), <[(lift, "Static Data") := new]> tbl)
     /\ new !! "Lift" = Some (AttrS lift)
     /\ new !! "Metadata" = Some (AttrS "Static Data")
     /\ (forall a v, (a, v) ∈ suppliedStatic s -> new !! a = Some v)
     /\ (forall a, a <> "Lift" -> a <> "Metadata" ->
           (a ∉ (fst <$> suppliedStatic s)) -> new !! a = None))
  /\ (lift <> "" -> metadata <> "" -> suppliedDynamic d <> [] ->
      tbl !! (lift, metadata) = None ->
      exists new,
        updateDynamicData ddb lift metadata d tbl
          = (Resolved (Some new), <[(lift, metadata) := new]> tbl)
        /\ new !! "Lift" = Some (AttrS lift)
        /\ new !! "Metadata" = Some (AttrS metadata)
        /\ (forall a v, (a, v) ∈ suppliedDynamic d -> new !! a = Some v)
        /\ (forall a, a <> "Lift" -> a <> "Metadata" ->
              (a ∉ (fst <$> suppliedDynamic d)) -> new !! a = None))
  /\ (forall St (c : DynamoDBDocumentClient St) (st : St) s' d' x,
        (outcome (updateStaticData c lift s') st = Rejected x
         \/ outcome (updateDynamicData c lift metadata d') st = Rejected x) ->
        rejectedWith (Rejected x : Outcome Thrown (option AttributeMap)) DynamoDBErrorClass
        /\ thrownInstanceOf x NotFoundErrorClass = false).
Proof.
  assert (Hkeys : forall k sets a,
            a <> "Lift" -> a <> "Metadata" -> (a ∉ (fst <$> sets)) ->
            applySet (keyItem k) sets !! a = None).
  { intros k sets a H1 H2 Hn. rewrite (applySet_lookup_notin sets _ a Hn).
    unfold keyItem. rewrite !lookup_insert_ne by congruence. apply lookup_empty. }
  split; [|split].
  - intros Hl Hs HnS.
    pose proof (updateStaticData_ddb lift s tbl Hl Hs) as Hu. cbv zeta in Hu.
    rewrite HnS in Hu. cbn [default] in Hu.
    destruct (static_targets_ok s) as (Hkey & Hdist & _).
    eexists. split; [exact Hu|]. repeat split.
    + rewrite applySet_lookup_notin; [reflexivity|].
      apply (key_attrs_not_targets _ Hkey).
    + rewrite applySet_lookup_notin; [reflexivity|].
      apply (key_attrs_not_targets _ Hkey).
    + intros a v Hin. apply applySet_lookup_in; assumption.
    + apply Hkeys.
  - intros Hl Hm Hd HnD.
    pose proof (updateDynamicData_ddb lift metadata d tbl Hl Hm Hd) as Hu. cbv zeta in Hu.
    rewrite HnD in Hu. cbn [default] in Hu.
    destruct (dynamic_targets_ok d) as (Hkey & Hdist & _).
    eexists. split; [exact Hu|]. repeat split.
    + rewrite applySet_lookup_notin; [reflexivity|].
      apply (key_attrs_not_targets _ Hkey).
    + rewrite applySet_lookup_notin; [reflexivity|].
      apply (key_attrs_not_targets _ Hkey).
    + intros a v Hin. apply applySet_lookup_in; assumption.
    + apply Hkeys.
  - intros St c st s' d' x [H|H]; unfold outcome in H.
    + unfold updateStaticData in H.
      destruct (Nat.eqb _ 0); [|rewrite update_any_client in H];
        [|destruct (c _ st) as [[o|e] st']]; cbn in H; try discriminate H;
        injection H as <-; (split; [eexists; split; reflexivity | reflexivity]).
    + unfold updateDynamicData in H.
      destruct (Nat.eqb _ 0); [|rewrite update_any_client in H];
        [|destruct (c _ st) as [[o|e] st']]; cbn in H; try discriminate H;
        injection H as <-; (split; [eexists; split; reflexivity | reflexivity]).
Qed.

Lemma sampleTable_black_diamond_static :
  sampleTable !! ("Black Diamond Lift", "Static Data") = None.
Proof. vm_cast_no_check (eq_refl (@None AttributeMap)). Qed.

Lemma sampleTable_summit_february :
  sampleTable !! ("Summit Express", "02/01/24") = None.
Proof. vm_cast_no_check (eq_refl (@None AttributeMap)). Qed.

Lemma update_of_missing_record_creates_it_witness :
  (exists new,
     updateStaticData ddb "Black Diamond Lift"
       (UpdateStaticDataInput.mk None (Some 3000%Q) None) sampleTable
     = (Resolved (Some new), <[("Black Diamond Lift", "Static Data") := new]> sampleTable)
     /\ new !! "Lift" = Some (AttrS "Black Diamond Lift")
     /\ new !! "LiftTime" = None)
  /\ (exists new,
        updateDynamicData ddb "Summit Express" "02/01/24"
          (UpdateDynamicDataInput.mk None None (Some Closed) None) sampleTable
        = (Resolved (Some new), <[("Summit Express", "02/01/24") := new]> sampleTable)
        /\ new !! "Metadata" = Some (AttrS "02/01/24")
        /\ new !! "TotalUniqueLiftRiders" = None).
Proof.
  split.
  - destruct (proj1 (update_of_missing_record_creates_it
                       (UpdateStaticDataInput.mk None (Some 3000%Q) None)
                       (UpdateDynamicDataInput.mk None None (Some Closed) None)
                       "Black Diamond Lift" "01/15/24" sampleTable)
                ltac:(discriminate) ltac:(discriminate)
                sampleTable_black_diamond_static)
      as (new & Heq & Hlift & _ & _ & Hnone).
    exists new. split; [exact Heq|]. split; [exact Hlift|].
    apply Hnone; [discriminate | discriminate |].
    cbn. not_in_list.
  - destruct (proj1 (proj2 (update_of_missing_record_creates_it
                       (UpdateStaticDataInput.mk None (Some 3000%Q) None)
                       (UpdateDynamicDataInput.mk None None (Some Closed) None)
                       "Summit Express" "02/01/24" sampleTable))
                ltac:(discriminate) ltac:(discriminate) ltac:(discriminate)
                sampleTable_summit_february)
      as (new & Heq & _ & Hmeta & _ & Hnone).
    exists new. split; [exact Heq|]. split; [exact Hmeta|].
    apply Hnone; [discriminate | discriminate |].
    cbn. not_in_list.
Defined.

(** ** Sorting *)

Section SortByFacts.
Context {A : Type} (leb : A -> A -> bool).
Hypothesis leb_total : forall x y, leb x y = true \/ leb y x = true.
Hypothesis leb_trans : forall x y z, leb x y = true -> leb y z = true -> leb x z = true.

Let R (x y : A) : Prop := leb x y = true.

Lemma insertBy_elem_of (x y : A) (l : list A) :
  y ∈ insertBy leb x l <-> y = x \/ y ∈ l.
Proof.
  induction l as [|z l IH]; cbn.
  - rewrite list_elem_of_singleton. split; [auto | intros [H|H]; [exact H | inversion H]].
  - destruct (leb x z).
    + rewrite elem_of_cons. reflexivity.
    + rewrite !elem_of_cons, IH. tauto.
Qed.

Lemma insertBy_sorted (x : A) (l : list A) :
  StronglySorted R l -> StronglySorted R (insertBy leb x l).
Proof.
  induction 1 as [|y l Hs IH Hall]; cbn.
  - repeat constructor.
  - destruct (leb x y) eqn:E.
    + constructor; [constructor; assumption|].
      constructor; [exact E|].
      eapply Forall_impl; [exact Hall|]. intros z Hz. exact (leb_trans x y z E Hz).
    + constructor; [exact IH|].
      apply Forall_forall. intros z Hz. apply insertBy_elem_of in Hz as [->|Hz].
      * destruct (leb_total x y) as [H|H]; [congruence | exact H].
      * rewrite Forall_forall in Hall. exact (Hall z Hz).
Qed.

Lemma sortBy_sorted (l : list A) : StronglySorted R (sortBy leb l).
Proof.
  unfold sortBy. induction l as [|x l IH]; cbn; [constructor|].
  apply insertBy_sorted. exact IH.
Qed.

Lemma sortBy_elem_of (x : A) (l : list A) : x ∈ sortBy leb l <-> x ∈ l.
Proof.
  unfold sortBy. induction l as [|y l IH]; cbn; [reflexivity|].
  rewrite insertBy_elem_of, elem_of_cons, IH. reflexivity.
Qed.

Lemma sortBy_length (l : list A) : List.length (sortBy leb l) = List.length l.
Proof.
  assert (Hi : forall x l', List.length (insertBy leb x l') = S (List.length l')).
  { intros x l'. induction l' as [|y l' IH]; cbn; [reflexivity|].
    destruct (leb x y); cbn; [reflexivity | rewrite IH; reflexivity]. }
  unfold sortBy. induction l as [|x l IH]; cbn; [reflexivity|].
  rewrite Hi, IH. reflexivity.
Qed.
End SortByFacts.

Lemma StronglySorted_lookup {A} (R : A -> A -> Prop) (l : list A) (i j : nat) (a b : A) :
  StronglySorted R l -> (i < j)%nat -> l !! i = Some a -> l !! j = Some b -> R a b.
Proof.
  intros Hs. revert i j. induction Hs as [|x l Hs IH Hall]; intros i j Hij Hi Hj.
  - inversion Hi.
  - destruct j as [|j]; [lia|]. cbn in Hj. destruct i as [|i]; cbn in Hi.
    + injection Hi as <-. rewrite Forall_forall in Hall.
      apply Hall. eapply list_elem_of_lookup_2. exact Hj.
    + apply (IH i j); [lia | assumption | assumption].
Qed.

Lemma StronglySorted_filter_keeps {A} (R : A -> A -> Prop) (P : A -> Prop)
    `{forall x, Decision (P x)} (l : list A) :
  StronglySorted R l -> StronglySorted R (filter P l).
Proof.
  induction 1 as [|x l Hs IH Hall]; [constructor|].
  rewrite filter_cons. destruct (decide (P x)); [|exact IH].
  constructor; [exact IH|].
  rewrite Forall_forall in *. intros y Hy.
  apply list_elem_of_filter in Hy as [_ Hy]. exact (Hall y Hy).
Qed.

Lemma StronglySorted_take_keeps {A} (R : A -> A -> Prop) (n : nat) (l : list A) :
  StronglySorted R l -> StronglySorted R (take n l).
Proof.
  intros Hs. rewrite <- (take_drop n l) in Hs.
  exact (StronglySorted_app_1_l R _ _ Hs).
Qed.

Lemma StronglySorted_rev_flips {A} (R : A -> A -> Prop) (l : list A) :
  StronglySorted R l -> StronglySorted (fun a b => R b a) (rev l).
Proof.
  induction 1 as [|x l Hs IH Hall]; cbn; [constructor|].
  apply StronglySorted_app. split; [|split].
  - intros a b Ha Hb. apply list_elem_of_singleton in Hb as ->.
    rewrite Forall_forall in Hall. apply Hall.
    apply list_elem_of_In. apply in_rev. apply list_elem_of_In. exact Ha.
  - exact IH.
  - repeat constructor.
Qed.

(** ** The two orders *)

Lemma String_leb_trans (x y z : string) :
  String.leb x y = true -> String.leb y z = true -> String.leb x z = true.
Proof.
  unfold String.leb.
  destruct (String.compare x y) eqn:Exy; [| |discriminate].
  - apply String.compare_eq_iff in Exy as ->. auto.
  - destruct (String.compare y z) eqn:Eyz; [| |discriminate]; intros _ _.
    + apply String.compare_eq_iff in Eyz as <-. rewrite Exy. reflexivity.
    + apply String_as_OT.cmp_lt in Exy, Eyz.
      pose proof (String_as_OT.lt_trans _ _ _ Exy Eyz) as Hxz.
      apply String_as_OT.cmp_lt in Hxz. unfold String_as_OT.cmp in Hxz.
      rewrite Hxz. reflexivity.
Qed.

Lemma Qle_bool_total (x y : Q) : Qle_bool x y = true \/ Qle_bool y x = true.
Proof.
  rewrite !Qle_bool_iff. destruct (Qlt_le_dec x y) as [H|H]; [left|right]; auto.
  apply Qlt_le_weak. exact H.
Qed.

Lemma Qle_bool_trans (x y z : Q) :
  Qle_bool x y = true -> Qle_bool y z = true -> Qle_bool x z = true.
Proof. rewrite !Qle_bool_iff. apply Qle_trans. Qed.

(** ** What the table and the index hold *)

Lemma partitionEntries_elem_of (tbl : Table) (lift m : string) (item : AttributeMap) :
  (m, item) ∈ partitionEntries tbl lift <-> tbl !! (lift, m) = Some item.
Proof.
  unfold partitionEntries. rewrite sortBy_elem_of, list_elem_of_omap. split.
  - intros ([[l k] it] & Hin & Hf). cbn in Hf.
    destruct (String.eqb_spec l lift) as [->|]; [|discriminate].
    injection Hf as -> ->. apply elem_of_map_to_list in Hin. exact Hin.
  - intros H. exists ((lift, m), item). split.
    + apply elem_of_map_to_list. exact H.
    + cbn. rewrite String.eqb_refl. reflexivity.
Qed.

Lemma partitionEntries_sorted (tbl : Table) (lift : string) :
  StronglySorted (fun a b : string * AttributeMap => String.leb a.1 b.1 = true)
    (partitionEntries tbl lift).
Proof.
  unfold partitionEntries. apply sortBy_sorted.
  - intros x y. apply String.leb_total.
  - intros x y z. apply String_leb_trans.
Qed.

Lemma partitionEntries_metadata (tbl : Table) (lift : string) (e : string * AttributeMap) :
  wfTable tbl -> e ∈ partitionEntries tbl lift -> metadataOf e.2 = Some e.1.
Proof.
  intros Hwf Hin. destruct e as [m item].
  apply partitionEntries_elem_of in Hin. apply Hwf in Hin.
  unfold keyOfItem in Hin. unfold metadataOf. cbn.
  destruct (item !! "Lift") as [[l| | |]|]; try discriminate Hin.
  destruct (item !! "Metadata") as [[k| | |]|]; try discriminate Hin.
  destruct (validKey _); [|discriminate Hin]. injection Hin as _ ->. reflexivity.
Qed.

Lemma project_riders (item : AttributeMap) (v : AttributeValue) :
  item !! "TotalUniqueLiftRiders" = Some v ->
  project ["Lift"; "TotalUniqueLiftRiders"; "Metadata"] item !! "TotalUniqueLiftRiders"
  = Some v.
Proof.
  intros H. unfold project. cbn [omap list_omap]. rewrite H.
  destruct (item !! "Lift"); destruct (item !! "Metadata"); cbn;
    lookup_inserts; reflexivity.
Qed.

Lemma indexEntries_sorted (tbl : Table) (lift : string) :
  StronglySorted (fun a b : number * AttributeMap => Qle_bool a.1 b.1 = true)
    (indexEntries tbl lift).
Proof.
  unfold indexEntries. apply sortBy_sorted.
  - intros x y. apply Qle_bool_total.
  - intros x y z. apply Qle_bool_trans.
Qed.

(** An index entry is the projection of a record of the lift, under the
    rider count that record carries. *)
Lemma indexEntries_elem_of (tbl : Table) (lift : string) (e : number * AttributeMap) :
  e ∈ indexEntries tbl lift ->
  ridersOf e.2 = Some e.1
  /\ exists m item,
       tbl !! (lift, m) = Some item
       /\ item !! "TotalUniqueLiftRiders" = Some (AttrN e.1)
       /\ e.2 = project ["Lift"; "TotalUniqueLiftRiders"; "Metadata"] item.
Proof.
  unfold indexEntries. rewrite sortBy_elem_of, list_elem_of_omap.
  intros ([m item] & Hin & Hf). cbn [fst snd] in Hf.
  destruct (item !! "TotalUniqueLiftRiders") as [[ | r | | ]|] eqn:Hr; try discriminate Hf.
  injection Hf as <-. cbn [fst snd]. split.
  - unfold ridersOf. rewrite (project_riders item _ Hr). reflexivity.
  - exists m, item. split; [|split; [exact Hr | reflexivity]].
    apply partitionEntries_elem_of. exact Hin.
Qed.

Lemma filter_all {A} (l : list A) : filter (fun _ : A => true = true) l = l.
Proof.
  induction l as [|x l IH]; [reflexivity|].
  rewrite filter_cons. destruct (decide (true = true)); [|congruence].
  rewrite IH. reflexivity.
Qed.

Lemma fmap_rev {A B} (f : A -> B) (l : list A) : f <$> rev l = rev (f <$> l).
Proof.
  induction l as [|x l IH]; [reflexivity|].
  cbn. rewrite fmap_app, IH. reflexivity.
Qed.

Lemma limitOf_positive (q : number) (n : nat) : limitOf q = Some n -> (1 <= n)%nat.
Proof.
  unfold limitOf, num_is_integer.
  destruct (Pos.eqb_spec (Qden (Qred q)) 1) as [Hd|]; [|discriminate].
  destruct (Qle_bool 1 (Qred q)) eqn:Hle.
  - assert (Hq : Qle_bool 1 q = true).
    { apply Qle_bool_iff. apply Qle_bool_iff in Hle.
      rewrite <- (Qred_correct q). exact Hle. }
    rewrite Hq. cbn. intros H. injection H as <-.
    apply Qle_bool_iff in Hle. unfold Qle in Hle. cbn in Hle. rewrite Hd in Hle. lia.
  - assert (Hq : Qle_bool 1 q = false).
    { destruct (Qle_bool 1 q) eqn:E; [|reflexivity].
      apply Qle_bool_iff in E. rewrite <- (Qred_correct q) in E.
      apply Qle_bool_iff in E. congruence. }
    rewrite Hq. discriminate.
Qed.

Lemma query_any_client {St} (dynamodb : DynamoDBDocumentClient St)
    (input : QueryCommandInput.t) (msg : string) (st : St) :
  tryCatch
    (await result <- send dynamodb (QueryCommand input) ;
     ret (paginated result))
    (fun error => throw (ThrownApp (DynamoDBError msg (Some error)))) st
  = match dynamodb (QueryCommand input) st with
    | (Resolved result, st') => (Resolved (paginated result), st')
    | (Rejected e, st') =>
        (Rejected (ThrownApp (DynamoDBError msg (Some (ThrownJs e)))), st')
    end.
Proof.
  unfold tryCatch, bind, send, tryCatch, ret, throw.
  destruct (dynamodb _ st) as [[o|e] st']; reflexivity.
Qed.

Lemma wfTableb_sound (tbl : Table) : wfTableb tbl = true -> wfTable tbl.
Proof.
  unfold wfTableb, wfTable. rewrite forallb_forall. intros H l m item Hl.
  specialize (H ((l, m), item)). cbn in H. unfold keyMatches in H. cbn in H.
  destruct (keyOfItem item) as [[l' m']|].
  - cbn in H. assert (Hin : In ((l, m), item) (map_to_list tbl)).
    { apply list_elem_of_In. apply elem_of_map_to_list. exact Hl. }
    apply H in Hin. apply andb_true_iff in Hin as [H1 H2].
    apply String.eqb_eq in H1, H2. congruence.
  - assert (Hin : In ((l, m), item) (map_to_list tbl)).
    { apply list_elem_of_In. apply elem_of_map_to_list. exact Hl. }
    apply H in Hin. discriminate Hin.
Qed.

Lemma sampleTable_wf : wfTable sampleTable.
Proof. apply wfTableb_sound. vm_cast_no_check (eq_refl true). Qed.

(** ** Query by lift *)

Lemma resolve_lift_only {K} (sortAttr : string) (asK : AttributeValue -> option K)
    (lift : string) :
  resolveKeyCondition sortAttr asK {[ ":lift" := AttrS lift ]}
    (KeyCondition.mk "Lift" ":lift" None)
  = Some (lift, None).
Proof. reflexivity. Qed.

(** What [queryLiftData] does on the store, for any limit. *)
Lemma queryLiftData_ddb (tbl : Table) (lift : string) (limit : option number) :
  queryLiftData ddb lift limit tbl
  = match limitOf (default 20%Q limit) with
    | Some n =>
        (Resolved (paginated (page ["Lift"; "Metadata"] n
                                (snd <$> partitionEntries tbl lift))), tbl)
    | None =>
        (Rejected (ThrownApp (DynamoDBError "Failed to query lift data"
                                (Some (ThrownJs limitRefused)))), tbl)
    end.
Proof.
  unfold queryLiftData. rewrite query_any_client.
  unfold ddb. cbn [commandTable QueryCommandInput.TableName].
  change (String.eqb TABLE_NAME TABLE_NAME) with true. cbn [negb].
  unfold ddbQuery.
  cbn [QueryCommandInput.KeyConditionExpression QueryCommandInput.Limit
       QueryCommandInput.IndexName QueryCommandInput.ExpressionAttributeValues
       QueryCommandInput.ScanIndexForward].
  change (parseKeyCondition "Lift = :lift")
    with (Some (KeyCondition.mk "Lift" ":lift" None)).
  cbn iota. destruct (limitOf (default 20%Q limit)) as [n|]; [|reflexivity].
  rewrite resolve_lift_only. cbn [wellFormedCond directed default from_option id].
  replace (filter _ (partitionEntries tbl lift)) with (partitionEntries tbl lift)
    by (symmetry; apply filter_all).
  reflexivity.
Qed.

(** The first [n] records of a partition: stored records of the lift, in
    ascending order of [Metadata]. *)
Lemma lift_page_ascending (tbl : Table) (lift : string) (n : nat) :
  wfTable tbl ->
  let items := take n (snd <$> partitionEntries tbl lift) in
  (forall item, item ∈ items -> exists m, tbl !! (lift, m) = Some item)
  /\ ascendingBy metadataOf items.
Proof.
  intros Hwf items. subst items. set (entries := partitionEntries tbl lift). split.
  - intros item Hin. apply subseteq_take in Hin.
    apply list_elem_of_fmap in Hin as ([m it] & -> & Hin). exists m.
    apply partitionEntries_elem_of. exact Hin.
  - intros i j a b x y Hij Ha Hb Hx Hy.
    rewrite <- fmap_take, list_lookup_fmap in Ha, Hb.
    destruct (take n entries !! i) as [ea|] eqn:Ei; [|discriminate Ha].
    destruct (take n entries !! j) as [eb|] eqn:Ej; [|discriminate Hb].
    cbn in Ha, Hb. injection Ha as <-. injection Hb as <-.
    assert (Hea : ea ∈ entries).
    { apply (subseteq_take n). eapply list_elem_of_lookup_2. exact Ei. }
    assert (Heb : eb ∈ entries).
    { apply (subseteq_take n). eapply list_elem_of_lookup_2. exact Ej. }
    rewrite (partitionEntries_metadata tbl lift ea Hwf Hea) in Hx.
    rewrite (partitionEntries_metadata tbl lift eb Hwf Heb) in Hy.
    injection Hx as <-. injection Hy as <-.
    apply (StronglySorted_lookup
             (fun a b : string * AttributeMap => String.leb a.1 b.1 = true)
             (take n entries) i j ea eb); try assumption.
    apply StronglySorted_take_keeps. apply partitionEntries_sorted.
Qed.

(** The cursor of a page: the key of the last item when the page holds
    [n] items, nothing when the candidates end before that. *)
Lemma page_cursor (keyAttrs : list string) (n : nat) (candidates : list AttributeMap) :
  (1 <= n)%nat ->
  ((n <= List.length candidates)%nat ->
   exists final,
     last (take n candidates) = Some final
     /\ Output.LastEvaluatedKey (page keyAttrs n candidates)
        = Some (project keyAttrs final))
  /\ ((List.length candidates < n)%nat ->
      Output.LastEvaluatedKey (page keyAttrs n candidates) = None
      /\ take n candidates = candidates).
Proof.
  intros Hpos. unfold page. cbn [Output.LastEvaluatedKey]. split.
  - intros Hfull. destruct (Nat.leb_spec n (List.length candidates)) as [_|]; [|lia].
    destruct (last (take n candidates)) as [final|] eqn:El.
    + exists final. split; reflexivity.
    + apply last_None in El. apply (f_equal List.length) in El.
      rewrite length_take in El. cbn in El. lia.
  - intros Hend. destruct (Nat.leb_spec n (List.length candidates)) as [|_]; [lia|].
    split; [reflexivity | apply take_ge; lia].
Qed.

(** An admissible limit is the number of items it stands for. *)
Lemma limitOf_value (q : number) (n : nat) :
  limitOf q = Some n -> (inject_Z (Z.of_nat n) == q)%Q.
Proof.
  intros H. pose proof (limitOf_positive q n H) as Hpos. revert H.
  unfold limitOf, num_is_integer.
  destruct (Pos.eqb_spec (Qden (Qred q)) 1) as [Hd|]; [|discriminate].
  destruct (Qle_bool 1 q); [|discriminate]. cbn. intros H. injection H as <-.
  rewrite <- (Qred_correct q) at 2.
  destruct (Qred q) as [z d] eqn:E. cbn [Qnum Qden] in *. subst d.
  unfold Qeq, inject_Z. cbn [Qnum Qden]. lia.
Qed.

Lemma digit_before_Static_Data (d : string) :
  startsWithDigit d = true ->
  String.ltb d "Static Data" = true /\ String.leb "Static Data" d = false.
Proof.
  destruct d as [|c d]; [discriminate|]. cbn [startsWithDigit].
  rewrite andb_true_iff, !N.leb_le. intros [_ H].
  assert (Hc : Ascii.compare c "S" = Lt).
  { unfold Ascii.compare. apply N.compare_lt_iff.
    change (N_of_ascii "S") with 83%N. lia. }
  split.
  - unfold String.ltb. cbn [String.compare]. rewrite Hc. reflexivity.
  - unfold String.leb. cbn [String.compare].
    rewrite Ascii.compare_antisym, Hc. reflexivity.
Qed.

Lemma digitChar_compare (x y : nat) :
  (x < 10)%nat -> (y < 10)%nat ->
  Ascii.compare (digitChar x) (digitChar y) = Nat.compare x y.
Proof.
  intros Hx Hy.
  do 10 (destruct x as [|x]; [do 10 (destruct y as [|y]; [reflexivity|]); lia|]).
  lia.
Qed.

Lemma string_compare_refl (s : string) : String.compare s s = Eq.
Proof.
  induction s as [|c s IH]; cbn; [reflexivity|].
  unfold Ascii.compare. rewrite N.compare_refl. exact IH.
Qed.

(** Two-digit numbers compare as their digits do. *)
Lemma twoDigits_compare (n n' : nat) (s s' : string) :
  (n < 100)%nat -> (n' < 100)%nat ->
  String.compare (twoDigits n ++ s) (twoDigits n' ++ s')
  = match Nat.compare n n' with
    | Eq => String.compare s s'
    | r => r
    end.
Proof.
  intros Hn Hn'. unfold twoDigits.
  cbv beta iota delta [String.append]; cbn [String.compare].
  assert (H1 : (n / 10 < 10)%nat) by (apply Nat.Div0.div_lt_upper_bound; lia).
  assert (H2 : (n' / 10 < 10)%nat) by (apply Nat.Div0.div_lt_upper_bound; lia).
  assert (H3 : (n mod 10 < 10)%nat) by (apply Nat.mod_upper_bound; lia).
  assert (H4 : (n' mod 10 < 10)%nat) by (apply Nat.mod_upper_bound; lia).
  rewrite !digitChar_compare by assumption.
  pose proof (Nat.div_mod_eq n 10) as E. pose proof (Nat.div_mod_eq n' 10) as E'.
  destruct (Nat.compare_spec (n / 10) (n' / 10)) as [Hq|Hq|Hq];
    destruct (Nat.compare_spec (n mod 10) (n' mod 10)) as [Hr|Hr|Hr];
    destruct (Nat.compare_spec n n') as [Hc|Hc|Hc]; try reflexivity; lia.
Qed.

(** Within one year the byte order of date strings is the order of the
    calendar: by month, then by day. *)
Lemma same_year_order (mm1 dd1 mm2 dd2 yy : nat) :
  (mm1 < 100)%nat -> (dd1 < 100)%nat -> (mm2 < 100)%nat -> (dd2 < 100)%nat ->
  String.leb (dateString mm1 dd1 yy) (dateString mm2 dd2 yy) = true
  <-> (mm1 < mm2)%nat \/ (mm1 = mm2 /\ (dd1 <= dd2)%nat).
Proof.
  intros H1 H2 H3 H4. unfold String.leb, dateString.
  rewrite twoDigits_compare by assumption.
  cbv beta iota delta [String.append]; cbn [String.compare].
  change (Ascii.compare "/" "/") with Eq. cbn iota.
  rewrite twoDigits_compare by assumption.
  cbv beta iota delta [String.append]; cbn [String.compare].
  change (Ascii.compare "/" "/") with Eq. cbn iota.
  rewrite string_compare_refl.
  destruct (Nat.compare_spec mm1 mm2); destruct (Nat.compare_spec dd1 dd2);
    split; intros; try discriminate; try reflexivity; lia.
Qed.

(** C8 (as amended). On a well-formed table, whenever [queryLiftData]
    resolves, the limit (20 when absent) is the number [n] and the result
    is the first [n] records of the lift in ascending byte order of
    [Metadata]: at most [n] of them, each a stored record of the lift.  The
    cursor is the key of the last returned record when [n] records are
    returned, so in particular when records remain, and there is none when
    the lift has fewer than [n] records; and with an admissible limit the
    call does resolve.  In that order every string that starts with a
    digit, such as "01/01/20", comes before "Static Data"; MM/DD/YY strings
    of one year are in calendar order (by month, then by day), those of
    different years are not: "01/01/21" comes before "12/31/20". *)
Theorem queryLiftData_ascending_metadata
    (tbl : Table) (lift : string) (limit : option number) :
  wfTable tbl ->
  (forall r,
     outcome (queryLiftData ddb lift limit) tbl = Resolved r ->
     exists n,
       limitOf (default 20%Q limit) = Some n
       /\ (inject_Z (Z.of_nat n) == default 20%Q limit)%Q
       /\ PaginatedResponse.items r = take n (snd <$> partitionEntries tbl lift)
       /\ (List.length (PaginatedResponse.items r) <= n)%nat
       /\ (forall item, item ∈ PaginatedResponse.items r ->
             exists m, tbl !! (lift, m) = Some item)
       /\ ascendingBy metadataOf (PaginatedResponse.items r)
       /\ ((n <= List.length (partitionEntries tbl lift))%nat ->
           exists final,
             last (PaginatedResponse.items r) = Some final
             /\ PaginatedResponse.lastEvaluatedKey r
                = Some (project ["Lift"; "Metadata"] final))
       /\ ((List.length (partitionEntries tbl lift) < n)%nat ->
           PaginatedResponse.lastEvaluatedKey r = None
           /\ PaginatedResponse.items r = snd <$> partitionEntries tbl lift))
  /\ (forall n, limitOf (default 20%Q limit) = Some n ->
        exists r, queryLiftData ddb lift limit tbl = (Resolved r, tbl))
  /\ (forall d, startsWithDigit d = true ->
        String.ltb d "Static Data" = true /\ String.leb "Static Data" d = false)
  /\ (forall mm1 dd1 mm2 dd2 yy,
        (mm1 < 100)%nat -> (dd1 < 100)%nat -> (mm2 < 100)%nat -> (dd2 < 100)%nat ->
        String.leb (dateString mm1 dd1 yy) (dateString mm2 dd2 yy) = true
        <-> (mm1 < mm2)%nat \/ (mm1 = mm2 /\ (dd1 <= dd2)%nat))
  /\ dateString 1 1 21 = "01/01/21"
  /\ dateString 12 31 20 = "12/31/20"
  /\ String.ltb "01/01/21" "12/31/20" = true.
Proof.
  intros Hwf.
  split; [|split; [|split; [apply digit_before_Static_Data
                           |split; [apply same_year_order | repeat split]]]].
  - intros r Hr. unfold outcome in Hr. rewrite queryLiftData_ddb in Hr.
    destruct (limitOf (default 20%Q limit)) as [n|] eqn:Hn; [|discriminate Hr].
    cbn [fst] in Hr. injection Hr as <-. exists n. split; [reflexivity|].
    split; [exact (limitOf_value _ n Hn)|].
    destruct (lift_page_ascending tbl lift n Hwf) as [Hstored Hasc].
    destruct (page_cursor ["Lift"; "Metadata"] n (snd <$> partitionEntries tbl lift)
                (limitOf_positive _ n Hn)) as [Hmore Hall].
    rewrite length_fmap in Hmore, Hall.
    set (candidates := snd <$> partitionEntries tbl lift) in *.
    unfold paginated.
    cbn [PaginatedResponse.items PaginatedResponse.lastEvaluatedKey].
    change (orElse (Output.Items (page ["Lift"; "Metadata"] n candidates)) [])
      with (take n candidates).
    split; [reflexivity|]. split; [rewrite length_take; lia|].
    split; [exact Hstored|]. split; [exact Hasc|]. split; assumption.
  - intros n Hn. eexists. rewrite queryLiftData_ddb, Hn. reflexivity.
Qed.

Lemma queryLiftData_ascending_metadata_witness :
  exists r,
    queryLiftData ddb "Summit Express" (Some 2%Q) sampleTable = (Resolved r, sampleTable)
    /\ ascendingBy metadataOf (PaginatedResponse.items r).
Proof.
  destruct (queryLiftData_ascending_metadata sampleTable "Summit Express" (Some 2%Q)
              sampleTable_wf) as (Hprops & Hres & _).
  destruct (Hres 2%nat eq_refl) as (r & Heq).
  destruct (Hprops r (f_equal fst Heq)) as (n & _ & _ & _ & _ & _ & Hasc & _).
  exists r. split; assumption.
Defined.

(** C8, the claim as stated: "Static Data" does not sort before
    "01/01/20", and the query returns the static record of a lift after
    its dated records; and the order of zero-padded dates is not the order
    of the calendar across years: the query returns the first day of 2021
    before the last day of 2020. *)
Lemma static_data_sorts_after_dates :
  String.ltb "Static Data" "01/01/20" = false
  /\ String.ltb "01/01/20" "Static Data" = true
  /\ (exists r,
        outcome (queryLiftData ddb "Summit Express" None) sampleTable = Resolved r
        /\ map metadataOf (PaginatedResponse.items r)
           = [Some "01/15/24"; Some "01/17/24"; Some "Static Data"])
  /\ String.ltb "01/01/21" "12/31/20" = true
  /\ (exists r,
        outcome (queryLiftData ddb "Summit Express" None) yearEndTable = Resolved r
        /\ map metadataOf (PaginatedResponse.items r)
           = [Some "01/01/21"; Some "12/31/20"]).
Proof.
  split; [reflexivity|]. split; [reflexivity|]. split; [|split; [reflexivity|]].
  - eexists. unfold outcome. split.
    + exact (f_equal fst (queryLiftData_ddb sampleTable "Summit Express" None)).
    + vm_cast_no_check (eq_refl [Some "01/15/24"; Some "01/17/24"; Some "Static Data"]).
  - eexists. unfold outcome. split.
    + exact (f_equal fst (queryLiftData_ddb yearEndTable "Summit Express" None)).
    + vm_cast_no_check (eq_refl [Some "01/01/21"; Some "12/31/20"]).
Qed.

(** ** Query by riders *)

Lemma riders_condition_resolves (lift : string) (query : QueryByRidersInput.t) :
  exists kc,
    parseKeyCondition (ridersKeyCondition lift query).1 = Some kc
    /\ resolveKeyCondition "TotalUniqueLiftRiders" asN
         (ridersKeyCondition lift query).2 kc
       = Some (lift, ridersCondition query).
Proof.
  destruct query as [[lo|] [hi|] limit]; eexists; split; reflexivity.
Qed.

Lemma satisfies_ridersCondition (query : QueryByRidersInput.t) (x : number) :
  satisfiesOpt Qle_bool (ridersCondition query) x = ridersInRange query x.
Proof.
  destruct query as [[lo|] [hi|] limit]; unfold ridersInRange;
    cbn -[Qle_bool]; rewrite ?andb_true_r; reflexivity.
Qed.

Lemma queryByRiders_any_client {St} (dynamodb : DynamoDBDocumentClient St)
    (lift : string) (query : QueryByRidersInput.t) (st : St) :
  queryByRiders dynamodb lift query st
  = match dynamodb
            (QueryCommand
               {| QueryCommandInput.TableName := TABLE_NAME;
                  QueryCommandInput.IndexName := Some GSI_NAME;
                  QueryCommandInput.KeyConditionExpression :=
                    (ridersKeyCondition lift query).1;
                  QueryCommandInput.ExpressionAttributeValues :=
                    (ridersKeyCondition lift query).2;
                  QueryCommandInput.Limit := QueryByRidersInput.limit query;
                  QueryCommandInput.ScanIndexForward := Some false |}) st with
    | (Resolved result, st') => (Resolved (paginated result), st')
    | (Rejected e, st') =>
        (Rejected (ThrownApp (DynamoDBError "Failed to query by riders"
                                (Some (ThrownJs e)))), st')
    end.
Proof.
  unfold queryByRiders. destruct (ridersKeyCondition lift query) as [kce vals].
  apply query_any_client.
Qed.

(** What [queryByRiders] does on the store, for any query. *)
Lemma queryByRiders_ddb (tbl : Table) (lift : string) (query : QueryByRidersInput.t) :
  queryByRiders ddb lift query tbl
  = match limitOf (QueryByRidersInput.limit query) with
    | Some n =>
        if wellFormedCond Qle_bool (ridersCondition query) then
          (Resolved
             (paginated
                (page ["Lift"; "TotalUniqueLiftRiders"; "Metadata"] n
                   (rev (snd <$> filter (fun e => ridersInRange query e.1 = true)
                                   (indexEntries tbl lift))))),
           tbl)
        else
          (Rejected (ThrownApp (DynamoDBError "Failed to query by riders"
                                  (Some (ThrownJs (ValidationException
                                                     "Invalid BETWEEN bounds"))))),
           tbl)
    | None =>
        (Rejected (ThrownApp (DynamoDBError "Failed to query by riders"
                                (Some (ThrownJs limitRefused)))), tbl)
    end.
Proof.
  rewrite queryByRiders_any_client.
  destruct (riders_condition_resolves lift query) as (kc & Hparse & Hres).
  unfold ddb. cbn [commandTable QueryCommandInput.TableName].
  change (String.eqb TABLE_NAME TABLE_NAME) with true. cbn [negb].
  unfold ddbQuery.
  cbn [QueryCommandInput.KeyConditionExpression QueryCommandInput.Limit
       QueryCommandInput.IndexName QueryCommandInput.ExpressionAttributeValues
       QueryCommandInput.ScanIndexForward].
  rewrite Hparse.
  destruct (limitOf (QueryByRidersInput.limit query)) as [n|]; [|reflexivity].
  change (String.eqb GSI_NAME GSI_NAME) with true. cbn iota.
  rewrite Hres.
  destruct (wellFormedCond Qle_bool (ridersCondition query)); [|reflexivity].
  cbn [directed default from_option id].
  rewrite (list_filter_iff
             (fun e : number * AttributeMap =>
                satisfiesOpt Qle_bool (ridersCondition query) e.1 = true)
             (fun e => ridersInRange query e.1 = true)).
  - reflexivity.
  - intros e. rewrite satisfies_ridersCondition. reflexivity.
Qed.

Lemma bounds_well_formed (query : QueryByRidersInput.t) :
  wellFormedCond Qle_bool (ridersCondition query) = true
  <-> (forall lo hi, QueryByRidersInput.minRiders query = Some lo ->
                     QueryByRidersInput.maxRiders query = Some hi -> (lo <= hi)%Q).
Proof.
  destruct query as [[lo|] [hi|] limit]; cbn.
  - rewrite Qle_bool_iff. split.
    + intros H lo' hi' Hlo Hhi. injection Hlo as <-. injection Hhi as <-. exact H.
    + intros H. apply H; reflexivity.
  - split; [intros _ lo' hi' _ Hhi; discriminate Hhi | reflexivity].
  - split; [intros _ lo' hi' Hlo; discriminate Hlo | reflexivity].
  - split; [intros _ lo' hi' Hlo; discriminate Hlo | reflexivity].
Qed.

(** Bounds given the wrong way round are refused by the store, and the
    refusal comes back as a storage failure. *)
Lemma queryByRiders_inverted_bounds (tbl : Table) (lift : string) (lo hi limit : number) :
  (hi < lo)%Q ->
  rejectedWith
    (outcome (queryByRiders ddb lift (QueryByRidersInput.mk (Some lo) (Some hi) limit)) tbl)
    DynamoDBErrorClass.
Proof.
  intros Hlt. unfold outcome. rewrite queryByRiders_ddb.
  cbn [QueryByRidersInput.limit].
  destruct (limitOf limit); [|eexists; split; reflexivity].
  assert (Hle : wellFormedCond Qle_bool
                  (ridersCondition (QueryByRidersInput.mk (Some lo) (Some hi) limit))
                = false).
  { cbn. destruct (Qle_bool lo hi) eqn:E; [|reflexivity].
    apply Qle_bool_iff in E. exfalso. exact (Qlt_not_le _ _ Hlt E). }
  rewrite Hle. eexists. split; reflexivity.
Qed.

Lemma ridersInRange_bounds (query : QueryByRidersInput.t) (x : number) :
  ridersInRange query x = true ->
  (forall lo, QueryByRidersInput.minRiders query = Some lo -> (lo <= x)%Q)
  /\ (forall hi, QueryByRidersInput.maxRiders query = Some hi -> (x <= hi)%Q).
Proof.
  unfold ridersInRange. rewrite andb_true_iff. intros [Hlo Hhi]. split.
  - intros lo E. rewrite E in Hlo. apply Qle_bool_iff. exact Hlo.
  - intros hi E. rewrite E in Hhi. apply Qle_bool_iff. exact Hhi.
Qed.

(** The first [n] eligible index entries from the top: each within the
    given bounds, and the rider counts never increase. *)
Lemma riders_page_descending (tbl : Table) (lift : string)
    (query : QueryByRidersInput.t) (n : nat) :
  let items :=
    take n (rev (snd <$> filter (fun e => ridersInRange query e.1 = true)
                           (indexEntries tbl lift))) in
  (forall item, item ∈ items ->
     exists x,
       ridersOf item = Some x
       /\ (forall lo, QueryByRidersInput.minRiders query = Some lo -> (lo <= x)%Q)
       /\ (forall hi, QueryByRidersInput.maxRiders query = Some hi -> (x <= hi)%Q))
  /\ descendingBy ridersOf items.
Proof.
  intros items. subst items.
  set (L := filter (fun e : number * AttributeMap => ridersInRange query e.1 = true)
              (indexEntries tbl lift)).
  assert (HL : forall e, e ∈ take n (rev L) ->
                 ridersOf e.2 = Some e.1 /\ ridersInRange query e.1 = true).
  { intros e He. apply subseteq_take in He.
    apply list_elem_of_In, in_rev, list_elem_of_In in He.
    apply list_elem_of_filter in He as [Hr He].
    split; [apply (indexEntries_elem_of tbl lift e He) | exact Hr]. }
  assert (Hitems : take n (rev (snd <$> L)) = snd <$> take n (rev L)).
  { rewrite <- fmap_rev, fmap_take. reflexivity. }
  rewrite Hitems. split.
  - intros item Hin. apply list_elem_of_fmap in Hin as (e & -> & He).
    destruct (HL e He) as [Hr Hin]. exists e.1. split; [exact Hr|].
    apply ridersInRange_bounds. exact Hin.
  - intros i j a b x y Hij Ha Hb' Hx Hy.
    rewrite list_lookup_fmap in Ha, Hb'.
    destruct (take n (rev L) !! i) as [ea|] eqn:Ei; [|discriminate Ha].
    destruct (take n (rev L) !! j) as [eb|] eqn:Ej; [|discriminate Hb'].
    cbn in Ha, Hb'. injection Ha as <-. injection Hb' as <-.
    destruct (HL ea (list_elem_of_lookup_2 _ _ _ Ei)) as [Hra _].
    destruct (HL eb (list_elem_of_lookup_2 _ _ _ Ej)) as [Hrb _].
    rewrite Hra in Hx. rewrite Hrb in Hy. injection Hx as <-. injection Hy as <-.
    apply Qle_bool_iff.
    apply (StronglySorted_lookup
             (fun a b : number * AttributeMap => Qle_bool b.1 a.1 = true)
             (take n (rev L)) i j ea eb); try assumption.
    apply StronglySorted_take_keeps.
    apply (StronglySorted_rev_flips
             (fun a b : number * AttributeMap => Qle_bool a.1 b.1 = true)).
    apply StronglySorted_filter_keeps. apply indexEntries_sorted.
Qed.

(** C6 (as amended). Whenever [queryByRiders] resolves, the limit is an
    admissible [n] and the result is the first [n], in descending order of
    the rider count, of the index entries of the lift that satisfy each
    given bound: both bounds give the closed range, one bound gives that
    inequality alone, no bound keeps every entry.  Every returned item has
    its rider count within the given bounds, and the counts along the
    result never increase; equal counts may follow one another.  With an
    admissible limit and bounds that are not inverted the call does
    resolve. *)
Theorem queryByRiders_in_range_descending
    (tbl : Table) (lift : string) (query : QueryByRidersInput.t) :
  (forall r,
     outcome (queryByRiders ddb lift query) tbl = Resolved r ->
     exists n,
       limitOf (QueryByRidersInput.limit query) = Some n
       /\ PaginatedResponse.items r
          = take n (rev (snd <$> filter (fun e => ridersInRange query e.1 = true)
                                   (indexEntries tbl lift)))
       /\ (forall item, item ∈ PaginatedResponse.items r ->
             exists x,
               ridersOf item = Some x
               /\ (forall lo, QueryByRidersInput.minRiders query = Some lo -> (lo <= x)%Q)
               /\ (forall hi, QueryByRidersInput.maxRiders query = Some hi -> (x <= hi)%Q))
       /\ descendingBy ridersOf (PaginatedResponse.items r))
  /\ (forall n,
        limitOf (QueryByRidersInput.limit query) = Some n ->
        (forall lo hi, QueryByRidersInput.minRiders query = Some lo ->
                       QueryByRidersInput.maxRiders query = Some hi -> (lo <= hi)%Q) ->
        exists r, queryByRiders ddb lift query tbl = (Resolved r, tbl)).
Proof.
  split.
  - intros r Hr. unfold outcome in Hr. rewrite queryByRiders_ddb in Hr.
    destruct (limitOf (QueryByRidersInput.limit query)) as [n|]; [|discriminate Hr].
    destruct (wellFormedCond Qle_bool (ridersCondition query)); [|discriminate Hr].
    cbn [fst] in Hr. injection Hr as <-. exists n. split; [reflexivity|].
    cbn [paginated page PaginatedResponse.items Output.Items orElse default
         from_option id].
    split; [reflexivity|]. apply riders_page_descending.
  - intros n Hn Hb. apply bounds_well_formed in Hb.
    eexists. rewrite queryByRiders_ddb, Hn, Hb. reflexivity.
Qed.

Lemma queryByRiders_in_range_descending_witness :
  exists r,
    queryByRiders ddb "Summit Express"
      (QueryByRidersInput.mk (Some 1000%Q) (Some 1500%Q) 20%Q) sampleTable
    = (Resolved r, sampleTable)
    /\ descendingBy ridersOf (PaginatedResponse.items r).
Proof.
  assert (Hb : forall lo hi : number,
            Some 1000%Q = Some lo -> Some 1500%Q = Some hi -> (lo <= hi)%Q).
  { intros lo hi Hlo Hhi. injection Hlo as <-. injection Hhi as <-. discriminate. }
  destruct (queryByRiders_in_range_descending sampleTable "Summit Express"
              (QueryByRidersInput.mk (Some 1000%Q) (Some 1500%Q) 20%Q))
    as (Hprops & Hres).
  destruct (Hres 20%nat eq_refl Hb) as (r & Heq).
  destruct (Hprops r (f_equal fst Heq)) as (n & _ & _ & _ & Hdesc).
  exists r. split; assumption.
Defined.

(** C6, the claim as stated: two days of one lift with the same rider
    count are both returned, one after the other, so the order is not
    strictly descending. *)
Lemma queryByRiders_ties_not_strict :
  exists r,
    outcome (queryByRiders ddb "Summit Express" (QueryByRidersInput.mk None None 20%Q))
      sampleTable = Resolved r
    /\ map ridersOf (PaginatedResponse.items r) = [Some 1250%Q; Some 1250%Q]
    /\ map metadataOf (PaginatedResponse.items r) = [Some "01/17/24"; Some "01/15/24"]
    /\ ~ strictlyDescendingBy ridersOf (PaginatedResponse.items r).
Proof.
  eexists. unfold outcome. split.
  - exact (f_equal fst (queryByRiders_ddb sampleTable "Summit Express"
                          (QueryByRidersInput.mk None None 20%Q))).
  - set (items := PaginatedResponse.items _).
    assert (H0 : map ridersOf items = [Some 1250%Q; Some 1250%Q])
      by (vm_cast_no_check (eq_refl [Some 1250%Q; Some 1250%Q])).
    split; [exact H0|]. split.
    + vm_cast_no_check (eq_refl [Some "01/17/24"; Some "01/15/24"]).
    + intros Hstrict.
      destruct items as [|a [|b rest]]; try discriminate H0.
      cbn in H0. injection H0 as Ha Hb _.
      specialize (Hstrict 0%nat 1%nat a b 1250%Q 1250%Q
                    ltac:(lia) eq_refl eq_refl Ha Hb).
      exact (Qlt_irrefl _ Hstrict).
Qed.

(** ** The limit of a list or query request *)

Lemma limit_checks (path : string) (d : JsNum) :
  concat (map (numberCheckIssue path d) [positive_; max_ 100%Q]) = []
  <-> d = NaN \/ exists q, d = Finite q /\ (0 < q)%Q /\ (q <= 100)%Q.
Proof.
  destruct d as [| | |q]; cbn.
  - split; [left; reflexivity | reflexivity].
  - split; [discriminate | intros [H|(q & H & _)]; discriminate H].
  - split; [discriminate | intros [H|(q & H & _)]; discriminate H].
  - unfold num_le, num_lt.
    destruct (Qle_bool q 0) eqn:E0; destruct (Qle_bool q 100) eqn:E1; cbn.
    + split; [discriminate|]. intros [H|(q' & H & Hpos & _)]; [discriminate H|].
      injection H as <-. apply Qle_bool_iff in E0. exfalso. exact (Qlt_not_le _ _ Hpos E0).
    + split; [discriminate|]. intros [H|(q' & H & Hpos & _)]; [discriminate H|].
      injection H as <-. apply Qle_bool_iff in E0. exfalso. exact (Qlt_not_le _ _ Hpos E0).
    + split; [intros _|reflexivity]. right. exists q. split; [reflexivity|]. split.
      * apply Qnot_le_lt. intros H. apply Qle_bool_iff in H. congruence.
      * apply Qle_bool_iff. exact E1.
    + split; [discriminate|]. intros [H|(q' & H & _ & Hmax)]; [discriminate H|].
      injection H as <-. apply Qle_bool_iff in Hmax. congruence.
Qed.

(** What the limit validator accepts: an absent limit as 20, and any
    other value exactly when [Number(value)] is greater than 0 and at most
    100. *)
Lemma limitSchema_accepts (path : string) (v : JsValue) (r : option JsNum) :
  limitSchema path v = Resolved r
  <-> (v = JsUndefined /\ r = Some (Finite 20%Q))
      \/ (v <> JsUndefined
          /\ exists q, toNumber v = Finite q /\ (0 < q)%Q /\ (q <= 100)%Q
                       /\ r = Some (Finite q)).
Proof.
  assert (Hcore : forall d,
            zodMap Some (zodNumber true [positive_; max_ 100%Q] path (JsNumber d))
              = Resolved r
            <-> exists q, d = Finite q /\ (0 < q)%Q /\ (q <= 100)%Q
                          /\ r = Some (Finite q)).
  { intros d. unfold zodNumber. cbn [toNumber].
    pose proof (limit_checks path d) as Hc.
    destruct (concat (map (numberCheckIssue path d) [positive_; max_ 100%Q])) as [|i rest].
    - destruct (proj1 Hc eq_refl) as [->|(q & -> & Hpos & Hmax)].
      + cbn. split; [discriminate | intros (q & H & _); discriminate H].
      + cbn. split.
        * intros H. injection H as <-. exists q. repeat split; assumption.
        * intros (q' & H & _ & _ & ->). injection H as <-. reflexivity.
    - destruct d as [| | |q]; cbn.
      + split; [discriminate | intros (q & H & _); discriminate H].
      + split; [discriminate | intros (q & H & _); discriminate H].
      + split; [discriminate | intros (q & H & _); discriminate H].
      + split; [discriminate|]. intros (q' & H & Hpos & Hmax & _).
        injection H as <-.
        assert (Hnil : i :: rest = []); [|discriminate Hnil].
        apply Hc. right. exists q. repeat split; assumption. }
  unfold limitSchema, zodDefault, zodOptional.
  destruct v as [| |b|d|s].
  - split.
    + intros H. left. split; [reflexivity|].
      apply Hcore in H as (q & Hq & _ & _ & ->). injection Hq as <-. reflexivity.
    + intros [[_ ->]|[H _]]; [reflexivity | contradiction H; reflexivity].
  - rewrite <- (Hcore (toNumber JsNull)). split.
    + intros H. right. split; [discriminate | exact H].
    + intros [[H _]|[_ H]]; [discriminate H | exact H].
  - rewrite <- (Hcore (toNumber (JsBoolean b))). split.
    + intros H. right. split; [discriminate | exact H].
    + intros [[H _]|[_ H]]; [discriminate H | exact H].
  - rewrite <- (Hcore (toNumber (JsNumber d))). split.
    + intros H. right. split; [discriminate | exact H].
    + intros [[H _]|[_ H]]; [discriminate H | exact H].
  - rewrite <- (Hcore (toNumber (JsString s))). split.
    + intros H. right. split; [discriminate | exact H].
    + intros [[H _]|[_ H]]; [discriminate H | exact H].
Qed.

(** Every accepted limit is a finite number: [limitValue] loses nothing. *)
Lemma limitSchema_finite (path : string) (v : JsValue) (r : option JsNum) :
  limitSchema path v = Resolved r -> r = Some (Finite (limitValue r)).
Proof.
  intros H. apply limitSchema_accepts in H as [[_ ->]|[_ (q & _ & _ & _ & ->)]];
    reflexivity.
Qed.

(** A request with [limit=0] is answered 400 and nothing is sent. *)
Lemma list_limit_zero_is_400 {St} (c : DynamoDBDocumentClient St) (st : St) :
  exists body,
    listSkiLiftsRoute c {[ "limit" := JsString "0" ]} st
    = (Reply.mk 400%Z (PayloadError body), st)
    /\ ErrorBody.code body = Some "VALIDATION_ERROR".
Proof. eexists. split; reflexivity. Qed.

(** C7. A limit of 0.5 passes the validation of list and query requests,
    although it is below 1: the schemas ask for a positive number, not for
    one that is at least 1.  The list handler then calls the service, the
    scan is sent with that limit, and the store's refusal comes back as
    HTTP 500 instead of 400. *)
Theorem limit_one_half_passes_validation :
  listQuerySchema {[ "limit" := JsString "0.5" ]}
    = Resolved (ListQueryInput.mk (5 # 10) None None)
  /\ queryByRidersSchema {[ "limit" := JsString "0.5" ]}
    = Resolved (QueryByRidersParsed.mk None None (5 # 10))
  /\ listQuerySchema {[ "limit" := JsNumber (Finite (1 # 2)) ]}
    = Resolved (ListQueryInput.mk (1 # 2) None None)
  /\ ((5 # 10) < 1)%Q
  /\ listSkiLiftsHandler (mockClient (fun _ => Resolved Output.empty))
       {[ "limit" := JsString "0.5" ]} []
     = (Reply.mk 200%Z (PayloadPage (PaginatedResponse.mk [] None 0%Q)),
        [ScanCommand (ScanCommandInput.mk TABLE_NAME (5 # 10) None)])
  /\ listSkiLiftsRoute (mockClient (fun _ => Resolved Output.empty))
       {[ "limit" := JsString "0.5" ]} []
     = (Reply.mk 200%Z (PayloadRecord ∅),
        [ScanCommand (ScanCommandInput.mk TABLE_NAME (5 # 10) None)])
  /\ (forall tbl : Table,
        Reply.statusCode (listSkiLiftsRoute ddb {[ "limit" := JsString "0.5" ]} tbl).1
        = 500%Z).
Proof.
  repeat split.
Qed.

(** ** The table stays well-formed *)

Lemma wfTable_empty : wfTable ∅.
Proof. intros l m item H. rewrite lookup_empty in H. discriminate H. Qed.

Lemma wfTable_insert (tbl : Table) (l m : string) (item : AttributeMap) :
  wfTable tbl -> keyOfItem item = Some (Key.mk l m) ->
  wfTable (<[(l, m) := item]> tbl).
Proof.
  intros Hwf Hk l' m' item' H.
  destruct (decide ((l, m) = (l', m'))) as [E|E].
  - injection E as <- <-. rewrite lookup_insert_eq in H. injection H as <-. exact Hk.
  - rewrite lookup_insert_ne in H by exact E. exact (Hwf _ _ _ H).
Qed.

Lemma wfTable_delete (tbl : Table) (k : string * string) :
  wfTable tbl -> wfTable (delete k tbl).
Proof.
  intros Hwf l m item H. apply (Hwf l m item).
  destruct (decide (k = (l, m))) as [->|E].
  - rewrite lookup_delete_eq in H. discriminate H.
  - rewrite lookup_delete_ne in H by exact E. exact H.
Qed.

Lemma keyOfItem_applySet (base : AttributeMap) (sets : list (string * AttributeValue)) :
  existsb isKeyAttr (fst <$> sets) = false ->
  keyOfItem (applySet base sets) = keyOfItem base.
Proof.
  intros H. destruct (key_attrs_not_targets _ H) as [Hl Hm].
  unfold keyOfItem.
  rewrite (applySet_lookup_notin sets base "Lift" Hl),
          (applySet_lookup_notin sets base "Metadata" Hm).
  reflexivity.
Qed.

Lemma keyOfItem_keyItem (k : Key.t) : validKey k = true -> keyOfItem (keyItem k) = Some k.
Proof.
  intros H. destruct k as [l m]. unfold keyOfItem, keyItem.
  cbn [Key.Lift Key.Metadata]. lookup_inserts. rewrite H. reflexivity.
Qed.

(** Whatever command the store executes, a well-formed table stays
    well-formed. *)
Lemma ddb_preserves_wfTable (c : Command) (tbl : Table) :
  wfTable tbl -> wfTable (ddb c tbl).2.
Proof.
  intros Hwf. unfold ddb. destruct (negb _); [exact Hwf|].
  destruct c as [i|i|i|i|i|i]; cbn [snd]; try exact Hwf.
  - unfold ddbPut. destruct (keyOfItem _) as [[l m]|] eqn:Hk; [|exact Hwf].
    destruct (indexKeyOk _); [|exact Hwf]. cbn [snd Key.Lift Key.Metadata].
    apply wfTable_insert; assumption.
  - unfold ddbUpdate. destruct (UpdateCommandInput.Key i) as [l m] eqn:Ek.
    destruct (validKey _) eqn:Hv; cbn [negb]; [|exact Hwf].
    destruct (_ ≫= _) as [sets|]; [|exact Hwf].
    destruct (existsb isKeyAttr _) eqn:Hkey; [exact Hwf|].
    destruct (distinct _); cbn [negb]; [|exact Hwf].
    destruct (indexKeySetOk _); cbn [negb]; [|exact Hwf].
    match goal with
    | |- wfTable (match ?a with Some _ => _ | None => _ end).2 =>
        destruct a; [|exact Hwf]
    end.
    cbn [snd Key.Lift Key.Metadata]. apply wfTable_insert; [exact Hwf|].
    rewrite (keyOfItem_applySet _ _ Hkey).
    destruct (tbl !! (l, m)) as [old|] eqn:Ho; cbn [default from_option id].
    + exact (Hwf _ _ _ Ho).
    + apply keyOfItem_keyItem. exact Hv.
  - unfold ddbDelete. destruct (validKey _); [|exact Hwf].
    cbn [snd]. apply wfTable_delete. exact Hwf.
Qed.

(* ------------------------------------------------------------------ *)
(** ** The service, with any client *)

Lemma deleteSkiLift_any_client {St} (dynamodb : DynamoDBDocumentClient St)
    (lift metadata : string) (st : St) :
  deleteSkiLift dynamodb lift metadata st
  = match dynamodb (DeleteCommand (DeleteCommandInput.mk TABLE_NAME
                                     (Key.mk lift metadata))) st with
    | (Resolved _, st') => (Resolved tt, st')
    | (Rejected e, st') =>
        (Rejected (ThrownApp (DynamoDBError "Failed to delete ski lift data"
                                (Some (ThrownJs e)))), st')
    end.
Proof.
  unfold deleteSkiLift, tryCatch, bind, send, tryCatch, ret, throw.
  destruct (dynamodb _ st) as [[o|e] st']; reflexivity.
Qed.

Lemma storageFailure_intro (message : string) (original : option Thrown) :
  storageFailure message (ThrownApp (DynamoDBError message original)).
Proof. exists original. reflexivity. Qed.

Lemma storageFailure_reply (message : string) (x : Thrown) :
  storageFailure message x ->
  replyError x
  = Reply.mk 500%Z
      (PayloadError (ErrorBody.mk message (Some "DYNAMODB_ERROR") 500%Z None)).
Proof. intros [[o|] ->]; reflexivity. Qed.


(** What each method can reject with, whatever the client does. *)
Lemma createStaticData_rejects {St} (c : DynamoDBDocumentClient St) (st : St) data :
  rejectsOnlyWith (createStaticData c data st).1
    (storageFailure "Failed to create static data").
Proof.
  unfold createStaticData. rewrite create_any_client.
  destruct (c _ st) as [[o|e] st']; cbn [fst rejectsOnlyWith];
    [exact I | apply storageFailure_intro].
Qed.

Lemma createDynamicData_rejects {St} (c : DynamoDBDocumentClient St) (st : St) data :
  rejectsOnlyWith (createDynamicData c data st).1
    (storageFailure "Failed to create dynamic data").
Proof.
  unfold createDynamicData. rewrite create_any_client.
  destruct (c _ st) as [[o|e] st']; cbn [fst rejectsOnlyWith];
    [exact I | apply storageFailure_intro].
Qed.

Lemma createResortData_rejects {St} (c : DynamoDBDocumentClient St) (st : St) data :
  rejectsOnlyWith (createResortData c data st).1
    (storageFailure "Failed to create resort data").
Proof.
  unfold createResortData. rewrite create_any_client.
  destruct (c _ st) as [[o|e] st']; cbn [fst rejectsOnlyWith];
    [exact I | apply storageFailure_intro].
Qed.

Lemma getSkiLift_rejects {St} (c : DynamoDBDocumentClient St) (st : St)
    (lift metadata : string) :
  rejectsOnlyWith (getSkiLift c lift metadata st).1
    (fun x =>
       storageFailure "Failed to get ski lift data" x
       \/ x = ThrownApp (NotFoundError
                (Some ("Ski lift data not found for " ++ lift ++ " - " ++ metadata)))).
Proof.
  rewrite getSkiLift_any_client.
  destruct (c _ st) as [[o|e] st']; cbn [fst rejectsOnlyWith].
  - destruct (Output.Item o); cbn [fst rejectsOnlyWith]; [exact I | right; reflexivity].
  - left. apply storageFailure_intro.
Qed.

Lemma queryLiftData_rejects {St} (c : DynamoDBDocumentClient St) (st : St)
    (lift : string) (limit : option number) :
  rejectsOnlyWith (queryLiftData c lift limit st).1
    (storageFailure "Failed to query lift data").
Proof.
  unfold queryLiftData. rewrite query_any_client.
  destruct (c _ st) as [[o|e] st']; cbn [fst rejectsOnlyWith];
    [exact I | apply storageFailure_intro].
Qed.

Lemma updateStaticData_rejects {St} (c : DynamoDBDocumentClient St) (st : St)
    (lift : string) data :
  rejectsOnlyWith (updateStaticData c lift data st).1
    (fun x => storageFailure "No fields to update" x
              \/ storageFailure "Failed to update static data" x).
Proof.
  unfold updateStaticData.
  destruct (Nat.eqb _ 0); cbn [fst rejectsOnlyWith throw];
    [left; apply storageFailure_intro|].
  rewrite update_any_client.
  destruct (c _ st) as [[o|e] st']; cbn [fst rejectsOnlyWith];
    [exact I | right; apply storageFailure_intro].
Qed.

Lemma updateDynamicData_rejects {St} (c : DynamoDBDocumentClient St) (st : St)
    (lift metadata : string) data :
  rejectsOnlyWith (updateDynamicData c lift metadata data st).1
    (fun x => storageFailure "No fields to update" x
              \/ storageFailure "Failed to update dynamic data" x).
Proof.
  unfold updateDynamicData.
  destruct (Nat.eqb _ 0); cbn [fst rejectsOnlyWith throw];
    [left; apply storageFailure_intro|].
  rewrite update_any_client.
  destruct (c _ st) as [[o|e] st']; cbn [fst rejectsOnlyWith];
    [exact I | right; apply storageFailure_intro].
Qed.

Lemma deleteSkiLift_rejects {St} (c : DynamoDBDocumentClient St) (st : St)
    (lift metadata : string) :
  rejectsOnlyWith (deleteSkiLift c lift metadata st).1
    (storageFailure "Failed to delete ski lift data").
Proof.
  rewrite deleteSkiLift_any_client.
  destruct (c _ st) as [[o|e] st']; cbn [fst rejectsOnlyWith];
    [exact I | apply storageFailure_intro].
Qed.

Lemma listSkiLifts_rejects {St} (c : DynamoDBDocumentClient St) (st : St) query :
  rejectsOnlyWith (listSkiLifts c query st).1 (storageFailure "Failed to list ski lifts").
Proof.
  rewrite listSkiLifts_any_client.
  destruct (c _ st) as [[o|e] st']; cbn [fst rejectsOnlyWith];
    [exact I | apply storageFailure_intro].
Qed.

Lemma queryByRiders_rejects {St} (c : DynamoDBDocumentClient St) (st : St)
    (lift : string) query :
  rejectsOnlyWith (queryByRiders c lift query st).1
    (storageFailure "Failed to query by riders").
Proof.
  rewrite queryByRiders_any_client.
  destruct (c _ st) as [[o|e] st']; cbn [fst rejectsOnlyWith];
    [exact I | apply storageFailure_intro].
Qed.

(** X1. With any client and in any state, a method of the service that
    rejects does so with its own storage failure: a [DynamoDBError] of
    status 500 and code "DYNAMODB_ERROR" that carries the message of that
    method, or "No fields to update" for an update.  [getSkiLift] may also
    reject with the [NotFoundError] that names the key.  An error of the
    client never leaves the service as it came. *)
Theorem service_rejects_only_with_its_own_errors {St}
    (c : DynamoDBDocumentClient St) (st : St) :
  (forall data,
      rejectsOnlyWith (outcome (createStaticData c data) st)
        (storageFailure "Failed to create static data"))
  /\ (forall data,
      rejectsOnlyWith (outcome (createDynamicData c data) st)
        (storageFailure "Failed to create dynamic data"))
  /\ (forall data,
      rejectsOnlyWith (outcome (createResortData c data) st)
        (storageFailure "Failed to create resort data"))
  /\ (forall lift metadata,
      rejectsOnlyWith (outcome (getSkiLift c lift metadata) st)
        (fun x =>
           storageFailure "Failed to get ski lift data" x
           \/ x = ThrownApp (NotFoundError
                    (Some ("Ski lift data not found for " ++ lift ++ " - " ++ metadata)))))
  /\ (forall lift limit,
      rejectsOnlyWith (outcome (queryLiftData c lift limit) st)
        (storageFailure "Failed to query lift data"))
  /\ (forall lift data,
      rejectsOnlyWith (outcome (updateStaticData c lift data) st)
        (fun x => storageFailure "No fields to update" x
                  \/ storageFailure "Failed to update static data" x))
  /\ (forall lift metadata data,
      rejectsOnlyWith (outcome (updateDynamicData c lift metadata data) st)
        (fun x => storageFailure "No fields to update" x
                  \/ storageFailure "Failed to update dynamic data" x))
  /\ (forall lift metadata,
      rejectsOnlyWith (outcome (deleteSkiLift c lift metadata) st)
        (storageFailure "Failed to delete ski lift data"))
  /\ (forall query,
      rejectsOnlyWith (outcome (listSkiLifts c query) st)
        (storageFailure "Failed to list ski lifts"))
  /\ (forall lift query,
      rejectsOnlyWith (outcome (queryByRiders c lift query) st)
        (storageFailure "Failed to query by riders"))
  /\ (forall message x,
      storageFailure message x ->
      exists e, x = ThrownApp e
        /\ AppError.constructor_ e = DynamoDBErrorClass
        /\ AppError.message e = message
        /\ AppError.statusCode e = 500%Z
        /\ AppError.code e = Some "DYNAMODB_ERROR").
Proof.
  unfold outcome.
  repeat match goal with |- _ /\ _ => split end; intros.
  - apply createStaticData_rejects.
  - apply createDynamicData_rejects.
  - apply createResortData_rejects.
  - apply getSkiLift_rejects.
  - apply queryLiftData_rejects.
  - apply updateStaticData_rejects.
  - apply updateDynamicData_rejects.
  - apply deleteSkiLift_rejects.
  - apply listSkiLifts_rejects.
  - apply queryByRiders_rejects.
  - destruct H as [[o|] ->]; eexists; repeat split.
Qed.

Lemma sentOne_intro (before : list Command) (c : Command) (P : Command -> Prop) :
  commandTable c = TABLE_NAME -> P c -> sentOne before (before ++ [c])%list P.
Proof. intros Ht HP. exists c. auto. Qed.

(** X2. Whatever the recording client answers, each call of a method
    sends it exactly one command, addressed to the table of the service
    and of the kind the method is for: a put for the three creates, a get
    for the key asked, a query on the table or on the index, an update or
    a delete of the key, a scan.  Nothing is read before a write and
    nothing is sent twice; an update without fields sends nothing. *)
Theorem service_sends_one_command
    (behaviour : Command -> Outcome JsError.t Output.t) (calls : list Command) :
  let client := mockClient behaviour in
  (forall data,
      sentOne calls (finalState (createStaticData client data) calls)
        (fun c => exists i, c = PutCommand i))
  /\ (forall data,
      sentOne calls (finalState (createDynamicData client data) calls)
        (fun c => exists i, c = PutCommand i))
  /\ (forall data,
      sentOne calls (finalState (createResortData client data) calls)
        (fun c => exists i, c = PutCommand i))
  /\ (forall lift metadata,
      sentOne calls (finalState (getSkiLift client lift metadata) calls)
        (fun c => exists i, c = GetCommand i
                            /\ GetCommandInput.Key i = Key.mk lift metadata))
  /\ (forall lift limit,
      sentOne calls (finalState (queryLiftData client lift limit) calls)
        (fun c => exists i, c = QueryCommand i
                            /\ QueryCommandInput.IndexName i = None
                            /\ QueryCommandInput.Limit i = default 20%Q limit))
  /\ (forall lift data,
      if decide (suppliedStatic data = [])
      then finalState (updateStaticData client lift data) calls = calls
      else sentOne calls (finalState (updateStaticData client lift data) calls)
             (fun c => exists i, c = UpdateCommand i
                                 /\ UpdateCommandInput.Key i = Key.mk lift "Static Data"))
  /\ (forall lift metadata data,
      if decide (suppliedDynamic data = [])
      then finalState (updateDynamicData client lift metadata data) calls = calls
      else sentOne calls (finalState (updateDynamicData client lift metadata data) calls)
             (fun c => exists i, c = UpdateCommand i
                                 /\ UpdateCommandInput.Key i = Key.mk lift metadata))
  /\ (forall lift metadata,
      sentOne calls (finalState (deleteSkiLift client lift metadata) calls)
        (fun c => exists i, c = DeleteCommand i
                            /\ DeleteCommandInput.Key i = Key.mk lift metadata))
  /\ (forall query,
      sentOne calls (finalState (listSkiLifts client query) calls)
        (fun c => exists i, c = ScanCommand i
                            /\ ScanCommandInput.Limit i = ListQueryInput.limit query))
  /\ (forall lift query,
      sentOne calls (finalState (queryByRiders client lift query) calls)
        (fun c => exists i, c = QueryCommand i
                            /\ QueryCommandInput.IndexName i = Some GSI_NAME
                            /\ QueryCommandInput.ScanIndexForward i = Some false
                            /\ QueryCommandInput.Limit i = QueryByRidersInput.limit query)).
Proof.
  intros client. unfold finalState, client.
  repeat match goal with |- _ /\ _ => split end.
  - intros data. unfold createStaticData. rewrite create_any_client.
    unfold mockClient. destruct (behaviour _); cbn [snd];
      (apply sentOne_intro; [reflexivity | eexists; reflexivity]).
  - intros data. unfold createDynamicData. rewrite create_any_client.
    unfold mockClient. destruct (behaviour _); cbn [snd];
      (apply sentOne_intro; [reflexivity | eexists; reflexivity]).
  - intros data. unfold createResortData. rewrite create_any_client.
    unfold mockClient. destruct (behaviour _); cbn [snd];
      (apply sentOne_intro; [reflexivity | eexists; reflexivity]).
  - intros lift metadata. rewrite getSkiLift_any_client.
    unfold mockClient. destruct (behaviour _) as [o|e]; [destruct (Output.Item o)|];
      cbn [snd]; (apply sentOne_intro; [reflexivity | eexists; split; reflexivity]).
  - intros lift limit. unfold queryLiftData. rewrite query_any_client.
    unfold mockClient. destruct (behaviour _); cbn [snd];
      (apply sentOne_intro; [reflexivity | eexists; repeat split; reflexivity]).
  - intros lift data. destruct (decide (suppliedStatic data = [])) as [E|E].
    + rewrite (suppliedStatic_nil data E). reflexivity.
    + unfold updateStaticData. rewrite (static_parts_length data E), update_any_client.
      unfold mockClient. destruct (behaviour _); cbn [snd];
        (apply sentOne_intro; [reflexivity | eexists; split; reflexivity]).
  - intros lift metadata data. destruct (decide (suppliedDynamic data = [])) as [E|E].
    + rewrite (suppliedDynamic_nil data E). reflexivity.
    + unfold updateDynamicData. rewrite (dynamic_parts_length data E), update_any_client.
      unfold mockClient. destruct (behaviour _); cbn [snd];
        (apply sentOne_intro; [reflexivity | eexists; split; reflexivity]).
  - intros lift metadata. rewrite deleteSkiLift_any_client.
    unfold mockClient. destruct (behaviour _); cbn [snd];
      (apply sentOne_intro; [reflexivity | eexists; split; reflexivity]).
  - intros query. rewrite listSkiLifts_any_client.
    unfold mockClient. destruct (behaviour _); cbn [snd];
      (apply sentOne_intro;
       [apply listSkiLiftsParams_table
       | eexists; split; [reflexivity|];
         unfold listSkiLiftsParams; destruct (_ && _); reflexivity]).
  - intros lift query. rewrite queryByRiders_any_client.
    unfold mockClient. destruct (behaviour _); cbn [snd];
      (apply sentOne_intro; [reflexivity | eexists; repeat split; reflexivity]).
Qed.

Ltac by_evaluation :=
  match goal with |- ?a = ?b => vm_cast_no_check (eq_refl b) end.

(** X3. In the commands the service builds, [ExpressionAttributeValues]
    has exactly the [:placeholders] its expression mentions, and
    [ExpressionAttributeNames] exactly the [#placeholders]: for the key
    condition of [queryByRiders] with any combination of bounds, and for
    the update expressions of both update methods with any combination of
    fields. *)
Theorem expressions_name_exactly_their_placeholders
    (lift : string) (query : QueryByRidersInput.t)
    (s : UpdateStaticDataInput.t) (d : UpdateDynamicDataInput.t) (k : Key.t) :
  dom (ridersKeyCondition lift query).2
    = placeholders ":" (ridersKeyCondition lift query).1
  /\ (let i := updateCommandInput k (staticUpdateParts s) in
      dom (UpdateCommandInput.ExpressionAttributeValues i)
        = placeholders ":" (UpdateCommandInput.UpdateExpression i)
      /\ dom (UpdateCommandInput.ExpressionAttributeNames i)
        = placeholders "#" (UpdateCommandInput.UpdateExpression i))
  /\ (let i := updateCommandInput k (dynamicUpdateParts d) in
      dom (UpdateCommandInput.ExpressionAttributeValues i)
        = placeholders ":" (UpdateCommandInput.UpdateExpression i)
      /\ dom (UpdateCommandInput.ExpressionAttributeNames i)
        = placeholders "#" (UpdateCommandInput.UpdateExpression i)).
Proof.
  split; [|split].
  - destruct query as [[lo|] [hi|] limit]; by_evaluation.
  - destruct s as [[b|] [v|] [t|]]; split; by_evaluation.
  - destruct d as [[r|] [c|] [st|] [a|]]; split; by_evaluation.
Qed.

(* ------------------------------------------------------------------ *)
(** ** Replies *)

Lemma written_status (status : Z) (r : Reply.t) :
  Reply.statusCode (written status r) = Reply.statusCode r.
Proof. unfold written. destruct (Z.eqb _ _); reflexivity. Qed.

Lemma writtenResponse_status (status : Z) (r : Response.t) :
  Response.statusCode (writtenResponse status r) = Response.statusCode r.
Proof. unfold writtenResponse. destruct (Z.eqb _ _); reflexivity. Qed.

Lemma handle_parse {St A} (r : ZodResult A) (k : A -> Async St Thrown Reply.t) (st : St) :
  handle (await a <- parse r ; k a) st
  = match r with
    | Resolved a => handle (k a) st
    | Rejected issues => (validationReply issues, st)
    end.
Proof. destruct r; reflexivity. Qed.

Lemma respond_parse {St A} (r : ZodResult A) (k : A -> Async St Thrown Response.t)
    (st : St) :
  respond (await a <- parse r ; k a) st
  = match r with
    | Resolved a => respond (k a) st
    | Rejected issues => (replied (validationReply issues), st)
    end.
Proof. destruct r; reflexivity. Qed.

Lemma handle_service {St A} (m : Async St Thrown A) (k : A -> Reply.t) (st : St) :
  handle (await a <- m ; ret (k a)) st
  = match m st with
    | (Resolved a, st') => (k a, st')
    | (Rejected x, st') => (replyError x, st')
    end.
Proof. unfold handle, bind, ret. destruct (m st) as [[a|x] st']; reflexivity. Qed.

Lemma respond_service {St A} (m : Async St Thrown A) (k : A -> Response.t) (st : St) :
  respond (await a <- m ; ret (k a)) st
  = match m st with
    | (Resolved a, st') => (k a, st')
    | (Rejected x, st') => (replied (replyError x), st')
    end.
Proof. unfold respond, bind, ret. destruct (m st) as [[a|x] st']; reflexivity. Qed.

(** X4. The status of an error reply is the [statusCode] of its body,
    for every thrown value.  An application error is reported with its own
    message, code and status.  Any other error is reported as 400
    "VALIDATION_ERROR" with the error under [details] exactly when its name
    is "ZodError", and as 500 "INTERNAL_ERROR" otherwise, with its message,
    or "Internal server error" when it has none. *)
Theorem error_reply_status_matches_body (error : Thrown) :
  let reply := replyError error in
  let body := formatErrorResponse error in
  Reply.payload reply = PayloadError body
  /\ Reply.statusCode reply = ErrorBody.statusCode body
  /\ match error with
     | ThrownApp e =>
         body = ErrorBody.mk (AppError.message e) (AppError.code e)
                  (AppError.statusCode e) None
     | ThrownJs e =>
         ErrorBody.message body <> ""
         /\ (JsError.name e = "ZodError" ->
             body = ErrorBody.mk "Validation failed" (Some "VALIDATION_ERROR") 400%Z
                      (Some e))
         /\ (JsError.name e <> "ZodError" ->
             ErrorBody.statusCode body = 500%Z
             /\ ErrorBody.code body = Some "INTERNAL_ERROR"
             /\ ErrorBody.details body = None
             /\ (JsError.message e <> "" -> ErrorBody.message body = JsError.message e)
             /\ (JsError.message e = "" ->
                 ErrorBody.message body = "Internal server error"))
     end.
Proof.
  destruct error as [e|e]; cbn -[String.eqb].
  - repeat split.
  - destruct (String.eqb (JsError.name e) "ZodError") eqn:E.
    + apply String.eqb_eq in E.
      split; [reflexivity|]. split; [reflexivity|]. split; [discriminate|].
      split; [reflexivity|]. intros H. contradiction.
    + apply String.eqb_neq in E. cbn -[String.eqb].
      split; [reflexivity|]. split; [reflexivity|].
      destruct (String.eqb (JsError.message e) "") eqn:M.
      * apply String.eqb_eq in M.
        split; [discriminate|]. split; [intros H; contradiction|]. intros _.
        split; [reflexivity|]. split; [reflexivity|]. split; [reflexivity|].
        split; [intros H; contradiction | reflexivity].
      * apply String.eqb_neq in M.
        split; [exact M|]. split; [intros H; contradiction|]. intros _.
        split; [reflexivity|]. split; [reflexivity|]. split; [reflexivity|].
        split; [reflexivity | intros H; contradiction].
Qed.

(** X5. A request that fails validation is answered 400 with the body
    "Validation failed" / "VALIDATION_ERROR" and the issues, and the state
    of the client is what it was: no handler calls the store before its
    input is accepted.  The parameters are validated before the body.  A
    create request without body, and a request without [lift], are such
    requests. *)
Theorem invalid_requests_never_reach_the_store {St}
    (c : DynamoDBDocumentClient St) (st : St)
    (params query : RawObject) (body : option Json) (issues : list ZodIssue.t) :
  (createStaticDataSchema body = Rejected issues ->
   createStaticDataRoute c body st = (validationReply issues, st))
  /\ (createDynamicDataSchema body = Rejected issues ->
      createDynamicDataRoute c body st = (validationReply issues, st))
  /\ (createResortDataSchema body = Rejected issues ->
      createResortDataRoute c body st = (validationReply issues, st))
  /\ (listQuerySchema query = Rejected issues ->
      listSkiLiftsRoute c query st = (validationReply issues, st))
  /\ (liftMetadataParamsSchema params = Rejected issues ->
      getSkiLiftRoute c params st = (validationReply issues, st)
      /\ deleteSkiLiftRoute c params st = (replied (validationReply issues), st)
      /\ updateDynamicDataRoute c params body st
         = (replied (validationReply issues), st))
  /\ (liftParamsSchema params = Rejected issues ->
      updateStaticDataRoute c params body st = (replied (validationReply issues), st))
  /\ (forall lift, liftParamsSchema params = Resolved lift ->
      updateStaticDataSchema body = Rejected issues ->
      updateStaticDataRoute c params body st = (replied (validationReply issues), st))
  /\ (forall p, liftMetadataParamsSchema params = Resolved p ->
      updateDynamicDataSchema body = Rejected issues ->
      updateDynamicDataRoute c params body st = (replied (validationReply issues), st))
  /\ createStaticDataSchema None = Rejected [ZodIssue.mk "invalid_type" ""]
  /\ liftParamsSchema ∅ = Rejected [ZodIssue.mk "invalid_type" "lift"].
Proof.
  unfold createStaticDataRoute, createDynamicDataRoute, createResortDataRoute,
    listSkiLiftsRoute, getSkiLiftRoute, deleteSkiLiftRoute, updateDynamicDataRoute,
    updateStaticDataRoute, route, routeResponse.
  unfold createStaticDataHandler, createDynamicDataHandler, createResortDataHandler,
    listSkiLiftsHandler, getSkiLiftHandler, updateDynamicDataHandler,
    updateStaticDataHandler.
  repeat match goal with |- _ /\ _ => split end; try reflexivity.
  1-4, 6: intros H; rewrite ?handle_parse, ?respond_parse, H; reflexivity.
  - intros H. rewrite handle_parse, !respond_parse, H. repeat split.
  - intros lift H1 H2. rewrite respond_parse, H1, respond_parse, H2. reflexivity.
  - intros p H1 H2. rewrite respond_parse, H1, respond_parse, H2. reflexivity.
Qed.

(** X6. With any client, a handler answers 400 exactly when its input
    fails validation; otherwise a create answers 201 or 500, the lookup of
    a record 200, 404 or 500, the list and the updates 200 or 500, and the
    delete 204 or 500.  An update or a delete never answers 404. *)
Theorem routes_reply_with_fixed_statuses {St}
    (c : DynamoDBDocumentClient St) (st : St)
    (params query : RawObject) (body : option Json) :
  match createStaticDataSchema body with
  | Rejected _ => Reply.statusCode (createStaticDataRoute c body st).1 = 400%Z
  | Resolved _ => In (Reply.statusCode (createStaticDataRoute c body st).1) [201; 500]%Z
  end
  /\ match createDynamicDataSchema body with
     | Rejected _ => Reply.statusCode (createDynamicDataRoute c body st).1 = 400%Z
     | Resolved _ =>
         In (Reply.statusCode (createDynamicDataRoute c body st).1) [201; 500]%Z
     end
  /\ match createResortDataSchema body with
     | Rejected _ => Reply.statusCode (createResortDataRoute c body st).1 = 400%Z
     | Resolved _ =>
         In (Reply.statusCode (createResortDataRoute c body st).1) [201; 500]%Z
     end
  /\ match liftMetadataParamsSchema params with
     | Rejected _ => Reply.statusCode (getSkiLiftRoute c params st).1 = 400%Z
     | Resolved _ =>
         In (Reply.statusCode (getSkiLiftRoute c params st).1) [200; 404; 500]%Z
     end
  /\ match listQuerySchema query with
     | Rejected _ => Reply.statusCode (listSkiLiftsRoute c query st).1 = 400%Z
     | Resolved _ => In (Reply.statusCode (listSkiLiftsRoute c query st).1) [200; 500]%Z
     end
  /\ match liftParamsSchema params, updateStaticDataSchema body with
     | Resolved _, Resolved _ =>
         In (Response.statusCode (updateStaticDataRoute c params body st).1)
            [200; 500]%Z
     | _, _ => Response.statusCode (updateStaticDataRoute c params body st).1 = 400%Z
     end
  /\ match liftMetadataParamsSchema params, updateDynamicDataSchema body with
     | Resolved _, Resolved _ =>
         In (Response.statusCode (updateDynamicDataRoute c params body st).1)
            [200; 500]%Z
     | _, _ => Response.statusCode (updateDynamicDataRoute c params body st).1 = 400%Z
     end
  /\ match liftMetadataParamsSchema params with
     | Rejected _ => Response.statusCode (deleteSkiLiftRoute c params st).1 = 400%Z
     | Resolved _ =>
         In (Response.statusCode (deleteSkiLiftRoute c params st).1) [204; 500]%Z
     end.
Proof.
  unfold createStaticDataRoute, createDynamicDataRoute, createResortDataRoute,
    listSkiLiftsRoute, getSkiLiftRoute, deleteSkiLiftRoute, updateDynamicDataRoute,
    updateStaticDataRoute, route, routeResponse.
  cbn [fst]. rewrite !written_status, !writtenResponse_status.
  unfold createStaticDataHandler, createDynamicDataHandler, createResortDataHandler,
    listSkiLiftsHandler, getSkiLiftHandler, updateDynamicDataHandler,
    updateStaticDataHandler.
  repeat match goal with |- _ /\ _ => split end.
  - rewrite handle_parse. destruct (createStaticDataSchema body) as [data|issues];
      [|reflexivity].
    rewrite handle_service. pose proof (createStaticData_rejects c st data) as H.
    destruct (createStaticData c data st) as [[a|x] st']; cbn [fst] in *; [cbn; auto|].
    rewrite (storageFailure_reply _ x H). cbn; auto.
  - rewrite handle_parse. destruct (createDynamicDataSchema body) as [data|issues];
      [|reflexivity].
    rewrite handle_service. pose proof (createDynamicData_rejects c st data) as H.
    destruct (createDynamicData c data st) as [[a|x] st']; cbn [fst] in *; [cbn; auto|].
    rewrite (storageFailure_reply _ x H). cbn; auto.
  - rewrite handle_parse. destruct (createResortDataSchema body) as [data|issues];
      [|reflexivity].
    rewrite handle_service. pose proof (createResortData_rejects c st data) as H.
    destruct (createResortData c data st) as [[a|x] st']; cbn [fst] in *; [cbn; auto|].
    rewrite (storageFailure_reply _ x H). cbn; auto.
  - rewrite handle_parse. destruct (liftMetadataParamsSchema params) as [p|issues];
      [|reflexivity].
    rewrite handle_service. pose proof (getSkiLift_rejects c st p.1 p.2) as H.
    destruct (getSkiLift c p.1 p.2 st) as [[a|x] st']; cbn [fst] in *; [cbn; auto|].
    destruct H as [H| ->]; [rewrite (storageFailure_reply _ x H)|]; cbn; auto.
  - rewrite handle_parse. destruct (listQuerySchema query) as [q|issues];
      [|reflexivity].
    rewrite handle_service. pose proof (listSkiLifts_rejects c st q) as H.
    destruct (listSkiLifts c q st) as [[a|x] st']; cbn [fst] in *; [cbn; auto|].
    rewrite (storageFailure_reply _ x H). cbn; auto.
  - rewrite respond_parse. destruct (liftParamsSchema params) as [lift|issues];
      [|destruct (updateStaticDataSchema body); reflexivity].
    rewrite respond_parse. destruct (updateStaticDataSchema body) as [data|issues];
      [|reflexivity].
    rewrite respond_service. pose proof (updateStaticData_rejects c st lift data) as H.
    destruct (updateStaticData c lift data st) as [[a|x] st']; cbn [fst] in *;
      [cbn; auto|].
    destruct H as [H|H]; rewrite (storageFailure_reply _ x H); cbn; auto.
  - rewrite respond_parse. destruct (liftMetadataParamsSchema params) as [p|issues];
      [|destruct (updateDynamicDataSchema body); reflexivity].
    rewrite respond_parse. destruct (updateDynamicDataSchema body) as [data|issues];
      [|reflexivity].
    rewrite respond_service.
    pose proof (updateDynamicData_rejects c st p.1 p.2 data) as H.
    destruct (updateDynamicData c p.1 p.2 data st) as [[a|x] st']; cbn [fst] in *;
      [cbn; auto|].
    destruct H as [H|H]; rewrite (storageFailure_reply _ x H); cbn; auto.
  - rewrite respond_parse. destruct (liftMetadataParamsSchema params) as [p|issues];
      [|reflexivity].
    rewrite respond_service. pose proof (deleteSkiLift_rejects c st p.1 p.2) as H.
    destruct (deleteSkiLift c p.1 p.2 st) as [[a|x] st']; cbn [fst] in *; [cbn; auto|].
    rewrite (storageFailure_reply _ x H). cbn; auto.
Qed.

(* ------------------------------------------------------------------ *)
(** ** Request bodies and parameters *)

Lemma isDigit_digitChar (c : ascii) :
  isDigit c = true <-> exists d, (d < 10)%nat /\ c = digitChar d.
Proof.
  split.
  - intros H. exists (nat_of_ascii c - 48)%nat.
    destruct c as [[] [] [] [] [] [] [] []]; try discriminate H;
      (split; [vm_compute; lia | reflexivity]).
  - intros (d & Hd & ->).
    do 10 (destruct d as [|d]; [reflexivity|]). lia.
Qed.

Lemma regexMatch_two_digits (r : list RegexAtom) (l : list ascii) :
  regexMatch (RegexDigits 2 2 :: r) l = true
  <-> exists a b rest, l = a :: b :: rest /\ isDigit a = true /\ isDigit b = true
                       /\ regexMatch r rest = true.
Proof.
  cbn [regexMatch]. change (seq 2 (3 - 2)) with [2%nat]. cbn [existsb].
  rewrite orb_false_r, andb_true_iff, Nat.leb_le.
  destruct l as [|a [|b rest]]; cbn [leadingDigits drop].
  - split; [lia | intros (a & b & rest & H & _); discriminate H].
  - split; [destruct (isDigit a); lia | intros (a' & b & rest & H & _); discriminate H].
  - split.
    + intros [H1 H2]. exists a, b, rest.
      destruct (isDigit a); [|lia]. destruct (isDigit b); [|lia]. auto.
    + intros (a' & b' & rest' & H & Ha & Hb & Hr). injection H as -> -> ->.
      rewrite Ha, Hb. split; [lia | exact Hr].
Qed.

Lemma regexMatch_one_or_two_digits (r : list RegexAtom) (l : list ascii) :
  regexMatch (RegexDigits 1 2 :: r) l = true
  <-> (exists a rest, l = a :: rest /\ isDigit a = true /\ regexMatch r rest = true)
      \/ (exists a b rest, l = a :: b :: rest /\ isDigit a = true /\ isDigit b = true
                           /\ regexMatch r rest = true).
Proof.
  cbn [regexMatch]. change (seq 1 (3 - 1)) with [1%nat; 2%nat]. cbn [existsb].
  rewrite orb_false_r, orb_true_iff, !andb_true_iff, !Nat.leb_le.
  destruct l as [|a rest]; cbn [leadingDigits drop].
  - split; [lia|].
    intros [(a & rest & H & _)|(a & b & rest & H & _)]; discriminate H.
  - split.
    + intros [[H1 H2]|[H1 H2]].
      * left. exists a, rest. destruct (isDigit a); [auto | lia].
      * right. destruct rest as [|b rest]; cbn [leadingDigits drop] in *.
        -- destruct (isDigit a); lia.
        -- exists a, b, rest.
           destruct (isDigit a); [|lia]. destruct (isDigit b); [|lia]. auto.
    + intros [(a' & rest' & H & Ha & Hr)|(a' & b & rest' & H & Ha & Hb & Hr)].
      * injection H as -> ->. left. rewrite Ha. split; [lia | exact Hr].
      * injection H as -> ->. right. cbn [leadingDigits drop]. rewrite Ha, Hb.
        split; [lia | exact Hr].
Qed.

Lemma regexMatch_char (c : ascii) (r : list RegexAtom) (l : list ascii) :
  regexMatch (RegexChar c :: r) l = true
  <-> exists rest, l = c :: rest /\ regexMatch r rest = true.
Proof.
  cbn [regexMatch]. destruct l as [|x rest].
  - split; [discriminate | intros (rest & H & _); discriminate H].
  - rewrite andb_true_iff. split.
    + intros [H1 H2]. apply Ascii.eqb_eq in H1 as ->. eauto.
    + intros (rest' & H & Hr). injection H as -> ->.
      split; [apply Ascii.eqb_refl | exact Hr].
Qed.

Lemma regexMatch_end (l : list ascii) : regexMatch [] l = true <-> l = [].
Proof. destruct l; cbn; split; congruence. Qed.

Lemma two_digits_number (a b : ascii) :
  isDigit a = true -> isDigit b = true ->
  exists n, (n < 100)%nat /\ String a (String b EmptyString) = twoDigits n.
Proof.
  intros Ha Hb. apply isDigit_digitChar in Ha as (x & Hx & ->).
  apply isDigit_digitChar in Hb as (y & Hy & ->).
  exists (10 * x + y)%nat. split; [lia|]. unfold twoDigits.
  replace ((10 * x + y) / 10)%nat with x by (apply Nat.div_unique with y; lia).
  replace ((10 * x + y) mod 10)%nat with y by (apply Nat.mod_unique with x; lia).
  reflexivity.
Qed.

Lemma twoDigits_digits (n : nat) :
  (n < 100)%nat ->
  isDigit (digitChar (n / 10)) = true /\ isDigit (digitChar (n mod 10)) = true.
Proof.
  intros Hn. split; apply isDigit_digitChar; eexists; (split; [|reflexivity]).
  - apply Nat.Div0.div_lt_upper_bound. lia.
  - apply Nat.mod_upper_bound. lia.
Qed.

Lemma string_of_ascii_list (s : string) (l : list ascii) :
  list_ascii_of_string s = l -> s = string_of_list_ascii l.
Proof. intros <-. symmetry. apply string_of_list_ascii_of_string. Qed.

(** X7. The pattern of [Metadata] accepts exactly the strings
    [dateString mm dd yy] with [mm], [dd] and [yy] below 100: two digits,
    a slash, two digits, a slash, two digits.  Month and day are not
    checked against the calendar. *)
Theorem metadata_pattern_is_three_two_digit_numbers (s : string) :
  regexTest metadataRegex s = true
  <-> exists mm dd yy, (mm < 100 /\ dd < 100 /\ yy < 100)%nat /\ s = dateString mm dd yy.
Proof.
  unfold regexTest, metadataRegex. split.
  - intros H.
    apply regexMatch_two_digits in H as (a1 & a2 & l1 & E1 & Ha1 & Ha2 & H).
    apply regexMatch_char in H as (l2 & E2 & H).
    apply regexMatch_two_digits in H as (b1 & b2 & l3 & E3 & Hb1 & Hb2 & H).
    apply regexMatch_char in H as (l4 & E4 & H).
    apply regexMatch_two_digits in H as (c1 & c2 & l5 & E5 & Hc1 & Hc2 & H).
    apply regexMatch_end in H. subst l1 l2 l3 l4 l5.
    apply string_of_ascii_list in E1. cbn in E1.
    destruct (two_digits_number a1 a2 Ha1 Ha2) as (mm & Hmm & Em).
    destruct (two_digits_number b1 b2 Hb1 Hb2) as (dd & Hdd & Ed).
    destruct (two_digits_number c1 c2 Hc1 Hc2) as (yy & Hyy & Ey).
    exists mm, dd, yy. split; [auto|]. subst s.
    unfold dateString. rewrite <- Em, <- Ed, <- Ey. reflexivity.
  - intros (mm & dd & yy & (Hmm & Hdd & Hyy) & ->).
    destruct (twoDigits_digits mm Hmm) as [M1 M2].
    destruct (twoDigits_digits dd Hdd) as [D1 D2].
    destruct (twoDigits_digits yy Hyy) as [Y1 Y2].
    unfold dateString, twoDigits.
    cbv beta iota delta [String.append list_ascii_of_string].
    apply regexMatch_two_digits. do 3 eexists. split; [reflexivity|].
    split; [exact M1|]. split; [exact M2|].
    apply regexMatch_char. eexists. split; [reflexivity|].
    apply regexMatch_two_digits. do 3 eexists. split; [reflexivity|].
    split; [exact D1|]. split; [exact D2|].
    apply regexMatch_char. eexists. split; [reflexivity|].
    apply regexMatch_two_digits. do 3 eexists. split; [reflexivity|].
    split; [exact Y1|]. split; [exact Y2|]. reflexivity.
Qed.

(** X8. The pattern of [LiftTime] accepts exactly one or two digits, a
    colon and two digits.  Hours and minutes are not bounded: "99:99" is
    accepted. *)
Theorem lift_time_pattern_is_digits_colon_digits (s : string) :
  regexTest liftTimeRegex s = true
  <-> exists (h m : nat) (padded : bool),
        (m < 100)%nat /\ (h < (if padded then 100 else 10))%nat
        /\ s = timeString h m padded.
Proof.
  unfold regexTest, liftTimeRegex. split.
  - intros H. apply regexMatch_one_or_two_digits in H
      as [(a & l1 & E1 & Ha & H)|(a1 & a2 & l1 & E1 & Ha1 & Ha2 & H)].
    + apply regexMatch_char in H as (l2 & E2 & H).
      apply regexMatch_two_digits in H as (b1 & b2 & l3 & E3 & Hb1 & Hb2 & H).
      apply regexMatch_end in H. subst l1 l2 l3.
      apply string_of_ascii_list in E1. cbn in E1.
      apply isDigit_digitChar in Ha as (h & Hh & ->).
      destruct (two_digits_number b1 b2 Hb1 Hb2) as (m & Hm & Em).
      exists h, m, false. split; [exact Hm|]. split; [exact Hh|]. subst s.
      unfold timeString, oneDigit. rewrite <- Em. reflexivity.
    + apply regexMatch_char in H as (l2 & E2 & H).
      apply regexMatch_two_digits in H as (b1 & b2 & l3 & E3 & Hb1 & Hb2 & H).
      apply regexMatch_end in H. subst l1 l2 l3.
      apply string_of_ascii_list in E1. cbn in E1.
      destruct (two_digits_number a1 a2 Ha1 Ha2) as (h & Hh & Eh).
      destruct (two_digits_number b1 b2 Hb1 Hb2) as (m & Hm & Em).
      exists h, m, true. split; [exact Hm|]. split; [exact Hh|]. subst s.
      unfold timeString. rewrite <- Eh, <- Em. reflexivity.
  - intros (h & m & padded & Hm & Hh & ->).
    destruct (twoDigits_digits m Hm) as [M1 M2].
    apply regexMatch_one_or_two_digits. destruct padded.
    + right. destruct (twoDigits_digits h Hh) as [H1 H2].
      unfold timeString, twoDigits.
      cbv beta iota delta [String.append list_ascii_of_string].
      do 3 eexists. split; [reflexivity|]. split; [exact H1|]. split; [exact H2|].
      apply regexMatch_char. eexists. split; [reflexivity|].
      apply regexMatch_two_digits. do 3 eexists. split; [reflexivity|].
      split; [exact M1|]. split; [exact M2|]. reflexivity.
    + left. unfold timeString, oneDigit, twoDigits.
      cbv beta iota delta [String.append list_ascii_of_string].
      do 2 eexists. split; [reflexivity|].
      split; [apply isDigit_digitChar; eauto|].
      apply regexMatch_char. eexists. split; [reflexivity|].
      apply regexMatch_two_digits. do 3 eexists. split; [reflexivity|].
      split; [exact M1|]. split; [exact M2|]. reflexivity.
Qed.

Lemma zodAp_resolved {A B} (f : ZodResult (A -> B)) (x : ZodResult A) (b : B) :
  zodAp f x = Resolved b <-> exists g a, f = Resolved g /\ x = Resolved a /\ b = g a.
Proof.
  destruct f as [g|e], x as [a|e']; cbn; split;
    try (intros H; discriminate H);
    try (intros (g' & a' & H1 & H2 & _); discriminate).
  - intros H. injection H as <-. eauto.
  - intros (g' & a' & H1 & H2 & ->). congruence.
Qed.

Lemma zodMap_resolved {A B} (f : A -> B) (x : ZodResult A) (b : B) :
  zodMap f x = Resolved b <-> exists a, x = Resolved a /\ b = f a.
Proof.
  destruct x as [a|e]; cbn; split.
  - intros H. injection H as <-. eauto.
  - intros (a' & H & ->). congruence.
  - discriminate.
  - intros (a' & H & _). discriminate.
Qed.

Lemma checked_resolved {A} (a b : A) (issues : list ZodIssue.t) :
  checked a issues = Resolved b <-> issues = [] /\ a = b.
Proof.
  destruct issues; cbn; split; try (intros [H _]; discriminate); try discriminate.
  - intros H. injection H as <-. auto.
  - intros [_ ->]. reflexivity.
Qed.

Lemma jsonString_min1 (path : string) (input : option Json) (s : string) :
  jsonString [StrMin 1] path input = Resolved s
  <-> input = Some (JsonString s) /\ s <> "".
Proof.
  unfold jsonString. destruct input as [[]|];
    try (split; [discriminate | intros [H _]; discriminate]).
  rewrite checked_resolved. cbn [map concat stringCheckIssue].
  rewrite app_nil_r. destruct s0 as [|c s0]; cbn.
  - split; [intros [H _]; discriminate | intros [H1 H2]; congruence].
  - split; [intros [_ <-]; split; [reflexivity | discriminate]
           | intros [H _]; injection H as <-; auto].
Qed.

Lemma jsonString_regex (r : list RegexAtom) (path : string) (input : option Json)
    (s : string) :
  jsonString [StrRegex r] path input = Resolved s
  <-> input = Some (JsonString s) /\ regexTest r s = true.
Proof.
  unfold jsonString. destruct input as [[]|];
    try (split; [discriminate | intros [H _]; discriminate]).
  rewrite checked_resolved. cbn [map concat stringCheckIssue].
  rewrite app_nil_r. destruct (regexTest r s0) eqn:E.
  - split; [intros [_ <-]; auto | intros [H _]; injection H as <-; auto].
  - split; [intros [H _]; discriminate | intros [H1 H2]; congruence].
Qed.

Lemma jsonNumber_positive (path : string) (input : option Json) (n : number) :
  jsonNumber [positive_] path input = Resolved n
  <-> input = Some (JsonNumber n) /\ (0 < n)%Q.
Proof.
  unfold jsonNumber. destruct input as [[]|];
    try (split; [discriminate | intros [H _]; discriminate]).
  rewrite checked_resolved. cbn [map concat numberCheckIssue positive_].
  rewrite app_nil_r. cbn [jsLe]. unfold num_le.
  destruct (Qle_bool n0 0) eqn:E.
  - apply Qle_bool_iff in E. split; [intros [H _]; discriminate|].
    intros [H1 H2]. injection H1 as <-. exfalso. exact (Qlt_not_le _ _ H2 E).
  - assert (0 < n0)%Q.
    { apply Qnot_le_lt. intros H. apply Qle_bool_iff in H. congruence. }
    split; [intros [_ <-]; auto | intros [H1 _]; injection H1 as <-; auto].
Qed.

Lemma jsonNumber_nonnegative (path : string) (input : option Json) (n : number) :
  jsonNumber [nonnegative_] path input = Resolved n
  <-> input = Some (JsonNumber n) /\ (0 <= n)%Q.
Proof.
  unfold jsonNumber. destruct input as [[]|];
    try (split; [discriminate | intros [H _]; discriminate]).
  rewrite checked_resolved. cbn [map concat numberCheckIssue nonnegative_].
  rewrite app_nil_r. cbn [jsLt]. unfold num_lt.
  destruct (Qle_bool 0 n0) eqn:E; cbn [negb].
  - apply Qle_bool_iff in E.
    split; [intros [_ <-]; auto | intros [H1 _]; injection H1 as <-; auto].
  - split; [intros [H _]; discriminate|].
    intros [H1 H2]. injection H1 as <-. apply Qle_bool_iff in H2. congruence.
Qed.

Lemma jsonNumber_unchecked (path : string) (input : option Json) (n : number) :
  jsonNumber [] path input = Resolved n <-> input = Some (JsonNumber n).
Proof.
  unfold jsonNumber. destruct input as [[]|]; try (split; discriminate).
  cbn. split; congruence.
Qed.

Lemma jsonBoolean_resolved (path : string) (input : option Json) (b : bool) :
  jsonBoolean path input = Resolved b <-> input = Some (JsonBoolean b).
Proof.
  unfold jsonBoolean. destruct input as [[]|]; try (split; discriminate).
  split; congruence.
Qed.

Lemma LiftStatusEnum_resolved (path : string) (input : option Json) (v : LiftStatus) :
  LiftStatusEnum path input = Resolved v
  <-> input = Some (JsonString (LiftStatus_to_string v)).
Proof.
  unfold LiftStatusEnum, jsonEnum. destruct input as [[]|];
    try (split; discriminate).
  split.
  - destruct (find _ _) as [o|] eqn:E; [|discriminate]. intros H. injection H as <-.
    apply find_some in E as [_ E]. apply String.eqb_eq in E. congruence.
  - intros H. injection H as ->. destruct v; reflexivity.
Qed.

Lemma AvalancheDangerEnum_resolved (path : string) (input : option Json)
    (v : AvalancheDanger) :
  AvalancheDangerEnum path input = Resolved v
  <-> input = Some (JsonString (AvalancheDanger_to_string v)).
Proof.
  unfold AvalancheDangerEnum, jsonEnum. destruct input as [[]|];
    try (split; discriminate).
  split.
  - destruct (find _ _) as [o|] eqn:E; [|discriminate]. intros H. injection H as <-.
    apply find_some in E as [_ E]. apply String.eqb_eq in E. congruence.
  - intros H. injection H as ->. destruct v; reflexivity.
Qed.

Lemma zodAll_numbers (g : nat -> string) (data : list Json) (l : list number) :
  zodAll (imap (fun i item => jsonNumber [] (g i) (Some item)) data) = Resolved l
  <-> data = JsonNumber <$> l.
Proof.
  revert g l. induction data as [|x data IH]; intros g l.
  - cbn. split.
    + intros H. injection H as <-. reflexivity.
    + destruct l; [reflexivity | discriminate].
  - cbn [imap zodAll]. rewrite zodAp_resolved. split.
    + intros (f & tl & Hf & Htl & ->).
      apply zodMap_resolved in Hf as (n & Hn & ->).
      apply jsonNumber_unchecked in Hn. injection Hn as ->.
      apply (IH (g ∘ S)) in Htl. subst data. reflexivity.
    + destruct l as [|n l]; [discriminate|]. cbn. intros H. injection H as -> ->.
      exists (cons n), l. split; [reflexivity|]. split; [|reflexivity].
      apply (IH (g ∘ S)). reflexivity.
Qed.

Lemma jsonArray_numbers (path : string) (input : option Json) (l : list number) :
  jsonArray (jsonNumber []) 0 path input = Resolved l
  <-> input = Some (JsonArray (JsonNumber <$> l)).
Proof.
  unfold jsonArray. destruct input as [[]|]; try (split; discriminate).
  cbn [Nat.ltb Nat.leb zodMap]. rewrite zodAp_resolved. split.
  - intros (f & a & Hf & Ha & ->). injection Hf as <-.
    apply zodAll_numbers in Ha. congruence.
  - intros H. injection H as ->. eexists _, l. split; [reflexivity|].
    split; [|reflexivity]. apply zodAll_numbers. reflexivity.
Qed.

Lemma jsonOptional_resolved {A} (inner : option Json -> ZodResult A)
    (input : option Json) (r : option A) :
  jsonOptional inner input = Resolved r
  <-> match r with
      | None => input = None
      | Some a => input <> None /\ inner input = Resolved a
      end.
Proof.
  unfold jsonOptional. destruct input as [j|].
  - rewrite zodMap_resolved. destruct r as [a|].
    + split.
      * intros (a' & H & E). injection E as ->. split; [discriminate | exact H].
      * intros [_ H]. eauto.
    + split; [intros (a' & _ & E); discriminate | discriminate].
  - destruct r as [a|]; split; try discriminate; try reflexivity.
    intros [H _]. contradiction.
Qed.

Lemma createStaticDataSchema_resolved (body : option Json)
    (d : CreateStaticDataInput.t) :
  createStaticDataSchema body = Resolved d
  <-> exists props, body = Some (JsonObject props)
        /\ props !! "Lift" = Some (JsonString (CreateStaticDataInput.Lift d))
        /\ CreateStaticDataInput.Lift d <> ""
        /\ props !! "ExperiencedRidersOnly"
           = Some (JsonBoolean (CreateStaticDataInput.ExperiencedRidersOnly d))
        /\ props !! "VerticalFeet"
           = Some (JsonNumber (CreateStaticDataInput.VerticalFeet d))
        /\ (0 < CreateStaticDataInput.VerticalFeet d)%Q
        /\ props !! "LiftTime" = Some (JsonString (CreateStaticDataInput.LiftTime d))
        /\ regexTest liftTimeRegex (CreateStaticDataInput.LiftTime d) = true.
Proof.
  unfold createStaticDataSchema, jsonObject. split.
  + destruct body as [[]|]; try discriminate. intros H. exists props.
    apply zodAp_resolved in H as (f3 & t & H & Ht & ->).
    apply zodAp_resolved in H as (f2 & v & H & Hv & ->).
    apply zodAp_resolved in H as (f1 & b & H & Hb & ->).
    apply zodMap_resolved in H as (l & Hl & ->).
    apply jsonString_min1 in Hl as [Hl Hne].
    apply jsonBoolean_resolved in Hb.
    apply jsonNumber_positive in Hv as [Hv Hpos].
    apply jsonString_regex in Ht as [Ht Hre].
    cbn. auto 10.
  + intros (props & -> & Hl & Hne & Hb & Hv & Hpos & Ht & Hre). destruct d as [l b v t].
    cbn [CreateStaticDataInput.Lift CreateStaticDataInput.ExperiencedRidersOnly
         CreateStaticDataInput.VerticalFeet CreateStaticDataInput.LiftTime] in *.
    rewrite Hl, Hb, Hv, Ht.
    rewrite (proj2 (jsonString_min1 "Lift" _ l) (conj eq_refl Hne)).
    rewrite (proj2 (jsonBoolean_resolved "ExperiencedRidersOnly" _ b) eq_refl).
    rewrite (proj2 (jsonNumber_positive "VerticalFeet" _ v) (conj eq_refl Hpos)).
    rewrite (proj2 (jsonString_regex liftTimeRegex "LiftTime" _ t) (conj eq_refl Hre)).
    reflexivity.
Qed.

Lemma createDynamicDataSchema_resolved (body : option Json)
    (d : CreateDynamicDataInput.t) :
  createDynamicDataSchema body = Resolved d
  <-> exists props, body = Some (JsonObject props)
        /\ props !! "Lift" = Some (JsonString (CreateDynamicDataInput.Lift d))
        /\ CreateDynamicDataInput.Lift d <> ""
        /\ props !! "Metadata" = Some (JsonString (CreateDynamicDataInput.Metadata d))
        /\ regexTest metadataRegex (CreateDynamicDataInput.Metadata d) = true
        /\ props !! "TotalUniqueLiftRiders"
           = Some (JsonNumber (CreateDynamicDataInput.TotalUniqueLiftRiders d))
        /\ (0 <= CreateDynamicDataInput.TotalUniqueLiftRiders d)%Q
        /\ props !! "AverageSnowCoverageInches"
           = Some (JsonNumber (CreateDynamicDataInput.AverageSnowCoverageInches d))
        /\ (0 <= CreateDynamicDataInput.AverageSnowCoverageInches d)%Q
        /\ props !! "LiftStatus"
           = Some (JsonString (LiftStatus_to_string (CreateDynamicDataInput.LiftStatus d)))
        /\ props !! "AvalancheDanger"
           = Some (JsonString (AvalancheDanger_to_string
                                 (CreateDynamicDataInput.AvalancheDanger d))).
Proof.
  unfold createDynamicDataSchema, jsonObject. split.
  + destruct body as [[]|]; try discriminate. intros H. exists props.
    apply zodAp_resolved in H as (f5 & a & H & Ha & ->).
    apply zodAp_resolved in H as (f4 & s & H & Hs & ->).
    apply zodAp_resolved in H as (f3 & c & H & Hc & ->).
    apply zodAp_resolved in H as (f2 & r & H & Hr & ->).
    apply zodAp_resolved in H as (f1 & m & H & Hm & ->).
    apply zodMap_resolved in H as (l & Hl & ->).
    apply jsonString_min1 in Hl as [Hl Hne].
    apply jsonString_regex in Hm as [Hm Hre].
    apply jsonNumber_nonnegative in Hr as [Hr Hr0].
    apply jsonNumber_nonnegative in Hc as [Hc Hc0].
    apply LiftStatusEnum_resolved in Hs.
    apply AvalancheDangerEnum_resolved in Ha.
    cbn. auto 15.
  + intros (props & -> & Hl & Hne & Hm & Hre & Hr & Hr0 & Hc & Hc0 & Hs & Ha).
    destruct d as [l m r c s a].
    cbn [CreateDynamicDataInput.Lift CreateDynamicDataInput.Metadata
         CreateDynamicDataInput.TotalUniqueLiftRiders
         CreateDynamicDataInput.AverageSnowCoverageInches
         CreateDynamicDataInput.LiftStatus CreateDynamicDataInput.AvalancheDanger] in *.
    rewrite Hl, Hm, Hr, Hc, Hs, Ha.
    rewrite (proj2 (jsonString_min1 "Lift" _ l) (conj eq_refl Hne)).
    rewrite (proj2 (jsonString_regex metadataRegex "Metadata" _ m) (conj eq_refl Hre)).
    rewrite (proj2 (jsonNumber_nonnegative "TotalUniqueLiftRiders" _ r)
               (conj eq_refl Hr0)).
    rewrite (proj2 (jsonNumber_nonnegative "AverageSnowCoverageInches" _ c)
               (conj eq_refl Hc0)).
    rewrite (proj2 (LiftStatusEnum_resolved "LiftStatus" _ s) eq_refl).
    rewrite (proj2 (AvalancheDangerEnum_resolved "AvalancheDanger" _ a) eq_refl).
    reflexivity.
Qed.

Lemma createResortDataSchema_resolved (body : option Json)
    (d : CreateResortDataInput.t) :
  createResortDataSchema body = Resolved d
  <-> exists props, body = Some (JsonObject props)
        /\ props !! "Metadata" = Some (JsonString (CreateResortDataInput.Metadata d))
        /\ regexTest metadataRegex (CreateResortDataInput.Metadata d) = true
        /\ props !! "TotalUniqueLiftRiders"
           = Some (JsonNumber (CreateResortDataInput.TotalUniqueLiftRiders d))
        /\ (0 <= CreateResortDataInput.TotalUniqueLiftRiders d)%Q
        /\ props !! "AverageSnowCoverageInches"
           = Some (JsonNumber (CreateResortDataInput.AverageSnowCoverageInches d))
        /\ (0 <= CreateResortDataInput.AverageSnowCoverageInches d)%Q
        /\ props !! "AvalancheDanger"
           = Some (JsonString (AvalancheDanger_to_string
                                 (CreateResortDataInput.AvalancheDanger d)))
        /\ props !! "OpenLifts"
           = Some (JsonArray (JsonNumber <$> CreateResortDataInput.OpenLifts d)).
Proof.
  unfold createResortDataSchema, jsonObject. split.
  + destruct body as [[]|]; try discriminate. intros H. exists props.
    apply zodAp_resolved in H as (f4 & o & H & Ho & ->).
    apply zodAp_resolved in H as (f3 & a & H & Ha & ->).
    apply zodAp_resolved in H as (f2 & c & H & Hc & ->).
    apply zodAp_resolved in H as (f1 & r & H & Hr & ->).
    apply zodMap_resolved in H as (m & Hm & ->).
    apply jsonString_regex in Hm as [Hm Hre].
    apply jsonNumber_nonnegative in Hr as [Hr Hr0].
    apply jsonNumber_nonnegative in Hc as [Hc Hc0].
    apply AvalancheDangerEnum_resolved in Ha.
    apply jsonArray_numbers in Ho.
    cbn. auto 15.
  + intros (props & -> & Hm & Hre & Hr & Hr0 & Hc & Hc0 & Ha & Ho).
    destruct d as [m r c a o].
    cbn [CreateResortDataInput.Metadata CreateResortDataInput.TotalUniqueLiftRiders
         CreateResortDataInput.AverageSnowCoverageInches
         CreateResortDataInput.AvalancheDanger CreateResortDataInput.OpenLifts] in *.
    rewrite Hm, Hr, Hc, Ha, Ho.
    rewrite (proj2 (jsonString_regex metadataRegex "Metadata" _ m) (conj eq_refl Hre)).
    rewrite (proj2 (jsonNumber_nonnegative "TotalUniqueLiftRiders" _ r)
               (conj eq_refl Hr0)).
    rewrite (proj2 (jsonNumber_nonnegative "AverageSnowCoverageInches" _ c)
               (conj eq_refl Hc0)).
    rewrite (proj2 (AvalancheDangerEnum_resolved "AvalancheDanger" _ a) eq_refl).
    rewrite (proj2 (jsonArray_numbers "OpenLifts" _ o) eq_refl).
    reflexivity.
Qed.

(** X9. Each create schema accepts a body exactly when it is an object
    whose properties of the schema have the required types and satisfy the
    checks, and the accepted value is made of these properties and of
    nothing else: a non-empty [Lift], a boolean, a positive [VerticalFeet]
    and a [LiftTime] of the pattern for a static record; a non-empty
    [Lift], a [Metadata] of the pattern, two numbers that are not negative
    and the two enumerated strings for a dynamic record; and for the resort
    a [Metadata] of the pattern, the two numbers, the danger and an array
    of numbers. *)
Theorem create_schemas_accept_exactly_the_valid_bodies (body : option Json) :
  (forall d, createStaticDataSchema body = Resolved d
     <-> exists props, body = Some (JsonObject props)
           /\ props !! "Lift" = Some (JsonString (CreateStaticDataInput.Lift d))
           /\ CreateStaticDataInput.Lift d <> ""
           /\ props !! "ExperiencedRidersOnly"
              = Some (JsonBoolean (CreateStaticDataInput.ExperiencedRidersOnly d))
           /\ props !! "VerticalFeet"
              = Some (JsonNumber (CreateStaticDataInput.VerticalFeet d))
           /\ (0 < CreateStaticDataInput.VerticalFeet d)%Q
           /\ props !! "LiftTime" = Some (JsonString (CreateStaticDataInput.LiftTime d))
           /\ regexTest liftTimeRegex (CreateStaticDataInput.LiftTime d) = true)
  /\ (forall d, createDynamicDataSchema body = Resolved d
     <-> exists props, body = Some (JsonObject props)
           /\ props !! "Lift" = Some (JsonString (CreateDynamicDataInput.Lift d))
           /\ CreateDynamicDataInput.Lift d <> ""
           /\ props !! "Metadata" = Some (JsonString (CreateDynamicDataInput.Metadata d))
           /\ regexTest metadataRegex (CreateDynamicDataInput.Metadata d) = true
           /\ props !! "TotalUniqueLiftRiders"
              = Some (JsonNumber (CreateDynamicDataInput.TotalUniqueLiftRiders d))
           /\ (0 <= CreateDynamicDataInput.TotalUniqueLiftRiders d)%Q
           /\ props !! "AverageSnowCoverageInches"
              = Some (JsonNumber (CreateDynamicDataInput.AverageSnowCoverageInches d))
           /\ (0 <= CreateDynamicDataInput.AverageSnowCoverageInches d)%Q
           /\ props !! "LiftStatus"
              = Some (JsonString (LiftStatus_to_string (CreateDynamicDataInput.LiftStatus d)))
           /\ props !! "AvalancheDanger"
              = Some (JsonString (AvalancheDanger_to_string
                                    (CreateDynamicDataInput.AvalancheDanger d))))
  /\ (forall d, createResortDataSchema body = Resolved d
     <-> exists props, body = Some (JsonObject props)
           /\ props !! "Metadata" = Some (JsonString (CreateResortDataInput.Metadata d))
           /\ regexTest metadataRegex (CreateResortDataInput.Metadata d) = true
           /\ props !! "TotalUniqueLiftRiders"
              = Some (JsonNumber (CreateResortDataInput.TotalUniqueLiftRiders d))
           /\ (0 <= CreateResortDataInput.TotalUniqueLiftRiders d)%Q
           /\ props !! "AverageSnowCoverageInches"
              = Some (JsonNumber (CreateResortDataInput.AverageSnowCoverageInches d))
           /\ (0 <= CreateResortDataInput.AverageSnowCoverageInches d)%Q
           /\ props !! "AvalancheDanger"
              = Some (JsonString (AvalancheDanger_to_string
                                    (CreateResortDataInput.AvalancheDanger d)))
           /\ props !! "OpenLifts"
              = Some (JsonArray (JsonNumber <$> CreateResortDataInput.OpenLifts d))).
Proof.
  split; [|split]; intros d.
  - apply createStaticDataSchema_resolved.
  - apply createDynamicDataSchema_resolved.
  - apply createResortDataSchema_resolved.
Qed.

Lemma optional_field {A} (inner : option Json -> ZodResult A) (enc : A -> Json)
    (ok : A -> Prop) :
  (forall input a, inner input = Resolved a <-> input = Some (enc a) /\ ok a) ->
  forall input r,
    jsonOptional inner input = Resolved r
    <-> input = enc <$> r /\ (forall a, r = Some a -> ok a).
Proof.
  intros Hinner input r. rewrite jsonOptional_resolved. destruct r as [a|]; cbn.
  - rewrite Hinner. split.
    + intros [_ [-> Hok]]. split; [reflexivity|]. intros a' E. injection E as <-. exact Hok.
    + intros [-> Hok]. split; [discriminate|]. split; [reflexivity | apply Hok; reflexivity].
  - split; [intros ->; split; [reflexivity | discriminate] | intros [-> _]; reflexivity].
Qed.

Lemma optional_boolean (path : string) (input : option Json) (r : option bool) :
  jsonOptional (jsonBoolean path) input = Resolved r <-> input = JsonBoolean <$> r.
Proof.
  rewrite (optional_field (jsonBoolean path) JsonBoolean (fun _ => True)).
  - split; [intros [H _]; exact H | intros H; split; [exact H | auto]].
  - intros i a. rewrite jsonBoolean_resolved. tauto.
Qed.

Lemma optional_LiftStatus (path : string) (input : option Json) (r : option LiftStatus) :
  jsonOptional (LiftStatusEnum path) input = Resolved r
  <-> input = (fun v => JsonString (LiftStatus_to_string v)) <$> r.
Proof.
  rewrite (optional_field (LiftStatusEnum path)
             (fun v => JsonString (LiftStatus_to_string v)) (fun _ => True)).
  - split; [intros [H _]; exact H | intros H; split; [exact H | auto]].
  - intros i a. rewrite LiftStatusEnum_resolved. tauto.
Qed.

Lemma optional_AvalancheDanger (path : string) (input : option Json)
    (r : option AvalancheDanger) :
  jsonOptional (AvalancheDangerEnum path) input = Resolved r
  <-> input = (fun v => JsonString (AvalancheDanger_to_string v)) <$> r.
Proof.
  rewrite (optional_field (AvalancheDangerEnum path)
             (fun v => JsonString (AvalancheDanger_to_string v)) (fun _ => True)).
  - split; [intros [H _]; exact H | intros H; split; [exact H | auto]].
  - intros i a. rewrite AvalancheDangerEnum_resolved. tauto.
Qed.

(** X10. The update schemas accept an object in which every property of
    the schema is either missing or valid, and a field of the accepted
    value is present exactly when the body has the property.  A property
    that is [null] is not read as missing: the body is refused. *)
Theorem update_schemas_read_a_field_exactly_when_the_body_has_it (body : option Json) :
  (forall d, updateStaticDataSchema body = Resolved d
     <-> exists props, body = Some (JsonObject props)
           /\ props !! "ExperiencedRidersOnly"
              = JsonBoolean <$> UpdateStaticDataInput.ExperiencedRidersOnly d
           /\ props !! "VerticalFeet"
              = JsonNumber <$> UpdateStaticDataInput.VerticalFeet d
           /\ (forall v, UpdateStaticDataInput.VerticalFeet d = Some v -> (0 < v)%Q)
           /\ props !! "LiftTime" = JsonString <$> UpdateStaticDataInput.LiftTime d
           /\ (forall t, UpdateStaticDataInput.LiftTime d = Some t ->
                         regexTest liftTimeRegex t = true))
  /\ (forall d, updateDynamicDataSchema body = Resolved d
     <-> exists props, body = Some (JsonObject props)
           /\ props !! "TotalUniqueLiftRiders"
              = JsonNumber <$> UpdateDynamicDataInput.TotalUniqueLiftRiders d
           /\ (forall v, UpdateDynamicDataInput.TotalUniqueLiftRiders d = Some v ->
                         (0 <= v)%Q)
           /\ props !! "AverageSnowCoverageInches"
              = JsonNumber <$> UpdateDynamicDataInput.AverageSnowCoverageInches d
           /\ (forall v, UpdateDynamicDataInput.AverageSnowCoverageInches d = Some v ->
                         (0 <= v)%Q)
           /\ props !! "LiftStatus"
              = (fun v => JsonString (LiftStatus_to_string v))
                  <$> UpdateDynamicDataInput.LiftStatus d
           /\ props !! "AvalancheDanger"
              = (fun v => JsonString (AvalancheDanger_to_string v))
                  <$> UpdateDynamicDataInput.AvalancheDanger d).
Proof.
  split; intros d.
  - unfold updateStaticDataSchema, jsonObject. split.
    + destruct body as [[]|]; try discriminate. intros H. exists props.
      apply zodAp_resolved in H as (f2 & t & H & Ht & ->).
      apply zodAp_resolved in H as (f1 & v & H & Hv & ->).
      apply zodMap_resolved in H as (b & Hb & ->).
      apply optional_boolean in Hb.
      apply (optional_field _ JsonNumber (fun v => (0 < v)%Q)
               (jsonNumber_positive "VerticalFeet")) in Hv as [Hv Hpos].
      apply (optional_field _ JsonString (fun t => regexTest liftTimeRegex t = true)
               (jsonString_regex liftTimeRegex "LiftTime")) in Ht as [Ht Hre].
      cbn [UpdateStaticDataInput.ExperiencedRidersOnly UpdateStaticDataInput.VerticalFeet
           UpdateStaticDataInput.LiftTime]. auto 10.
    + intros (props & -> & Hb & Hv & Hpos & Ht & Hre). destruct d as [b v t].
      cbn [UpdateStaticDataInput.ExperiencedRidersOnly UpdateStaticDataInput.VerticalFeet
           UpdateStaticDataInput.LiftTime] in *.
      rewrite (proj2 (optional_boolean "ExperiencedRidersOnly" _ b) Hb).
      rewrite (proj2 (optional_field _ JsonNumber (fun v => (0 < v)%Q)
                        (jsonNumber_positive "VerticalFeet") _ v) (conj Hv Hpos)).
      rewrite (proj2 (optional_field _ JsonString
                        (fun t => regexTest liftTimeRegex t = true)
                        (jsonString_regex liftTimeRegex "LiftTime") _ t) (conj Ht Hre)).
      reflexivity.
  - unfold updateDynamicDataSchema, jsonObject. split.
    + destruct body as [[]|]; try discriminate. intros H. exists props.
      apply zodAp_resolved in H as (f3 & a & H & Ha & ->).
      apply zodAp_resolved in H as (f2 & s & H & Hs & ->).
      apply zodAp_resolved in H as (f1 & c & H & Hc & ->).
      apply zodMap_resolved in H as (r & Hr & ->).
      apply (optional_field _ JsonNumber (fun v => (0 <= v)%Q)
               (jsonNumber_nonnegative "TotalUniqueLiftRiders")) in Hr as [Hr Hr0].
      apply (optional_field _ JsonNumber (fun v => (0 <= v)%Q)
               (jsonNumber_nonnegative "AverageSnowCoverageInches")) in Hc as [Hc Hc0].
      apply optional_LiftStatus in Hs. apply optional_AvalancheDanger in Ha.
      cbn [UpdateDynamicDataInput.TotalUniqueLiftRiders
           UpdateDynamicDataInput.AverageSnowCoverageInches
           UpdateDynamicDataInput.LiftStatus UpdateDynamicDataInput.AvalancheDanger].
      auto 10.
    + intros (props & -> & Hr & Hr0 & Hc & Hc0 & Hs & Ha). destruct d as [r c s a].
      cbn [UpdateDynamicDataInput.TotalUniqueLiftRiders
           UpdateDynamicDataInput.AverageSnowCoverageInches
           UpdateDynamicDataInput.LiftStatus UpdateDynamicDataInput.AvalancheDanger] in *.
      rewrite (proj2 (optional_field _ JsonNumber (fun v => (0 <= v)%Q)
                        (jsonNumber_nonnegative "TotalUniqueLiftRiders") _ r)
                 (conj Hr Hr0)).
      rewrite (proj2 (optional_field _ JsonNumber (fun v => (0 <= v)%Q)
                        (jsonNumber_nonnegative "AverageSnowCoverageInches") _ c)
                 (conj Hc Hc0)).
      rewrite (proj2 (optional_LiftStatus "LiftStatus" _ s) Hs).
      rewrite (proj2 (optional_AvalancheDanger "AvalancheDanger" _ a) Ha).
      reflexivity.
Qed.

Lemma updateStaticDataSchema_without_fields (props : gmap string Json) :
  props !! "ExperiencedRidersOnly" = None ->
  props !! "VerticalFeet" = None ->
  props !! "LiftTime" = None ->
  updateStaticDataSchema (Some (JsonObject props))
  = Resolved (UpdateStaticDataInput.mk None None None).
Proof.
  intros H1 H2 H3. unfold updateStaticDataSchema, jsonObject.
  rewrite H1, H2, H3. reflexivity.
Qed.

Lemma updateDynamicDataSchema_without_fields (props : gmap string Json) :
  props !! "TotalUniqueLiftRiders" = None ->
  props !! "AverageSnowCoverageInches" = None ->
  props !! "LiftStatus" = None ->
  props !! "AvalancheDanger" = None ->
  updateDynamicDataSchema (Some (JsonObject props))
  = Resolved (UpdateDynamicDataInput.mk None None None None).
Proof.
  intros H1 H2 H3 H4. unfold updateDynamicDataSchema, jsonObject.
  rewrite H1, H2, H3, H4. reflexivity.
Qed.

(** X11. An update request whose body has none of the fields of the
    schema passes validation and is answered 500 "No fields to update" with
    code "DYNAMODB_ERROR", not 400; the client is not called. *)
Theorem update_body_without_fields_is_a_storage_failure {St}
    (c : DynamoDBDocumentClient St) (st : St) (params : RawObject)
    (props : gmap string Json) :
  (forall lift,
      liftParamsSchema params = Resolved lift ->
      props !! "ExperiencedRidersOnly" = None ->
      props !! "VerticalFeet" = None ->
      props !! "LiftTime" = None ->
      updateStaticDataRoute c params (Some (JsonObject props)) st
      = (replied (storageFailureReply "No fields to update"), st))
  /\ (forall p,
      liftMetadataParamsSchema params = Resolved p ->
      props !! "TotalUniqueLiftRiders" = None ->
      props !! "AverageSnowCoverageInches" = None ->
      props !! "LiftStatus" = None ->
      props !! "AvalancheDanger" = None ->
      updateDynamicDataRoute c params (Some (JsonObject props)) st
      = (replied (storageFailureReply "No fields to update"), st)).
Proof.
  split.
  - intros lift Hp H1 H2 H3.
    unfold updateStaticDataRoute, routeResponse, updateStaticDataHandler.
    rewrite respond_parse, Hp, respond_parse,
      (updateStaticDataSchema_without_fields props H1 H2 H3).
    reflexivity.
  - intros p Hp H1 H2 H3 H4.
    unfold updateDynamicDataRoute, routeResponse, updateDynamicDataHandler.
    rewrite respond_parse, Hp, respond_parse,
      (updateDynamicDataSchema_without_fields props H1 H2 H3 H4).
    reflexivity.
Qed.

Lemma update_body_without_fields_is_a_storage_failure_witness :
  updateStaticDataRoute ddb {[ "lift" := JsString "Summit Express" ]}
    (Some (JsonObject {[ "Lift" := JsonString "Summit Express" ]})) sampleTable
  = (replied (storageFailureReply "No fields to update"), sampleTable).
Proof.
  apply (proj1 (update_body_without_fields_is_a_storage_failure ddb sampleTable
                  {[ "lift" := JsString "Summit Express" ]}
                  {[ "Lift" := JsonString "Summit Express" ]})
           "Summit Express"); reflexivity.
Defined.

Lemma blank_is_zero (s : string) :
  trimWhiteSpace (list_ascii_of_string s) = [] -> stringToNumber s = Finite 0%Q.
Proof. intros H. unfold stringToNumber. rewrite H. reflexivity. Qed.

(** White space at the start of a string is dropped, whichever character
    of white space it is. *)
Lemma dropWhiteSpace_char (w : list N) (rest : list ascii) :
  w ∈ whiteSpaceChars ->
  dropWhiteSpace id ((ascii_of_N <$> w) ++ rest) = dropWhiteSpace id rest.
Proof.
  intros H. unfold whiteSpaceChars in H.
  repeat (apply elem_of_cons in H as [->|H]; [reflexivity|]).
  apply elem_of_nil in H. contradiction.
Qed.

(** A string made of white space only trims to nothing. *)
Lemma white_space_trims_to_nothing (ws : list (list N)) :
  Forall (fun w => w ∈ whiteSpaceChars) ws ->
  trimWhiteSpace (ascii_of_N <$> concat ws) = [].
Proof.
  intros H. unfold trimWhiteSpace.
  assert (E : dropWhiteSpace id (ascii_of_N <$> concat ws) = []).
  { induction H as [|w ws Hw _ IH]; [reflexivity|].
    cbn [concat]. rewrite fmap_app, (dropWhiteSpace_char w _ Hw). exact IH. }
  rewrite E. reflexivity.
Qed.

Lemma blank_bound (path s : string) :
  stringToNumber s = Finite 0%Q ->
  zodOptional (zodNumber true [nonnegative_] path) (JsString s)
  = Resolved (Some (Finite 0%Q)).
Proof.
  intros H. unfold zodOptional, zodNumber. cbn [toNumber]. rewrite H. reflexivity.
Qed.

Lemma blank_limit (path s : string) :
  stringToNumber s = Finite 0%Q ->
  limitSchema path (JsString s) = Rejected [ZodIssue.mk "too_small" path].
Proof.
  intros H. unfold limitSchema, zodDefault, zodOptional, zodNumber.
  cbn [toNumber]. rewrite H. reflexivity.
Qed.

(** X12. A [minRiders] or [maxRiders] parameter that is empty or made of
    white space (any white space of the language, not only a blank) is
    read exactly as the number 0 is, whatever the other parameters are: as
    the bound 0, not as an absent bound.  A [limit] parameter of that kind
    is refused as too small by both query schemas and does not take the
    default. *)
Theorem blank_rider_bound_is_read_as_zero (raw : RawObject) (s : string) :
  trimWhiteSpace (list_ascii_of_string s) = [] ->
  let zero := JsNumber (Finite 0%Q) in
  (raw !! "minRiders" = Some (JsString s) ->
   queryByRidersSchema raw = queryByRidersSchema (<["minRiders" := zero]> raw)
   /\ (forall q, queryByRidersSchema raw = Resolved q ->
         QueryByRidersParsed.minRiders q = Some (Finite 0%Q))
   /\ (raw !! "maxRiders" = None -> raw !! "limit" = None ->
       queryByRidersSchema raw
       = Resolved (QueryByRidersParsed.mk (Some (Finite 0%Q)) None 20%Q)))
  /\ (raw !! "maxRiders" = Some (JsString s) ->
      queryByRidersSchema raw = queryByRidersSchema (<["maxRiders" := zero]> raw)
      /\ (forall q, queryByRidersSchema raw = Resolved q ->
            QueryByRidersParsed.maxRiders q = Some (Finite 0%Q))
      /\ (raw !! "minRiders" = None -> raw !! "limit" = None ->
          queryByRidersSchema raw
          = Resolved (QueryByRidersParsed.mk None (Some (Finite 0%Q)) 20%Q)))
  /\ (raw !! "limit" = Some (JsString s) ->
      (exists issues,
         listQuerySchema raw = Rejected issues
         /\ ZodIssue.mk "too_small" "limit" ∈ issues)
      /\ (exists issues,
            queryByRidersSchema raw = Rejected issues
            /\ ZodIssue.mk "too_small" "limit" ∈ issues)
      /\ (raw !! "lastEvaluatedLift" = None -> raw !! "lastEvaluatedMetadata" = None ->
          listQuerySchema raw = Rejected [ZodIssue.mk "too_small" "limit"])).
Proof.
  intros Hs zero. apply blank_is_zero in Hs.
  split; [|split]; intros H1.
  - split; [|split].
    + unfold queryByRidersSchema, getProp.
      rewrite lookup_insert_eq, !lookup_insert_ne by discriminate.
      rewrite H1. cbn [default from_option id]. rewrite (blank_bound _ s Hs).
      reflexivity.
    + unfold queryByRidersSchema, getProp. rewrite H1. cbn [default from_option id].
      rewrite (blank_bound _ s Hs). cbn [zodMap].
      destruct (zodOptional _ (default JsUndefined (raw !! "maxRiders"))) as [hi|e1];
        destruct (zodMap limitValue _) as [l|e2]; cbn [zodAp]; intros q Hq;
        try discriminate Hq.
      injection Hq as <-. reflexivity.
    + intros H2 H3. unfold queryByRidersSchema, getProp. rewrite H1, H2, H3.
      cbn [default from_option id]. rewrite (blank_bound _ s Hs). reflexivity.
  - split; [|split].
    + unfold queryByRidersSchema, getProp.
      rewrite lookup_insert_eq, !lookup_insert_ne by discriminate.
      rewrite H1. cbn [default from_option id]. rewrite (blank_bound _ s Hs).
      reflexivity.
    + unfold queryByRidersSchema, getProp. rewrite H1. cbn [default from_option id].
      rewrite (blank_bound _ s Hs).
      destruct (zodOptional _ (default JsUndefined (raw !! "minRiders"))) as [lo|e1];
        destruct (zodMap limitValue _) as [l|e2]; cbn [zodAp zodMap]; intros q Hq;
        try discriminate Hq.
      injection Hq as <-. reflexivity.
    + intros H2 H3. unfold queryByRidersSchema, getProp. rewrite H1, H2, H3.
      cbn [default from_option id]. rewrite (blank_bound _ s Hs). reflexivity.
  - split; [|split].
    + unfold listQuerySchema, getProp. rewrite H1. cbn [default from_option id].
      rewrite (blank_limit _ s Hs). cbn [zodMap].
      destruct (zodOptional _ (default JsUndefined (raw !! "lastEvaluatedLift")))
        as [a|e1];
        destruct (zodOptional _ (default JsUndefined (raw !! "lastEvaluatedMetadata")))
          as [b|e2]; cbn [zodAp]; eexists; (split; [reflexivity|]);
        rewrite ?elem_of_app, ?elem_of_cons; auto.
    + unfold queryByRidersSchema, getProp. rewrite H1. cbn [default from_option id].
      rewrite (blank_limit _ s Hs). cbn [zodMap].
      destruct (zodOptional _ (default JsUndefined (raw !! "minRiders"))) as [a|e1];
        destruct (zodOptional _ (default JsUndefined (raw !! "maxRiders"))) as [b|e2];
        cbn [zodAp zodMap]; eexists; (split; [reflexivity|]);
        rewrite ?elem_of_app, ?elem_of_cons; auto.
    + intros H2 H3. unfold listQuerySchema, getProp. rewrite H1, H2, H3.
      cbn [default from_option id]. rewrite (blank_limit _ s Hs). reflexivity.
Qed.

Lemma blank_rider_bound_is_read_as_zero_witness :
  let s := String (ascii_of_N 194) (String (ascii_of_N 160) " ") in
  queryByRidersSchema {[ "minRiders" := JsString s ]}
  = Resolved (QueryByRidersParsed.mk (Some (Finite 0%Q)) None 20%Q).
Proof.
  intros s.
  assert (Hs : trimWhiteSpace (list_ascii_of_string s) = [])
    by exact (white_space_trims_to_nothing [[194; 160]; [32]]%N
                ltac:(repeat constructor; unfold whiteSpaceChars;
                      rewrite !elem_of_cons; auto 30)).
  apply (proj1 (blank_rider_bound_is_read_as_zero {[ "minRiders" := JsString s ]} s Hs));
    reflexivity.
Defined.

(* ------------------------------------------------------------------ *)
(** ** The handlers on the store *)

Lemma put_ddb {A} (item : A) (m : AttributeMap) (l k msg : string) (tbl : Table) :
  keyOfItem m = Some (Key.mk l k) -> indexKeyOk m = true ->
  tryCatch
    (await _ <- send ddb (PutCommand (PutCommandInput.mk TABLE_NAME m)) ;
     ret item)
    (fun error => throw (ThrownApp (DynamoDBError msg (Some error)))) tbl
  = (Resolved item, <[(l, k) := m]> tbl).
Proof.
  intros Hk Hi. rewrite (create_any_client ddb item m msg tbl).
  unfold ddb. cbn [commandTable PutCommandInput.TableName].
  change (String.eqb TABLE_NAME TABLE_NAME) with true. cbn [negb].
  rewrite (ddbPut_accepts m l k tbl Hk Hi). reflexivity.
Qed.

Lemma createStaticData_ddb (data : CreateStaticDataInput.t) (tbl : Table) :
  CreateStaticDataInput.Lift data <> "" ->
  createStaticData ddb data tbl
  = (Resolved (staticRecord data),
     <[(CreateStaticDataInput.Lift data, "Static Data")
         := marshalStatic (staticRecord data)]> tbl).
Proof.
  intros Hl. apply put_ddb; [|reflexivity].
  rewrite keyOfItem_static. cbn [staticRecord SkiLiftStaticData.Lift
                                 SkiLiftStaticData.Metadata].
  rewrite (static_key_valid _ Hl). reflexivity.
Qed.

Lemma createDynamicData_ddb (data : CreateDynamicDataInput.t) (tbl : Table) :
  CreateDynamicDataInput.Lift data <> "" ->
  CreateDynamicDataInput.Metadata data <> "" ->
  createDynamicData ddb data tbl
  = (Resolved (dynamicRecord data),
     <[(CreateDynamicDataInput.Lift data, CreateDynamicDataInput.Metadata data)
         := marshalDynamic (dynamicRecord data)]> tbl).
Proof.
  intros Hl Hm. apply put_ddb; [|reflexivity].
  rewrite keyOfItem_dynamic. cbn [dynamicRecord SkiLiftDynamicData.Lift
                                  SkiLiftDynamicData.Metadata].
  rewrite (proj2 (validKey_iff _ _) (conj Hl Hm)). reflexivity.
Qed.

Lemma createResortData_ddb (data : CreateResortDataInput.t) (tbl : Table) :
  CreateResortDataInput.Metadata data <> "" ->
  createResortData ddb data tbl
  = (Resolved (resortRecord data),
     <[("Resort Data", CreateResortDataInput.Metadata data)
         := marshalResort (resortRecord data)]> tbl).
Proof.
  intros Hm. apply put_ddb; [|reflexivity].
  rewrite keyOfItem_resort. cbn [resortRecord ResortData.Lift ResortData.Metadata].
  assert (Hv : validKey (Key.mk "Resort Data" (CreateResortDataInput.Metadata data))
               = true)
    by (apply validKey_iff; split; [discriminate | exact Hm]).
  rewrite Hv. reflexivity.
Qed.

Lemma deleteSkiLift_ddb (lift metadata : string) (tbl : Table) :
  lift <> "" -> metadata <> "" ->
  deleteSkiLift ddb lift metadata tbl = (Resolved tt, delete (lift, metadata) tbl).
Proof.
  intros Hl Hm. rewrite deleteSkiLift_any_client.
  unfold ddb. cbn [commandTable DeleteCommandInput.TableName].
  change (String.eqb TABLE_NAME TABLE_NAME) with true. cbn [negb].
  unfold ddbDelete. cbn [DeleteCommandInput.Key Key.Lift Key.Metadata].
  rewrite (proj2 (validKey_iff lift metadata) (conj Hl Hm)). reflexivity.
Qed.

Lemma recordParams_accepted (lift metadata : string) :
  lift <> "" -> metadata <> "" ->
  liftMetadataParamsSchema (recordParams lift metadata) = Resolved (lift, metadata).
Proof.
  intros Hl Hm. unfold liftMetadataParamsSchema, recordParams, getProp.
  assert (E1 : ({[ "lift" := JsString lift; "metadata" := JsString metadata ]}
                  : RawObject) !! "lift" = Some (JsString lift))
    by (vm_cast_no_check (eq_refl (Some (JsString lift)))).
  assert (E2 : ({[ "lift" := JsString lift; "metadata" := JsString metadata ]}
                  : RawObject) !! "metadata" = Some (JsString metadata))
    by (vm_cast_no_check (eq_refl (Some (JsString metadata)))).
  rewrite E1, E2. cbn [default from_option id zodString].
  destruct lift as [|c1 l]; [contradiction|].
  destruct metadata as [|c2 m]; [contradiction|]. reflexivity.
Qed.

Lemma metadata_pattern_facts (s : string) :
  regexTest metadataRegex s = true -> s <> "" /\ s <> "Static Data".
Proof.
  intros H. split; intros ->; vm_compute in H; discriminate H.
Qed.

(** X13. On the store, deleting a key with non-empty strings resolves
    whether or not a record is there, and the handler answers 204 with no
    payload.  The record is gone, every other record is untouched, a table
    without the record is left as it was, a lookup of the key afterwards is
    a not-found failure, and deleting again resolves and changes nothing. *)
Theorem delete_removes_the_record_and_nothing_else
    (tbl : Table) (lift metadata : string) :
  lift <> "" -> metadata <> "" ->
  let tbl' := delete (lift, metadata) tbl in
  deleteSkiLift ddb lift metadata tbl = (Resolved tt, tbl')
  /\ deleteSkiLiftRoute ddb (recordParams lift metadata) tbl
     = (Response.mk 204%Z None, tbl')
  /\ (tbl !! (lift, metadata) = None -> tbl' = tbl)
  /\ (forall k, k <> (lift, metadata) -> tbl' !! k = tbl !! k)
  /\ getSkiLift ddb lift metadata tbl'
     = (Rejected (ThrownApp (NotFoundError
          (Some ("Ski lift data not found for " ++ lift ++ " - " ++ metadata)))), tbl')
  /\ deleteSkiLift ddb lift metadata tbl' = (Resolved tt, tbl').
Proof.
  intros Hl Hm tbl'.
  assert (Hd : deleteSkiLift ddb lift metadata tbl = (Resolved tt, tbl'))
    by (apply deleteSkiLift_ddb; assumption).
  split; [exact Hd|]. split; [|split; [|split; [|split]]].
  - unfold deleteSkiLiftRoute.
    rewrite respond_parse, (recordParams_accepted lift metadata Hl Hm),
      respond_service. cbn [fst snd]. rewrite Hd. reflexivity.
  - intros Hn. apply delete_id. exact Hn.
  - intros k Hk. apply lookup_delete_ne. congruence.
  - rewrite (getSkiLift_ddb lift metadata tbl' Hl Hm).
    unfold tbl'. rewrite lookup_delete_eq. reflexivity.
  - rewrite (deleteSkiLift_ddb lift metadata tbl' Hl Hm).
    unfold tbl'. rewrite delete_delete_eq. reflexivity.
Qed.

Lemma delete_removes_the_record_and_nothing_else_witness :
  deleteSkiLift ddb "Summit Express" "01/15/24" sampleTable
  = (Resolved tt, delete ("Summit Express", "01/15/24") sampleTable).
Proof.
  exact (proj1 (delete_removes_the_record_and_nothing_else sampleTable
                  "Summit Express" "01/15/24" ltac:(discriminate) ltac:(discriminate))).
Defined.





(** X15. On the store, an update with at least one field resolves with
    the whole record after the update, and a lookup of the key afterwards
    returns that record. *)
Theorem updated_record_is_what_get_returns
    (tbl : Table) (lift metadata : string)
    (s : UpdateStaticDataInput.t) (d : UpdateDynamicDataInput.t) :
  lift <> "" -> metadata <> "" ->
  (suppliedStatic s <> [] ->
   exists new tbl',
     updateStaticData ddb lift s tbl = (Resolved (Some new), tbl')
     /\ getSkiLift ddb lift "Static Data" tbl' = (Resolved new, tbl'))
  /\ (suppliedDynamic d <> [] ->
      exists new tbl',
        updateDynamicData ddb lift metadata d tbl = (Resolved (Some new), tbl')
        /\ getSkiLift ddb lift metadata tbl' = (Resolved new, tbl')).
Proof.
  intros Hl Hm. split; intros Hs.
  - eexists _, _. split; [apply (updateStaticData_ddb lift s tbl Hl Hs)|].
    rewrite (getSkiLift_ddb lift "Static Data" _ Hl ltac:(discriminate)).
    rewrite lookup_insert_eq. reflexivity.
  - eexists _, _. split; [apply (updateDynamicData_ddb lift metadata d tbl Hl Hm Hs)|].
    rewrite (getSkiLift_ddb lift metadata _ Hl Hm).
    rewrite lookup_insert_eq. reflexivity.
Qed.

Lemma updated_record_is_what_get_returns_witness :
  exists new tbl',
    updateStaticData ddb "Summit Express"
      (UpdateStaticDataInput.mk None (Some 2600%Q) None) sampleTable
    = (Resolved (Some new), tbl')
    /\ getSkiLift ddb "Summit Express" "Static Data" tbl' = (Resolved new, tbl').
Proof.
  apply (proj1 (updated_record_is_what_get_returns sampleTable "Summit Express"
                  "01/15/24" (UpdateStaticDataInput.mk None (Some 2600%Q) None)
                  (UpdateDynamicDataInput.mk None None None None)
                  ltac:(discriminate) ltac:(discriminate))).
  discriminate.
Defined.

(** X16. On the store, the create handlers keep to the keys of their
    kind, whatever the body: creating a static record leaves every record
    whose [Metadata] is not "Static Data" as it was, creating a dynamic or
    a resort record leaves every static record as it was, and creating a
    resort record leaves every lift other than "Resort Data" as it was. *)
Theorem create_routes_keep_to_their_kind
    (tbl : Table) (body : option Json) (l m : string) :
  (m <> "Static Data" ->
   (createStaticDataRoute ddb body tbl).2 !! (l, m) = tbl !! (l, m))
  /\ (m = "Static Data" ->
      (createDynamicDataRoute ddb body tbl).2 !! (l, m) = tbl !! (l, m)
      /\ (createResortDataRoute ddb body tbl).2 !! (l, m) = tbl !! (l, m))
  /\ (l <> "Resort Data" ->
      (createResortDataRoute ddb body tbl).2 !! (l, m) = tbl !! (l, m)).
Proof.
  assert (Hstatic : m <> "Static Data" ->
            (createStaticDataRoute ddb body tbl).2 !! (l, m) = tbl !! (l, m)).
  { intros Hm. unfold createStaticDataRoute, route, createStaticDataHandler. cbn [snd].
    rewrite handle_parse.
    destruct (createStaticDataSchema body) as [d|issues] eqn:Hd; [|reflexivity].
    pose proof (proj1 (createStaticDataSchema_resolved body d) Hd)
      as (props & _ & _ & Hl & _).
    rewrite handle_service, (createStaticData_ddb d tbl Hl). cbn [snd].
    apply lookup_insert_ne. congruence. }
  assert (Hdynamic : m = "Static Data" ->
            (createDynamicDataRoute ddb body tbl).2 !! (l, m) = tbl !! (l, m)).
  { intros ->. unfold createDynamicDataRoute, route, createDynamicDataHandler. cbn [snd].
    rewrite handle_parse.
    destruct (createDynamicDataSchema body) as [d|issues] eqn:Hd; [|reflexivity].
    pose proof (proj1 (createDynamicDataSchema_resolved body d) Hd)
      as (props & _ & _ & Hl & _ & Hre & _).
    destruct (metadata_pattern_facts _ Hre) as [Hm Hns].
    rewrite handle_service, (createDynamicData_ddb d tbl Hl Hm). cbn [snd].
    apply lookup_insert_ne. congruence. }
  assert (Hresort : m = "Static Data" \/ l <> "Resort Data" ->
            (createResortDataRoute ddb body tbl).2 !! (l, m) = tbl !! (l, m)).
  { intros Hk. unfold createResortDataRoute, route, createResortDataHandler. cbn [snd].
    rewrite handle_parse.
    destruct (createResortDataSchema body) as [d|issues] eqn:Hd; [|reflexivity].
    pose proof (proj1 (createResortDataSchema_resolved body d) Hd)
      as (props & _ & _ & Hre & _).
    destruct (metadata_pattern_facts _ Hre) as [Hm Hns].
    rewrite handle_service, (createResortData_ddb d tbl Hm). cbn [snd].
    apply lookup_insert_ne. destruct Hk as [-> | Hk]; congruence. }
  split; [exact Hstatic|]. split.
  - intros Hm. split; [apply Hdynamic; exact Hm | apply Hresort; left; exact Hm].
  - intros Hl. apply Hresort. right. exact Hl.
Qed.

Lemma project_lookup (attrs : list string) (item : AttributeMap) (a : string) :
  project attrs item !! a = if decide (a ∈ attrs) then item !! a else None.
Proof.
  unfold project. induction attrs as [|b attrs IH].
  - cbn. rewrite lookup_empty. destruct (decide (a ∈ [])) as [H|]; [|reflexivity].
    apply elem_of_nil in H. contradiction.
  - cbn [omap list_omap].
    assert (Hin : a ∈ b :: attrs <-> a = b \/ a ∈ attrs) by apply elem_of_cons.
    destruct (item !! b) as [v|] eqn:Hb; cbn [fmap option_fmap option_map].
    + cbn [list_to_map foldr fst snd].
      destruct (decide (a = b)) as [->|Hab].
      * rewrite lookup_insert_eq, Hb.
        destruct (decide (b ∈ b :: attrs)) as [_|H]; [reflexivity|].
        exfalso. apply H. left.
      * rewrite lookup_insert_ne by congruence. rewrite IH.
        destruct (decide (a ∈ attrs)), (decide (a ∈ b :: attrs)); tauto.
    + rewrite IH. destruct (decide (a = b)) as [->|Hab].
      * rewrite Hb. destruct (decide (b ∈ attrs)), (decide (b ∈ b :: attrs)); reflexivity.
      * destruct (decide (a ∈ attrs)), (decide (a ∈ b :: attrs)); tauto.
Qed.

Lemma marshalStatic_has_no_riders (s : SkiLiftStaticData.t) :
  marshalStatic s !! "TotalUniqueLiftRiders" = None.
Proof. vm_cast_no_check (eq_refl (@None AttributeValue)). Qed.

(** X17. What [queryByRiders] returns are entries of the index, not the
    records: each returned item is the projection on [Lift],
    [TotalUniqueLiftRiders] and [Metadata] of a stored record of the lift
    that carries a numeric rider count.  It agrees with that record on
    these three attributes and has no other attribute.  A record as
    [createStaticData] writes it has no rider count, so it is never among
    the results. *)
Theorem queryByRiders_returns_index_entries
    (tbl : Table) (lift : string) (query : QueryByRidersInput.t)
    (r : PaginatedResponse.t) :
  outcome (queryByRiders ddb lift query) tbl = Resolved r ->
  forall item, item ∈ PaginatedResponse.items r ->
    exists m full x,
      tbl !! (lift, m) = Some full
      /\ full !! "TotalUniqueLiftRiders" = Some (AttrN x)
      /\ item = project indexAttributes full
      /\ (forall a, a ∈ indexAttributes -> item !! a = full !! a)
      /\ (forall a, a ∉ indexAttributes -> item !! a = None)
      /\ (forall s, full <> marshalStatic s).
Proof.
  intros Hr item Hin. unfold outcome in Hr. rewrite queryByRiders_ddb in Hr.
  destruct (limitOf (QueryByRidersInput.limit query)) as [n|]; [|discriminate Hr].
  destruct (wellFormedCond Qle_bool (ridersCondition query)); [|discriminate Hr].
  cbn [fst] in Hr. injection Hr as <-.
  cbn [paginated page PaginatedResponse.items Output.Items orElse default
       from_option id] in Hin.
  apply subseteq_take in Hin.
  apply list_elem_of_In, in_rev, list_elem_of_In in Hin.
  apply list_elem_of_fmap in Hin as (e & -> & He).
  apply list_elem_of_filter in He as [_ He].
  destruct (indexEntries_elem_of tbl lift e He) as (_ & m & full & Hfull & Hx & Hp).
  exists m, full, e.1. split; [exact Hfull|]. split; [exact Hx|].
  split; [exact Hp|]. rewrite Hp. split; [|split].
  - intros a Ha. rewrite project_lookup. destruct (decide _); [reflexivity|contradiction].
  - intros a Ha. rewrite project_lookup. destruct (decide _); [contradiction|reflexivity].
  - intros s ->. rewrite marshalStatic_has_no_riders in Hx. discriminate Hx.
Qed.

Lemma queryByRiders_returns_index_entries_witness :
  exists r item,
    outcome (queryByRiders ddb "Summit Express" (QueryByRidersInput.mk None None 20%Q))
      sampleTable = Resolved r
    /\ item ∈ PaginatedResponse.items r
    /\ item !! "Metadata" = Some (AttrS "01/17/24")
    /\ item !! "LiftStatus" = None.
Proof.
  pose (query := QueryByRidersInput.mk None None 20%Q).
  pose (r := paginated (page indexAttributes 20
                 (rev (snd <$> filter (fun e => ridersInRange query e.1 = true)
                                 (indexEntries sampleTable "Summit Express"))))).
  pose (item := project indexAttributes
                  (marshalDynamic (dynamicRecord sameRidersDynamicData))).
  assert (Hr : outcome (queryByRiders ddb "Summit Express" query) sampleTable
               = Resolved r)
    by (vm_cast_no_check (eq_refl (Resolved (E := Thrown) r))).
  assert (Hin : item ∈ PaginatedResponse.items r).
  { apply (list_elem_of_lookup_2 _ 0%nat). vm_cast_no_check (eq_refl (Some item)). }
  exists r, item. split; [exact Hr|]. split; [exact Hin|].
  split; [vm_cast_no_check (eq_refl (Some (AttrS "01/17/24")))|].
  destruct (queryByRiders_returns_index_entries sampleTable "Summit Express" query r
              Hr item Hin) as (m & full & x & _ & _ & _ & _ & Hnone & _).
  apply Hnone. unfold indexAttributes. intros H.
  repeat (apply elem_of_cons in H as [H|H]; [discriminate H|]).
  apply elem_of_nil in H. exact H.
Defined.

(** X18. Bounds given the wrong way round ([maxRiders] below [minRiders],
    neither negative) pass the validation of the query, which compares no
    field with another; the store refuses the key condition, and
    [queryByRiders] rejects with the storage failure "Failed to query by
    riders", which a handler answers with 500. *)
Theorem inverted_rider_bounds_pass_validation_and_fail_in_the_store
    (tbl : Table) (lift : string) (lo hi : number) :
  (0 <= hi)%Q -> (hi < lo)%Q ->
  let failure :=
    ThrownApp (DynamoDBError "Failed to query by riders"
                 (Some (ThrownJs (ValidationException "Invalid BETWEEN bounds")))) in
  queryByRidersSchema {[ "minRiders" := JsNumber (Finite lo);
                         "maxRiders" := JsNumber (Finite hi) ]}
  = Resolved (QueryByRidersParsed.mk (Some (Finite lo)) (Some (Finite hi)) 20%Q)
  /\ queryByRiders ddb lift (QueryByRidersInput.mk (Some lo) (Some hi) 20%Q) tbl
     = (Rejected failure, tbl)
  /\ replyError failure = storageFailureReply "Failed to query by riders".
Proof.
  intros Hhi Hlt failure.
  assert (Hlo : (0 <= lo)%Q) by (apply Qlt_le_weak; eapply Qle_lt_trans; eassumption).
  split; [|split; [|reflexivity]].
  - unfold queryByRidersSchema, getProp.
    set (raw := ({[ "minRiders" := JsNumber (Finite lo);
                    "maxRiders" := JsNumber (Finite hi) ]} : RawObject)).
    assert (E1 : raw !! "minRiders" = Some (JsNumber (Finite lo)))
      by (vm_cast_no_check (eq_refl (Some (JsNumber (Finite lo))))).
    assert (E2 : raw !! "maxRiders" = Some (JsNumber (Finite hi)))
      by (vm_cast_no_check (eq_refl (Some (JsNumber (Finite hi))))).
    assert (E3 : raw !! "limit" = None)
      by (vm_cast_no_check (eq_refl (@None JsValue))).
    rewrite E1, E2, E3. cbn [default from_option id zodOptional].
    unfold zodNumber. cbn [toNumber map concat numberCheckIssue nonnegative_ jsLt].
    unfold num_lt.
    rewrite (proj2 (Qle_bool_iff 0 lo) Hlo), (proj2 (Qle_bool_iff 0 hi) Hhi).
    reflexivity.
  - rewrite queryByRiders_ddb. cbn [QueryByRidersInput.limit].
    change (limitOf 20%Q) with (Some 20%nat). cbn iota.
    assert (Hle : wellFormedCond Qle_bool
                    (ridersCondition (QueryByRidersInput.mk (Some lo) (Some hi) 20%Q))
                  = false).
    { cbn. destruct (Qle_bool lo hi) eqn:E; [|reflexivity].
      apply Qle_bool_iff in E. exfalso. exact (Qlt_not_le _ _ Hlt E). }
    rewrite Hle. reflexivity.
Qed.

Lemma inverted_rider_bounds_pass_validation_and_fail_in_the_store_witness :
  queryByRiders ddb "Summit Express"
    (QueryByRidersInput.mk (Some 1500%Q) (Some 1000%Q) 20%Q) sampleTable
  = (Rejected (ThrownApp (DynamoDBError "Failed to query by riders"
                 (Some (ThrownJs (ValidationException "Invalid BETWEEN bounds"))))),
     sampleTable).
Proof.
  exact (proj1 (proj2 (inverted_rider_bounds_pass_validation_and_fail_in_the_store
                         sampleTable "Summit Express" 1500%Q 1000%Q
                         ltac:(discriminate) ltac:(reflexivity)))).
Defined.

Lemma key_leb_refl (a : string * string) : key_leb a a = true.
Proof.
  unfold key_leb. rewrite String.eqb_refl.
  destruct (String.leb_total a.2 a.2); assumption.
Qed.

Lemma key_leb_total (a b : string * string) : key_leb a b = true \/ key_leb b a = true.
Proof.
  unfold key_leb. rewrite (String.eqb_sym b.1 a.1).
  destruct (String.eqb a.1 b.1); apply String.leb_total.
Qed.

Lemma key_leb_antisym (a b : string * string) :
  key_leb a b = true -> key_leb b a = true -> a = b.
Proof.
  unfold key_leb. rewrite (String.eqb_sym b.1 a.1).
  destruct a as [a1 a2], b as [b1 b2]. cbn [fst snd].
  destruct (String.eqb_spec a1 b1) as [->|Hne]; intros H1 H2.
  - f_equal. apply String.leb_antisym; assumption.
  - exfalso. apply Hne. apply String.leb_antisym; assumption.
Qed.

Lemma key_leb_trans (a b c : string * string) :
  key_leb a b = true -> key_leb b c = true -> key_leb a c = true.
Proof.
  unfold key_leb. destruct a as [a1 a2], b as [b1 b2], c as [c1 c2]. cbn [fst snd].
  destruct (String.eqb_spec a1 b1) as [Eab|Hab];
    destruct (String.eqb_spec b1 c1) as [Ebc|Hbc]; intros H1 H2.
  - subst. rewrite String.eqb_refl. eapply String_leb_trans; eassumption.
  - subst. rewrite (proj2 (String.eqb_neq _ _) Hbc). exact H2.
  - subst. rewrite (proj2 (String.eqb_neq _ _) Hab). exact H1.
  - destruct (String.eqb_spec a1 c1) as [Eac|Hac].
    + subst. exfalso. apply Hab. apply String.leb_antisym; assumption.
    + eapply String_leb_trans; eassumption.
Qed.

Lemma insertBy_Permutation {A} (leb : A -> A -> bool) (x : A) (l : list A) :
  insertBy leb x l ≡ₚ x :: l.
Proof.
  induction l as [|y l IH]; cbn; [reflexivity|].
  destruct (leb x y); [reflexivity|]. rewrite IH. apply Permutation_swap.
Qed.

Lemma sortBy_Permutation {A} (leb : A -> A -> bool) (l : list A) : sortBy leb l ≡ₚ l.
Proof.
  unfold sortBy. induction l as [|x l IH]; cbn; [reflexivity|].
  rewrite insertBy_Permutation, IH. reflexivity.
Qed.

Lemma scanEntries_sorted (tbl : Table) :
  StronglySorted (fun a b : (string * string) * AttributeMap => key_leb a.1 b.1 = true)
    (scanEntries tbl).
Proof.
  unfold scanEntries. apply sortBy_sorted.
  - intros x y. apply key_leb_total.
  - intros x y z. apply key_leb_trans.
Qed.

Lemma scanEntries_NoDup (tbl : Table) : NoDup (fst <$> scanEntries tbl).
Proof.
  unfold scanEntries. rewrite sortBy_Permutation. apply NoDup_fst_map_to_list.
Qed.

Lemma scanEntries_lookup (tbl : Table) (j : nat) (k : string * string)
    (item : AttributeMap) :
  scanEntries tbl !! j = Some (k, item) -> tbl !! k = Some item.
Proof.
  intros H. apply list_elem_of_lookup_2 in H. unfold scanEntries in H.
  rewrite sortBy_elem_of in H. apply elem_of_map_to_list in H. exact H.
Qed.

Lemma filter_all_true {A} (P : A -> Prop) `{forall x, Decision (P x)} (l : list A) :
  Forall P l -> filter P l = l.
Proof.
  induction 1 as [|x l Hx Hl IH]; [reflexivity|].
  rewrite filter_cons. destruct (decide (P x)); [|contradiction].
  rewrite IH. reflexivity.
Qed.

(** In a list sorted by distinct keys, the entries whose key is above that
    of the entry at position [j] are the entries after position [j]. *)
Lemma filter_above {A} (l : list ((string * string) * A)) (j : nat)
    (e : (string * string) * A) :
  StronglySorted (fun a b => key_leb a.1 b.1 = true) l ->
  NoDup (fst <$> l) ->
  l !! j = Some e ->
  filter (fun x => key_leb x.1 e.1 = false) l = drop (S j) l.
Proof.
  intros Hs. revert j. induction Hs as [|x l Hs IH Hx]; intros j Hnd Hj.
  - discriminate Hj.
  - cbn [fmap list_fmap] in Hnd. apply NoDup_cons in Hnd as [Hnin Hnd].
    rewrite filter_cons. destruct j as [|j].
    + cbn in Hj. injection Hj as <-.
      rewrite key_leb_refl. destruct (decide (true = false)) as [H|_]; [discriminate H|].
      cbn [drop]. apply filter_all_true.
      rewrite Forall_forall in Hx |- *. intros y Hy.
      destruct (key_leb y.1 x.1) eqn:E; [|reflexivity].
      exfalso. apply Hnin. apply list_elem_of_fmap. exists y. split; [|exact Hy].
      apply key_leb_antisym; [apply Hx; exact Hy | exact E].
    + cbn in Hj.
      assert (Hxe : key_leb x.1 e.1 = true).
      { rewrite Forall_forall in Hx. apply Hx. eapply list_elem_of_lookup_2. exact Hj. }
      rewrite Hxe. destruct (decide (true = false)) as [H|_]; [discriminate H|].
      cbn [drop]. apply IH; assumption.
Qed.

Lemma orZero_count (n : nat) :
  orZero (Some (inject_Z (Z.of_nat n))) = inject_Z (Z.of_nat n).
Proof. destruct n; reflexivity. Qed.

Lemma last_take {A} (n : nat) (l : list A) :
  (1 <= n <= List.length l)%nat -> last (take n l) = l !! (n - 1)%nat.
Proof.
  intros Hn. rewrite last_lookup, length_take.
  replace (Init.Nat.pred (n `min` List.length l)) with (n - 1)%nat by lia.
  apply lookup_take_lt. lia.
Qed.

Lemma project_key (tbl : Table) (l m : string) (item : AttributeMap) :
  wfTable tbl -> tbl !! (l, m) = Some item ->
  project ["Lift"; "Metadata"] item = keyItem (Key.mk l m) /\ l <> "" /\ m <> "".
Proof.
  intros Hwf Hi. apply Hwf in Hi. unfold keyOfItem in Hi.
  destruct (item !! "Lift") as [[l'| | |]|] eqn:El; try discriminate Hi.
  destruct (item !! "Metadata") as [[m'| | |]|] eqn:Em; try discriminate Hi.
  destruct (validKey (Key.mk l' m')) eqn:Ev; [|discriminate Hi].
  injection Hi as -> ->. apply validKey_iff in Ev as [Hl Hm].
  split; [|split; assumption].
  unfold project. cbn [omap list_omap]. rewrite El, Em. reflexivity.
Qed.

(** What [listSkiLifts] does on the store with an admissible limit. *)
Lemma listSkiLifts_ddb (query : ListQueryInput.t) (tbl : Table) (n : nat) :
  limitOf (ListQueryInput.limit query) = Some n ->
  listSkiLifts ddb query tbl
  = (Resolved
       (paginated
          (page ["Lift"; "Metadata"] n
             (snd <$> match ScanCommandInput.ExclusiveStartKey (listSkiLiftsParams query) with
                      | None => scanEntries tbl
                      | Some k =>
                          filter (fun e => key_leb e.1 (Key.Lift k, Key.Metadata k) = false)
                                 (scanEntries tbl)
                      end))), tbl).
Proof.
  intros Hn. rewrite listSkiLifts_any_client.
  unfold ddb. cbn [commandTable]. rewrite listSkiLiftsParams_table.
  change (String.eqb TABLE_NAME TABLE_NAME) with true. cbn [negb].
  unfold ddbScan.
  assert (Hl : ScanCommandInput.Limit (listSkiLiftsParams query)
               = ListQueryInput.limit query).
  { unfold listSkiLiftsParams. destruct (_ && _); reflexivity. }
  rewrite Hl, Hn. reflexivity.
Qed.

(** The page of candidates that are the table from position [start] on. *)
Lemma page_of_drop (tbl : Table) (n start : nat) :
  wfTable tbl -> (1 <= n)%nat ->
  paginated (page ["Lift"; "Metadata"] n (snd <$> drop start (scanEntries tbl)))
  = scanPage tbl n start.
Proof.
  intros Hwf Hn. unfold paginated, page, scanPage.
  cbn [Output.Items Output.LastEvaluatedKey Output.Count orElse default from_option id].
  rewrite orZero_count, fmap_drop. f_equal.
  rewrite length_drop, length_fmap.
  set (E := scanEntries tbl).
  destruct (Nat.leb_spec n (List.length E - start)) as [Hle|Hgt];
    destruct (Nat.leb_spec (start + n) (List.length E)) as [Hle'|Hgt'];
    try lia; try reflexivity.
  rewrite last_take by (rewrite length_drop, length_fmap; lia).
  rewrite lookup_drop, list_lookup_fmap.
  replace (start + (n - 1))%nat with (start + n - 1)%nat by lia.
  destruct (E !! (start + n - 1)%nat) as [[[l m] item]|] eqn:Ee; [|reflexivity].
  cbn [fmap option_fmap option_map fst snd]. f_equal.
  apply (project_key tbl l m item Hwf). eapply scanEntries_lookup. exact Ee.
Qed.

(** Without cursor the scan starts at the first record. *)
Lemma listSkiLifts_first (tbl : Table) (limit : number) (n : nat) :
  wfTable tbl -> limitOf limit = Some n ->
  listSkiLifts ddb (ListQueryInput.mk limit None None) tbl
  = (Resolved (scanPage tbl n 0), tbl).
Proof.
  intros Hwf Hn. pose proof (limitOf_positive _ _ Hn) as Hpos.
  rewrite (listSkiLifts_ddb (ListQueryInput.mk limit None None) tbl n Hn).
  change (ScanCommandInput.ExclusiveStartKey
            (listSkiLiftsParams (ListQueryInput.mk limit None None))) with (@None Key.t).
  cbn iota. rewrite <- (page_of_drop tbl n 0 Hwf Hpos). reflexivity.
Qed.

(** With the key of a stored record as cursor the scan starts after that
    record. *)
Lemma listSkiLifts_resume (tbl : Table) (limit : number) (n j : nat)
    (l m : string) (item : AttributeMap) :
  wfTable tbl -> limitOf limit = Some n ->
  scanEntries tbl !! j = Some ((l, m), item) ->
  listSkiLifts ddb (ListQueryInput.mk limit (Some l) (Some m)) tbl
  = (Resolved (scanPage tbl n (S j)), tbl).
Proof.
  intros Hwf Hn Hj. pose proof (limitOf_positive _ _ Hn) as Hpos.
  destruct (project_key tbl l m item Hwf (scanEntries_lookup tbl j _ _ Hj))
    as (_ & Hl & Hm).
  rewrite (listSkiLifts_ddb (ListQueryInput.mk limit (Some l) (Some m)) tbl n Hn).
  unfold listSkiLiftsParams.
  cbn [ListQueryInput.lastEvaluatedLift ListQueryInput.lastEvaluatedMetadata
       truthyString].
  rewrite (proj2 (String.eqb_neq _ _) Hl), (proj2 (String.eqb_neq _ _) Hm).
  cbn [negb andb ScanCommandInput.ExclusiveStartKey default from_option id
       Key.Lift Key.Metadata].
  pose proof (filter_above (scanEntries tbl) j ((l, m), item)
                (scanEntries_sorted tbl) (scanEntries_NoDup tbl) Hj) as Hf.
  cbn [fst] in Hf. rewrite Hf.
  rewrite (page_of_drop tbl n (S j) Hwf Hpos). reflexivity.
Qed.

Lemma cursorOf_keyItem (l m : string) :
  cursorOf (keyItem (Key.mk l m)) = (Some l, Some m).
Proof.
  unfold cursorOf, keyItem. cbn [Key.Lift Key.Metadata].
  rewrite lookup_insert_eq.
  rewrite lookup_insert_ne by discriminate. rewrite lookup_insert_eq. reflexivity.
Qed.

(** The cursor of the page at [start]: the key of the record at position
    [start + n - 1] when the table has one, none otherwise. *)
Lemma scanPage_cursor (tbl : Table) (n start : nat) :
  (1 <= n)%nat ->
  ((start + n <= List.length (scanEntries tbl))%nat ->
   exists l m item,
     scanEntries tbl !! (start + n - 1)%nat = Some ((l, m), item)
     /\ PaginatedResponse.lastEvaluatedKey (scanPage tbl n start)
        = Some (keyItem (Key.mk l m)))
  /\ ((List.length (scanEntries tbl) < start + n)%nat ->
      PaginatedResponse.lastEvaluatedKey (scanPage tbl n start) = None).
Proof.
  intros Hpos. unfold scanPage. cbn [PaginatedResponse.lastEvaluatedKey]. split.
  - intros Hfull.
    destruct (Nat.leb_spec (start + n) (List.length (scanEntries tbl))) as [_|]; [|lia].
    destruct (scanEntries tbl !! (start + n - 1)%nat) as [[[l m] item]|] eqn:Ee.
    + exists l, m, item. split; reflexivity.
    + apply lookup_ge_None in Ee. lia.
  - intros Hend.
    destruct (Nat.leb_spec (start + n) (List.length (scanEntries tbl))); [lia|reflexivity].
Qed.

(** The pages collected from position [start] on, with enough fuel: they
    hold the records from [start] on, in order; a page with a cursor holds
    [n] records and one without holds fewer; the last page has no cursor. *)
Lemma followCursor_from (tbl : Table) (limit : number) (n : nat) :
  wfTable tbl -> limitOf limit = Some n ->
  forall (fuel start : nat) (cursor : option string * option string),
    listSkiLifts ddb (ListQueryInput.mk limit cursor.1 cursor.2) tbl
    = (Resolved (scanPage tbl n start), tbl) ->
    (start <= List.length (scanEntries tbl))%nat ->
    (List.length (scanEntries tbl) - start < fuel * n)%nat ->
    let pages := followCursor fuel limit cursor tbl in
    concat (PaginatedResponse.items <$> pages) = drop start (snd <$> scanEntries tbl)
    /\ Forall (fun r =>
                 match PaginatedResponse.lastEvaluatedKey r with
                 | Some _ => List.length (PaginatedResponse.items r) = n
                 | None => (List.length (PaginatedResponse.items r) < n)%nat
                 end) pages
    /\ (exists r, last pages = Some r /\ PaginatedResponse.lastEvaluatedKey r = None)
    /\ List.length pages = S ((List.length (scanEntries tbl) - start) / n).
Proof.
  intros Hwf Hn. pose proof (limitOf_positive _ _ Hn) as Hpos.
  set (E := scanEntries tbl).
  induction fuel as [|fuel IH]; intros start cursor Hcall Hstart Hfuel; [cbn in Hfuel; lia|].
  cbn [followCursor]. rewrite Hcall.
  assert (Hitems : PaginatedResponse.items (scanPage tbl n start)
                   = take n (drop start (snd <$> E))) by reflexivity.
  destruct (scanPage_cursor tbl n start Hpos) as [Hfull Hend]. fold E in Hfull, Hend.
  destruct (Nat.le_gt_cases (start + n) (List.length E)) as [Hle|Hgt].
  - destruct (Hfull Hle) as (l & m & item & He & Hkey). rewrite Hkey.
    rewrite cursorOf_keyItem.
    assert (Hnext : listSkiLifts ddb (ListQueryInput.mk limit (Some l, Some m).1
                                        (Some l, Some m).2) tbl
                    = (Resolved (scanPage tbl n (start + n)), tbl)).
    { cbn [fst snd]. rewrite (listSkiLifts_resume tbl limit n _ l m item Hwf Hn He).
      do 3 f_equal. lia. }
    destruct (IH (start + n)%nat (Some l, Some m) Hnext Hle ltac:(cbn in Hfuel; lia))
      as (Hc & Hf & (r & Hlast & Hnone) & Hlen).
    set (rest := followCursor fuel limit (Some l, Some m) tbl) in *.
    cbv zeta. split; [|split; [|split]].
    + cbn [fmap list_fmap concat]. rewrite Hc, Hitems.
      rewrite <- (take_drop n (drop start (snd <$> E))) at 2.
      rewrite drop_drop. reflexivity.
    + constructor; [|exact Hf]. rewrite Hkey, Hitems.
      rewrite length_take, length_drop, length_fmap. lia.
    + exists r. split; [|exact Hnone]. rewrite last_cons, Hlast. reflexivity.
    + cbn [List.length]. rewrite Hlen. f_equal.
      replace (List.length E - start)%nat
        with (List.length E - (start + n) + 1 * n)%nat by lia.
      rewrite Nat.div_add by lia. lia.
  - rewrite (Hend Hgt). cbv zeta. split; [|split; [|split]].
    + cbn [fmap list_fmap concat]. rewrite app_nil_r, Hitems.
      apply take_ge. rewrite length_drop, length_fmap. lia.
    + constructor; [|constructor]. rewrite (Hend Hgt), Hitems.
      rewrite length_take, length_drop, length_fmap. lia.
    + eexists. split; [reflexivity|]. exact (Hend Hgt).
    + cbn [List.length]. rewrite Nat.div_small by lia. reflexivity.
Qed.

Lemma scanEntries_length (tbl : Table) : List.length (scanEntries tbl) = size tbl.
Proof.
  unfold scanEntries. rewrite (Permutation_length (sortBy_Permutation _ _)).
  apply length_map_to_list.
Qed.

(** X19. On a well-formed table and with an admissible limit [n], a
    client that calls [listSkiLifts] without cursor and then again with the
    [Lift] and [Metadata] of the cursor of each page, until a page has no
    cursor, receives every record of the table exactly once.  A page with a
    cursor holds [n] records and a page without holds fewer, so the last
    page is empty when the number of records is a multiple of [n]; the
    enumeration ends after one call more than the records fill pages. *)
Theorem list_pages_tile_the_table (tbl : Table) (limit : number) (n fuel : nat) :
  wfTable tbl -> limitOf limit = Some n -> (size tbl < fuel * n)%nat ->
  let pages := followCursor fuel limit (None, None) tbl in
  concat (PaginatedResponse.items <$> pages) ≡ₚ snd <$> map_to_list tbl
  /\ (forall r, r ∈ pages ->
        match PaginatedResponse.lastEvaluatedKey r with
        | Some _ => List.length (PaginatedResponse.items r) = n
        | None => (List.length (PaginatedResponse.items r) < n)%nat
        end)
  /\ (exists r, last pages = Some r /\ PaginatedResponse.lastEvaluatedKey r = None)
  /\ List.length pages = S (size tbl / n).
Proof.
  intros Hwf Hn Hfuel pages.
  destruct (followCursor_from tbl limit n Hwf Hn fuel 0 (None, None)
              (listSkiLifts_first tbl limit n Hwf Hn) ltac:(lia)
              ltac:(rewrite scanEntries_length; lia))
    as (Hc & Hf & Hlast & Hlen).
  fold pages in Hc, Hf, Hlast, Hlen.
  split; [|split; [|split]].
  - rewrite Hc. cbn [drop]. unfold scanEntries.
    rewrite (sortBy_Permutation _ (map_to_list tbl)). reflexivity.
  - intros r Hr. rewrite Forall_forall in Hf. exact (Hf r Hr).
  - exact Hlast.
  - rewrite Hlen, scanEntries_length, Nat.sub_0_r. reflexivity.
Qed.

Lemma list_pages_tile_the_table_witness :
  List.length (followCursor 2 3%Q (None, None) sampleTable) = 2%nat
  /\ exists r, last (followCursor 2 3%Q (None, None) sampleTable) = Some r
              /\ PaginatedResponse.lastEvaluatedKey r = None.
Proof.
  assert (Hsize : (size sampleTable < 2 * 3)%nat).
  { assert (E : size sampleTable = 3%nat) by (vm_cast_no_check (eq_refl 3%nat)).
    rewrite E. lia. }
  destruct (list_pages_tile_the_table sampleTable 3%Q 3 2 sampleTable_wf eq_refl Hsize)
    as (_ & _ & Hlast & Hlen).
  split; [|exact Hlast].
  rewrite Hlen.
  assert (E : size sampleTable = 3%nat) by (vm_cast_no_check (eq_refl 3%nat)).
  rewrite E. reflexivity.
Defined.

(* ------------------------------------------------------------------ *)
(** ** The client configuration *)

Lemma envOr_nonempty (env : Env) (name fallback : string) :
  fallback <> "" -> envOr env name fallback <> "".
Proof.
  intros Hf. unfold envOr. destruct (env !! name) as [v|]; [|exact Hf].
  destruct (String.eqb_spec v ""); assumption.
Qed.

Lemma envOr_empty (env : Env) (name : string) :
  envOr env name "" = default "" (env !! name).
Proof.
  unfold envOr. destruct (env !! name) as [v|]; [|reflexivity].
  destruct (String.eqb_spec v "") as [->|]; reflexivity.
Qed.

(** X20. The client built from the environment.  The mode is remote
    exactly when [DYNAMODB_MODE] is set to a non-empty value other than
    "local"; any other setting is local.  A local client always has an
    endpoint (the variable, or "http://localhost:8000") and the credentials
    "dummy"/"dummy".  A remote client has no endpoint and always has
    explicit credentials, read from [AWS_ACCESS_KEY_ID] and
    [AWS_SECRET_ACCESS_KEY]: empty strings when they are not set. *)
Theorem client_settings_from_the_environment (env : Env) :
  let config := getDynamoDBConfig env in
  let client := DocumentClientSettings.clientConfig (createDynamoDBClient config) in
  (DynamoDBConfig.mode config = remote
   <-> exists v, env !! "DYNAMODB_MODE" = Some v /\ v <> "" /\ v <> "local")
  /\ match DynamoDBConfig.mode config with
     | local =>
         ClientConfig.region client = envOr env "DYNAMODB_LOCAL_REGION" "us-east-1"
         /\ ClientConfig.endpoint client
            = Some (envOr env "DYNAMODB_LOCAL_ENDPOINT" "http://localhost:8000")
         /\ ClientConfig.credentials client = Some (Credentials.mk "dummy" "dummy")
     | remote =>
         ClientConfig.region client = envOr env "AWS_REGION" "us-east-1"
         /\ ClientConfig.endpoint client = None
         /\ ClientConfig.credentials client
            = Some (Credentials.mk (default "" (env !! "AWS_ACCESS_KEY_ID"))
                      (default "" (env !! "AWS_SECRET_ACCESS_KEY")))
     end.
Proof.
  intros config client. subst client config. unfold getDynamoDBConfig.
  destruct (String.eqb (envOr env "DYNAMODB_MODE" "local") "local") eqn:E.
  - split.
    + split; [discriminate|]. intros (v & Hv & Hne & Hnl). exfalso.
      unfold envOr in E. rewrite Hv in E.
      rewrite (proj2 (String.eqb_neq _ _) Hne) in E.
      apply String.eqb_eq in E. contradiction.
    + unfold createDynamoDBClient.
      cbn [DynamoDBConfig.mode DynamoDBConfig.endpoint DynamoDBConfig.region
           DynamoDBConfig.credentials truthyString].
      rewrite (proj2 (String.eqb_neq _ _)
                 (envOr_nonempty env "DYNAMODB_LOCAL_ENDPOINT" "http://localhost:8000"
                    ltac:(discriminate))).
      repeat split.
  - split.
    + split; [intros _|reflexivity]. apply String.eqb_neq in E.
      unfold envOr in E. destruct (env !! "DYNAMODB_MODE") as [v|]; [|contradiction].
      exists v. split; [reflexivity|].
      destruct (String.eqb v "") eqn:Ev; [contradiction|].
      apply String.eqb_neq in Ev. auto.
    + unfold createDynamoDBClient.
      cbn [DynamoDBConfig.mode DynamoDBConfig.endpoint DynamoDBConfig.region
           DynamoDBConfig.credentials DocumentClientSettings.clientConfig
           ClientConfig.region ClientConfig.endpoint ClientConfig.credentials].
      rewrite !envOr_empty. repeat split.
Qed.

(* ================================================================== *)
(** * The unit tests of the repository, replayed on the embedding *)

(** [test/unit/schemas/skilift.schemas.test.ts], [listQuerySchema] and
    [queryByRidersSchema]. *)
Example schema_validates_with_only_limit :
  listQuerySchema {[ "limit" := JsNumber (Finite 20%Q) ]}
  = Resolved (ListQueryInput.mk 20%Q None None).
Proof. reflexivity. Qed.

Example schema_uses_default_limit_of_20 :
  listQuerySchema ∅ = Resolved (ListQueryInput.mk 20%Q None None)
  /\ QueryByRidersParsed.limit
       <$> (match queryByRidersSchema {[ "minRiders" := JsNumber (Finite 100%Q) ]} with
            | Resolved q => Some q
            | Rejected _ => None
            end)
     = Some 20%Q.
Proof. split; reflexivity. Qed.

Example schema_rejects_limit_less_than_1 :
  listQuerySchema {[ "limit" := JsNumber (Finite 0%Q) ]}
  = Rejected [ZodIssue.mk "too_small" "limit"].
Proof. reflexivity. Qed.

Example schema_rejects_limit_greater_than_100 :
  listQuerySchema {[ "limit" := JsNumber (Finite 101%Q) ]}
  = Rejected [ZodIssue.mk "too_big" "limit"].
Proof. reflexivity. Qed.

Example schema_allows_empty_pagination_keys :
  listQuerySchema
    (<["limit" := JsNumber (Finite 20%Q)]>
       (<["lastEvaluatedLift" := JsString ""]>
          {[ "lastEvaluatedMetadata" := JsString "" ]}))
  = Resolved (ListQueryInput.mk 20%Q (Some "") (Some "")).
Proof. reflexivity. Qed.

Example schema_rejects_negative_minRiders :
  queryByRidersSchema
    (<["minRiders" := JsNumber (Finite (-10)%Q)]> {[ "limit" := JsNumber (Finite 20%Q) ]})
  = Rejected [ZodIssue.mk "too_small" "minRiders"].
Proof. reflexivity. Qed.

Example schema_accepts_zero_riders :
  queryByRidersSchema
    (<["minRiders" := JsNumber (Finite 0%Q)]>
       (<["maxRiders" := JsNumber (Finite 0%Q)]> {[ "limit" := JsNumber (Finite 20%Q) ]}))
  = Resolved (QueryByRidersParsed.mk (Some (Finite 0%Q)) (Some (Finite 0%Q)) 20%Q).
Proof. reflexivity. Qed.

(** [test/unit/services/skilift.service.test.ts]. *)
Example service_creates_static_data :
  createStaticData (mockClient (fun _ => Resolved Output.empty)) validStaticData []
  = (Resolved validStaticDataResponse,
     [PutCommand (PutCommandInput.mk "SkiLifts" (marshalStatic validStaticDataResponse))]).
Proof. reflexivity. Qed.

Example service_get_throws_NotFoundError_when_item_does_not_exist :
  rejectedWith
    (outcome (getSkiLift (mockClient (fun _ => Resolved Output.empty))
                "NonExistent" "Static Data") [])
    NotFoundErrorClass.
Proof. eexists. split; reflexivity. Qed.

Example service_get_throws_DynamoDBError_on_database_error :
  rejectedWith
    (outcome (getSkiLift
                (mockClient (fun _ => Rejected (createDynamoDBError "InternalServerError"
                                                  "Database error")))
                "Summit Express" "Static Data") [])
    DynamoDBErrorClass.
Proof. eexists. split; reflexivity. Qed.

Example service_update_throws_when_no_fields_to_update :
  rejectedWith
    (outcome (updateStaticData (mockClient (fun _ => Resolved Output.empty))
                "Summit Express" (UpdateStaticDataInput.mk None None None)) [])
    DynamoDBErrorClass.
Proof. eexists. split; reflexivity. Qed.

Example service_list_supports_pagination :
  finalState (listSkiLifts (mockClient (fun _ => Resolved Output.empty))
                (ListQueryInput.mk 10%Q (Some "Previous Lift") (Some "Previous Metadata")))
    []
  = [ScanCommand (ScanCommandInput.mk "SkiLifts" 10%Q
                    (Some (Key.mk "Previous Lift" "Previous Metadata")))].
Proof. reflexivity. Qed.

Example service_query_by_riders_sorts_descending :
  finalState (queryByRiders (mockClient (fun _ => Resolved Output.empty))
                "Summit Express" (QueryByRidersInput.mk (Some 0%Q) None 20%Q)) []
  = [QueryCommand
       (QueryCommandInput.mk "SkiLifts" (Some "SkiLiftsByRiders")
          "Lift = :lift AND TotalUniqueLiftRiders >= :minRiders"
          (<[":minRiders" := AttrN 0%Q]> {[ ":lift" := AttrS "Summit Express" ]})
          20%Q (Some false))].
Proof. reflexivity. Qed.

(** [test/unit/utils/error-handler.test.ts], "should create error with
    cause": the test reads [error.cause] and expects the wrapped error; the
    class leaves the property unset. *)
Example error_created_with_cause_has_none :
  AppError.cause
    (DynamoDBError "Database operation failed"
       (Some (ThrownJs (JsError.mk "Error" "Connection timeout" "Error: Connection timeout"))))
  = None.
Proof. reflexivity. Qed.

(** [test/unit/schemas/skilift.schemas.test.ts], the schemas of the request
    bodies, and the integration tests of the handlers. *)
Example schema_validates_valid_static_data :
  createStaticDataSchema (Some validStaticDataBody) = Resolved validStaticData.
Proof. by_evaluation. Qed.

Example schema_rejects_empty_lift_name :
  createStaticDataSchema (withProp validStaticDataBody "Lift" (JsonString ""))
  = Rejected [ZodIssue.mk "too_small" "Lift"].
Proof. by_evaluation. Qed.

Example schema_rejects_invalid_ExperiencedRidersOnly_type :
  createStaticDataSchema
    (withProp validStaticDataBody "ExperiencedRidersOnly" (JsonString "yes"))
  = Rejected [ZodIssue.mk "invalid_type" "ExperiencedRidersOnly"].
Proof. by_evaluation. Qed.

Example schema_rejects_negative_VerticalFeet :
  createStaticDataSchema (withProp validStaticDataBody "VerticalFeet" (JsonNumber (-100)%Q))
  = Rejected [ZodIssue.mk "too_small" "VerticalFeet"].
Proof. by_evaluation. Qed.

Example schema_rejects_negative_LiftTime :
  createStaticDataSchema (withProp validStaticDataBody "LiftTime" (JsonNumber (-5)%Q))
  = Rejected [ZodIssue.mk "invalid_type" "LiftTime"].
Proof. by_evaluation. Qed.

Example schema_rejects_missing_required_fields :
  createStaticDataSchema (Some (JsonObject {[ "Lift" := JsonString "Test Lift" ]}))
  = Rejected [ ZodIssue.mk "invalid_type" "ExperiencedRidersOnly";
               ZodIssue.mk "invalid_type" "VerticalFeet";
               ZodIssue.mk "invalid_type" "LiftTime" ].
Proof. by_evaluation. Qed.

Example schema_validates_partial_updates :
  updateStaticDataSchema (Some (JsonObject {[ "VerticalFeet" := JsonNumber 3000%Q ]}))
  = Resolved (UpdateStaticDataInput.mk None (Some 3000%Q) None).
Proof. by_evaluation. Qed.

Example schema_allows_empty_object :
  updateStaticDataSchema (Some (JsonObject ∅))
  = Resolved (UpdateStaticDataInput.mk None None None)
  /\ updateDynamicDataSchema (Some (JsonObject ∅))
     = Resolved (UpdateDynamicDataInput.mk None None None None).
Proof. split; by_evaluation. Qed.

Example schema_validates_valid_dynamic_data :
  createDynamicDataSchema (Some validDynamicDataBody) = Resolved validDynamicData.
Proof. by_evaluation. Qed.

Example schema_rejects_empty_metadata :
  createDynamicDataSchema (withProp validDynamicDataBody "Metadata" (JsonString ""))
  = Rejected [ZodIssue.mk "invalid_string" "Metadata"].
Proof. by_evaluation. Qed.

Example schema_rejects_invalid_LiftStatus :
  createDynamicDataSchema (withProp validDynamicDataBody "LiftStatus" (JsonString "MAYBE"))
  = Rejected [ZodIssue.mk "invalid_enum_value" "LiftStatus"].
Proof. by_evaluation. Qed.

Example schema_validates_multiple_field_updates :
  updateDynamicDataSchema
    (Some (JsonObject (list_to_map
       [ ("LiftStatus", JsonString "Closed");
         ("AvalancheDanger", JsonString "High");
         ("TotalUniqueLiftRiders", JsonNumber 0%Q) ])))
  = Resolved (UpdateDynamicDataInput.mk (Some 0%Q) None (Some Closed) (Some High)).
Proof. by_evaluation. Qed.

Example schema_validates_valid_resort_data :
  createResortDataSchema (Some validResortDataBody) = Resolved validResortData.
Proof. by_evaluation. Qed.

Example schema_rejects_negative_open_lifts :
  createResortDataSchema (withProp validResortDataBody "OpenLifts" (JsonNumber (-5)%Q))
  = Rejected [ZodIssue.mk "invalid_type" "OpenLifts"].
Proof. by_evaluation. Qed.

Example schema_accepts_zero_open_lifts :
  createResortDataSchema (withProp validResortDataBody "OpenLifts" (JsonArray []))
  = Resolved (CreateResortDataInput.mk "01/15/24" 8500%Q 42%Q Moderate []).
Proof. by_evaluation. Qed.

Example route_returns_500_on_database_error :
  (createStaticDataRoute
     (mockClient (fun _ => Rejected (createDynamoDBError "InternalServerError"
                                       "Database error")))
     (Some validStaticDataBody) []).1
  = storageFailureReply "Failed to create static data".
Proof. by_evaluation. Qed.

Example route_deletes_ski_lift_data :
  (deleteSkiLiftRoute (mockClient (fun _ => Resolved Output.empty))
     (recordParams "Summit Express" "Static Data") []).1
  = Response.mk 204%Z None.
Proof. by_evaluation. Qed.
